(** * tfsdb-fast-export: the export pipeline, embedded and verified

    A shallow embedding of the parts of [tfsdb.py] and [fastimport.py]
    that the specification makes claims about: path unmangling, the
    MD5-validating block iterator, the mark allocator and the merge-parent
    resolution of the export driver, the per-changeset command stream, and
    the fast-import serializer (path check, path quoting, mode tokens,
    file-modify construction and serialization).

    Conventions of the embedding.
    - A Python [str] is a [string]; the characters the code inspects are all
      ASCII, so a non-ASCII text is represented by its UTF-8 bytes and
      [str.encode('utf-8')] is the conversion to [list byte].
    - A Python [bytes] is a [list byte].
    - A Python [int] is a [Z] (unbounded).
    - A value that may be [None] is an [option].
    - A call that may raise returns a [result]; the exception classes that
      the code raises or provokes are the constructors of [exn]. *)

From Stdlib Require Import ZArith List Strings.String Strings.Ascii Strings.Byte Lia Bool.
From Stdlib Require Import Sorting.Sorted.
From stdpp Require Import gmap strings list.

Local Open Scope Z_scope.

(** ** Python values and exceptions *)

Module Py.

Definition bytes := list byte.

#[export] Instance byte_eq_dec : EqDecision byte := Byte.byte_eq_dec.

Inductive exn : Type :=
| Exception (msg : string)
| ValueError (msg : string)
| AssertionError (msg : string)
| KeyError
| TypeError
| AttributeError
| OverflowError
| ReError (msg : string).

Inductive result (A : Type) : Type :=
| Ok (a : A)
| Raise (e : exn).
Arguments Ok {A} a.
Arguments Raise {A} e.

Definition bind {A B} (r : result A) (k : A -> result B) : result B :=
  match r with
  | Ok a => k a
  | Raise e => Raise e
  end.

Definition is_ok {A} (r : result A) : bool :=
  match r with Ok _ => true | Raise _ => false end.

(** Characters that cannot be written inside a literal. *)
Definition LF : ascii := ascii_of_nat 10.
Definition CR : ascii := ascii_of_nat 13.
Definition DQUOTE : ascii := ascii_of_nat 34.
Definition BACKSLASH : ascii := ascii_of_nat 92.
Definition SPACE : ascii := ascii_of_nat 32.
Definition SLASH : ascii := ascii_of_nat 47.

(** [s.replace(old, new)] for a one-character [old]. *)
Fixpoint str_replace (old : ascii) (new : string) (s : string) : string :=
  match s with
  | EmptyString => EmptyString
  | String c rest =>
      if Ascii.eqb c old then new +:+ str_replace old new rest
      else String c (str_replace old new rest)
  end.

(** [s.endswith(c)] for a one-character [c]. *)
Fixpoint str_endswith (s : string) (c : ascii) : bool :=
  match s with
  | EmptyString => false
  | String a EmptyString => Ascii.eqb a c
  | String _ rest => str_endswith rest c
  end.

(** [s.startswith(c)] for a one-character [c]. *)
Definition str_startswith (s : string) (c : ascii) : bool :=
  match s with
  | EmptyString => false
  | String a _ => Ascii.eqb a c
  end.

(** [s[:-1]]. *)
Fixpoint str_drop_last (s : string) : string :=
  match s with
  | EmptyString => EmptyString
  | String _ EmptyString => EmptyString
  | String a rest => String a (str_drop_last rest)
  end.

(** [c in s] for a one-character [c]. *)
Fixpoint str_contains (c : ascii) (s : string) : bool :=
  match s with
  | EmptyString => false
  | String a rest => Ascii.eqb a c || str_contains c rest
  end.

(** [s.encode('utf-8')] and a [bytes] literal. *)
Definition encode (s : string) : bytes := list_byte_of_string s.
Definition b (s : string) : bytes := list_byte_of_string s.

(** Truthiness of an optional text: [None] and [''] are falsy. *)
Definition truthy_str (o : option string) : bool :=
  match o with
  | None => false
  | Some EmptyString => false
  | Some _ => true
  end.

(** Truthiness of an optional integer: [None] and [0] are falsy. *)
Definition truthy_int (o : option Z) : bool :=
  match o with
  | None => false
  | Some n => negb (n =? 0)
  end.

(** [str(x)] of an optional text, as [format] and [%s] print it. *)
Definition fmt_s (o : option string) : string :=
  match o with
  | None => "None"
  | Some s => s
  end.

(** Digits of a non-negative integer in a base up to ten. *)
Definition digit_char (d : Z) : ascii := ascii_of_nat (48 + Z.to_nat d).

Fixpoint digits (base : Z) (fuel : nat) (n : Z) (acc : string) : string :=
  match fuel with
  | O => acc
  | S fuel' =>
      let acc' := String (digit_char (n mod base)) acc in
      if n / base =? 0 then acc' else digits base fuel' (n / base) acc'
  end.

Definition fmt_int (base : Z) (n : Z) : string :=
  if n <? 0 then "-" +:+ digits base (S (Z.to_nat (Z.log2 (- n)))) (- n) ""
  else digits base (S (Z.to_nat (Z.log2 n))) n "".

(** [%d] and [%o]. *)
Definition fmt_d (n : Z) : string := fmt_int 10 n.
Definition fmt_o (n : Z) : string := fmt_int 8 n.

(** An octal literal, [octal "755"] for [0o755]. *)
Definition octal (s : string) : Z :=
  fold_left (fun acc c => acc * 8 + (Z.of_nat (nat_of_ascii c) - 48))
            (list_ascii_of_string s) 0.

(** *** The iterator protocol

    [next] either yields a block and the advanced iterator, or signals
    the end ([StopIteration]), or raises.  [size_hint] bounds the number
    of blocks a finite iterator still holds; [list(it)] and a [for] loop
    call [next] until it stops or raises. *)

Inductive next_result (I : Type) : Type :=
| Yield (blk : bytes) (it : I)
| StopIteration
| Raised (e : exn).
Arguments Yield {I} blk it.
Arguments StopIteration {I}.
Arguments Raised {I} e.

Class Iterator (I : Type) : Type := {
  next : I -> next_result I;
  size_hint : I -> nat
}.

Inductive ending : Type :=
| Finished
| Failed (e : exn)
| Unfinished.

Fixpoint drain {I} `{Iterator I} (fuel : nat) (it : I) : list bytes * ending :=
  match fuel with
  | O => ([], Unfinished)
  | S fuel' =>
      match next it with
      | Yield blk it' =>
          let '(blks, e) := drain fuel' it' in (blk :: blks, e)
      | StopIteration => ([], Finished)
      | Raised e => ([], Failed e)
      end
  end.

Definition consume {I} `{Iterator I} (it : I) : list bytes * ending :=
  drain (S (size_hint it)) it.

(** [iter(l)] for a list of blocks. *)
#[export] Instance list_iterator : Iterator (list bytes) := {
  next l := match l with
            | [] => StopIteration
            | blk :: rest => Yield blk rest
            end;
  size_hint l := length l
}.

(** A dictionary subscript [d[k]]. *)
Definition getitem `{Countable K} {V} (d : gmap K V) (k : K) : result V :=
  match d !! k with
  | Some v => Ok v
  | None => Raise KeyError
  end.

End Py.

Import Py.

Notation "'do' x <- c1 ; c2" := (Py.bind c1 (fun x => c2))
  (at level 10, x name, c1 at level 100, c2 at level 200).

(** ** [hashlib.md5] (RFC 1321)

    The hash object is modelled by the bytes fed to it so far: feeding
    [a] and then [b] is feeding [a + b], and [digest()] is the MD5 of
    everything fed. *)

Module Hashlib.

Definition wrap32 (x : Z) : Z := x mod 2 ^ 32.

Definition rotl (x c : Z) : Z :=
  wrap32 (Z.lor (Z.shiftl x c) (Z.shiftr x (32 - c))).

Definition not32 (x : Z) : Z := Z.lxor x (2 ^ 32 - 1).

Definition shifts : list Z :=
  [7; 12; 17; 22; 7; 12; 17; 22; 7; 12; 17; 22; 7; 12; 17; 22;
   5; 9; 14; 20; 5; 9; 14; 20; 5; 9; 14; 20; 5; 9; 14; 20;
   4; 11; 16; 23; 4; 11; 16; 23; 4; 11; 16; 23; 4; 11; 16; 23;
   6; 10; 15; 21; 6; 10; 15; 21; 6; 10; 15; 21; 6; 10; 15; 21].

(** [floor (abs (sin (i + 1)) * 2^32)] for [i] from 0 to 63. *)
Definition sines : list Z :=
  [3614090360; 3905402710; 606105819; 3250441966; 4118548399; 1200080426;
   2821735955; 4249261313; 1770035416; 2336552879; 4294925233; 2304563134;
   1804603682; 4254626195; 2792965006; 1236535329; 4129170786; 3225465664;
   643717713; 3921069994; 3593408605; 38016083; 3634488961; 3889429448;
   568446438; 3275163606; 4107603335; 1163531501; 2850285829; 4243563512;
   1735328473; 2368359562; 4294588738; 2272392833; 1839030562; 4259657740;
   2763975236; 1272893353; 4139469664; 3200236656; 681279174; 3936430074;
   3572445317; 76029189; 3654602809; 3873151461; 530742520; 3299628645;
   4096336452; 1126891415; 2878612391; 4237533241; 1700485571; 2399980690;
   4293915773; 2240044497; 1873313359; 4264355552; 2734768916; 1309151649;
   4149444226; 3174756917; 718787259; 3951481745].

Definition byte_val (x : byte) : Z := Z.of_N (Byte.to_N x).

Definition byte_of_Z (x : Z) : byte :=
  match Byte.of_N (Z.to_N (x mod 256)) with
  | Some y => y
  | None => x00
  end.

(** [n] bytes of [x], least significant first. *)
Fixpoint le_bytes (n : nat) (x : Z) : list byte :=
  match n with
  | O => []
  | S n' => byte_of_Z x :: le_bytes n' (Z.shiftr x 8)
  end.

(** The value of a little-endian byte sequence. *)
Fixpoint le_value (l : list byte) : Z :=
  match l with
  | [] => 0
  | x :: rest => byte_val x + 256 * le_value rest
  end.

Definition pad (msg : bytes) : bytes :=
  let len := Z.of_nat (length msg) in
  msg ++ [x80] ++ repeat x00 (Z.to_nat ((55 - len) mod 64))
      ++ le_bytes 8 ((8 * len) mod 2 ^ 64).

(** Cut a byte sequence into pieces of [n] bytes. *)
Fixpoint pieces (fuel n : nat) (l : list byte) : list (list byte) :=
  match fuel, l with
  | O, _ => []
  | _, [] => []
  | S fuel', _ => firstn n l :: pieces fuel' n (skipn n l)
  end.

Definition words_of_block (block : list byte) : list Z :=
  map le_value (pieces 16 4 block).

Record regs := Regs { rA : Z; rB : Z; rC : Z; rD : Z }.

Definition round (M : list Z) (r : regs) (i : Z) : regs :=
  let '(F, g) :=
    if i <? 16 then
      (Z.lor (Z.land (rB r) (rC r)) (Z.land (not32 (rB r)) (rD r)), i)
    else if i <? 32 then
      (Z.lor (Z.land (rD r) (rB r)) (Z.land (not32 (rD r)) (rC r)),
       (5 * i + 1) mod 16)
    else if i <? 48 then
      (Z.lxor (rB r) (Z.lxor (rC r) (rD r)), (3 * i + 5) mod 16)
    else
      (Z.lxor (rC r) (Z.lor (rB r) (not32 (rD r))), (7 * i) mod 16) in
  let F' := wrap32 (F + rA r + nth (Z.to_nat i) sines 0 + nth (Z.to_nat g) M 0) in
  Regs (rD r) (wrap32 (rB r + rotl F' (nth (Z.to_nat i) shifts 0))) (rB r) (rC r).

Definition compress (h : regs) (block : list byte) : regs :=
  let r := fold_left (round (words_of_block block)) (map Z.of_nat (seq 0 64)) h in
  Regs (wrap32 (rA h + rA r)) (wrap32 (rB h + rB r))
       (wrap32 (rC h + rC r)) (wrap32 (rD h + rD r)).

Definition initial : regs := Regs 1732584193 4023233417 2562383102 271733878.

Definition md5_digest (msg : bytes) : bytes :=
  let padded := pad msg in
  let h := fold_left compress (pieces (length padded) 64 padded) initial in
  le_bytes 4 (rA h) ++ le_bytes 4 (rB h) ++ le_bytes 4 (rC h) ++ le_bytes 4 (rD h).

(** The hash object. *)
Record md5 := { fed : bytes }.

Definition new : md5 := {| fed := [] |}.
Definition update (h : md5) (data : bytes) : md5 := {| fed := fed h ++ data |}.
Definition digest (h : md5) : bytes := md5_digest (fed h).

End Hashlib.


(** ** [re.sub] with a literal one-character pattern

    The replacement is a template: [re] processes the backslash escapes in
    it before substituting.  Group references and octal escapes, which the
    program's template does not contain, are rejected here. *)

Module Re.

Definition escape_char (c : ascii) : option ascii :=
  if Ascii.eqb c "a" then Some (ascii_of_nat 7)
  else if Ascii.eqb c "b" then Some (ascii_of_nat 8)
  else if Ascii.eqb c "f" then Some (ascii_of_nat 12)
  else if Ascii.eqb c "n" then Some (ascii_of_nat 10)
  else if Ascii.eqb c "r" then Some (ascii_of_nat 13)
  else if Ascii.eqb c "t" then Some (ascii_of_nat 9)
  else if Ascii.eqb c "v" then Some (ascii_of_nat 11)
  else if Ascii.eqb c BACKSLASH then Some BACKSLASH
  else None.

Definition is_alnum (c : ascii) : bool :=
  let n := nat_of_ascii c in
  ((48 <=? n) && (n <=? 57) || (65 <=? n) && (n <=? 90)
   || (97 <=? n) && (n <=? 122))%nat.

Fixpoint expand_template (repl : string) : result string :=
  match repl with
  | EmptyString => Ok EmptyString
  | String c rest =>
      if Ascii.eqb c BACKSLASH then
        match rest with
        | EmptyString => Raise (ReError "bad escape (end of pattern)")
        | String e rest' =>
            match escape_char e with
            | Some x => do r <- expand_template rest'; Ok (String x r)
            | None =>
                if is_alnum e then Raise (ReError "bad escape")
                else do r <- expand_template rest'; Ok (String c (String e r))
            end
        end
      else do r <- expand_template rest; Ok (String c r)
  end.

Definition sub (pattern : ascii) (repl : string) (s : string) : result string :=
  do r <- expand_template repl; Ok (str_replace pattern r s).

End Re.

(** ** [stat] *)

Module Stat.

Definition S_IFDIR : Z := octal "040000".

Definition S_IFMT (mode : Z) : Z := Z.land mode (octal "170000").

Definition S_ISDIR (mode : Z) : bool := S_IFMT mode =? S_IFDIR.

End Stat.

(** ** The fast-import serializer ([fastimport.py]) *)

Module Fastimport.

Record who_when := {
  ww_name : string;
  ww_email : string;
  ww_secs : Z;
  ww_offset : Z
}.

(** [format_mark]: a numerical id as a mark identifier. *)
Definition format_mark (id : Z) : bytes := b ":" ++ encode (fmt_d id).

(** [check_path]: the path if it is legal, [ValueError] otherwise. *)
Definition check_path (path : option string) : result string :=
  match path with
  | None => Raise (ValueError ("illegal path '" +:+ fmt_s None +:+ "'"))
  | Some p =>
      if String.eqb p "" || str_startswith p SLASH
      then Raise (ValueError ("illegal path '" +:+ p +:+ "'"))
      else Ok p
  end.

(** [format_path]: a path in UTF-8, quoted if necessary. *)
Definition format_path (p : string) (quote_spaces : bool) : result bytes :=
  do pq <- (if str_contains LF p then
              do p' <- Re.sub LF (String BACKSLASH "n") p; Ok (p', true)
            else
              Ok (p, str_startswith p DQUOTE
                     || (quote_spaces && str_contains SPACE p)));
  let p1 := if snd pq then String DQUOTE (fst pq +:+ String DQUOTE "")
            else fst pq in
  Ok (encode p1).

(** [FileModifyCommand._format_mode]. *)
Definition _format_mode (mode : Z) : result bytes :=
  if (mode =? octal "755") || (mode =? octal "100755") then Ok (b "755")
  else if (mode =? octal "644") || (mode =? octal "100644") then Ok (b "644")
  else if mode =? octal "40000" then Ok (b "040000")
  else if mode =? octal "120000" then Ok (b "120000")
  else if mode =? octal "160000" then Ok (b "160000")
  else Raise (AssertionError ("Unknown mode " +:+ fmt_o mode)).

(** What a serialization wrote to the stream, and how it ended. *)
Definition written : Type := bytes * ending.

Definition total_length (blocks : list bytes) : Z :=
  fold_left (fun n blk => n + Z.of_nat (length blk)) blocks 0.

Section Commands.

(** The type of the block iterators carried by blobs. *)
Context {I : Type} `{Iterator I}.

(** Blob data: a [bytes] object or a [BlobFragmentIterator]. *)
Inductive blob : Type :=
| Bytes (value : bytes)
| BlobFragmentIterator (size : Z) (iterator : I).

(** [len(value)]; a [__len__] result must fit a non-negative
    [Py_ssize_t]. *)
Definition blob_len (value : blob) : result Z :=
  match value with
  | Bytes v => Ok (Z.of_nat (length v))
  | BlobFragmentIterator size _ =>
      if size <? 0 then Raise (ValueError "__len__() should return >= 0")
      else if 2 ^ 63 <=? size then Raise OverflowError
      else Ok size
  end.

(** [serialize_data]: a data command for a [bytes] object or a
    fragmented blob. *)
Definition serialize_data (value : blob) : written :=
  match blob_len value with
  | Raise e => ([], Failed e)
  | Ok n =>
      let header := b "data " ++ encode (fmt_d n) ++ encode (String LF "") in
      match value with
      | Bytes v => (header ++ v ++ encode (String LF ""), Finished)
      | BlobFragmentIterator _ iterator =>
          let '(blocks, e) := consume iterator in
          let body := header ++ concat blocks in
          match e with
          | Failed err => (body, Failed err)
          | Unfinished => (body, Unfinished)
          | Finished =>
              let cnt := n - total_length blocks in
              if negb (cnt =? 0) then
                (body,
                 Failed (Exception
                   ("fragmented blob length mismatch (declared: "
                    +:+ fmt_d n +:+ ", effective: " +:+ fmt_d (n - cnt)
                    +:+ ")")))
              else (body ++ encode (String LF ""), Finished)
          end
      end
  end.

Inductive Command : Type :=
| CommitCommand (ref : string) (mark : Z) (author : option who_when)
    (committer : who_when) (message : option string) (merges : list bytes)
| ProgressCommand (message : string)
| FileModifyCommand (path : string) (mode : Z) (dataref : option bytes)
    (data : option blob)
| FileDeleteCommand (path : string)
| FileCopyCommand (src_path dest_path : string)
| FileRenameCommand (old_path new_path : string)
| FileDeleteAllCommand.

(** The constructors ([__init__]) that validate their arguments. *)

Definition ProgressCommand_init (message : string) : result Command :=
  if str_contains LF message
  then Raise (Exception "message must not contain any newlines")
  else Ok (ProgressCommand message).

Definition FileModifyCommand_init (path : option string) (mode : Z)
    (dataref : option bytes) (data : option blob) : result Command :=
  if Bool.eqb (bool_decide (dataref = None)) (bool_decide (data = None))
  then Raise (Exception "please provide either dataref or data")
  else do p <- check_path path; Ok (FileModifyCommand p mode dataref data).

Definition FileDeleteCommand_init (path : option string) : result Command :=
  do p <- check_path path; Ok (FileDeleteCommand p).

Definition FileCopyCommand_init (src_path dest_path : option string)
    : result Command :=
  do s <- check_path src_path;
  do d <- check_path dest_path;
  Ok (FileCopyCommand s d).

Definition FileRenameCommand_init (old_path new_path : option string)
    : result Command :=
  do o <- check_path old_path;
  do n <- check_path new_path;
  Ok (FileRenameCommand o n).

(** [FileModifyCommand.serialize]. *)
Definition FileModifyCommand_serialize (path : string) (mode : Z)
    (dataref : option bytes) (data : option blob) : written :=
  let dataref' :=
    if Stat.S_ISDIR mode then b "-"
    else match dataref with
         | Some d => d
         | None => b "inline"
         end in
  match (do m <- _format_mode mode;
         do p <- format_path path false;
         Ok (b "M " ++ m ++ b " " ++ dataref' ++ b " " ++ p
               ++ encode (String LF ""))) with
  | Raise e => ([], Failed e)
  | Ok line =>
      match data with
      | None => (line, Finished)
      | Some value =>
          let '(out, e) := serialize_data value in (line ++ out, e)
      end
  end.

(** The paths a command carries. *)
Definition command_paths (c : Command) : list string :=
  match c with
  | FileModifyCommand p _ _ _ => [p]
  | FileDeleteCommand p => [p]
  | FileCopyCommand s d => [s; d]
  | FileRenameCommand o n => [o; n]
  | _ => []
  end.

End Commands.

Arguments blob : clear implicits.
Arguments Command : clear implicits.

End Fastimport.

(** ** The TFS database reader and the export driver ([tfsdb.py]) *)

Module Tfsdb.

Import Fastimport.

Definition msdelta_decompress_on_disk_threshold : Z := 10000000.
Definition oversize_warning_limit : Z := 10000000.

(** *** TFS utilities *)

(** [tfs_unmangle_path]: undo the escaping TFS applies to path names. *)
Definition tfs_unmangle_path (path : string) : string :=
  let tmp :=
    str_replace "|"%char "%"
      (str_replace DQUOTE "-" (str_replace ">"%char "_" path)) in
  if str_endswith tmp BACKSLASH then str_drop_last tmp else tmp.

(** The text ends with two backslashes. *)
Definition ends_with_two_backslashes (x : string) : bool :=
  str_endswith x BACKSLASH && str_endswith (str_drop_last x) BACKSLASH.

(** *** Splitting rows by branch *)

(** The configured hooks that partition and filter rows.
    [branch_extract] returns a (branch, relative path) pair, either of
    which may be [None]. *)
Record ExporterHooks := {
  branch_extract : string -> option string * option string;
  file_filter : string -> string -> bool
}.

(** [d[k].append(v)] on a [defaultdict(list)]; the dictionary keeps its
    keys in insertion order. *)
Fixpoint dict_append {V} (k : string) (v : V) (d : list (string * list V))
    : list (string * list V) :=
  match d with
  | [] => [(k, [v])]
  | (k', vs) :: rest =>
      if String.eqb k' k then (k', vs ++ [v]) :: rest
      else (k', vs) :: dict_append k v rest
  end.

(** The branch and relative path of a row that is kept, [None] for a row
    that is skipped ([not branch or (relpath and not file_filter(...))]). *)
Definition kept (hooks : ExporterHooks) (full_path : string)
    : option (string * option string) :=
  let '(branch, relpath) := branch_extract hooks (tfs_unmangle_path full_path) in
  match branch with
  | None => None
  | Some br =>
      if negb (truthy_str (Some br))
         || match relpath with
            | Some rp => truthy_str (Some rp) && negb (file_filter hooks br rp)
            | None => false
            end
      then None
      else Some (br, relpath)
  end.

(** [split_and_filter_file_rows]; [wrap] is [RowRelPath] when
    [return_rel_paths] is set and drops the relative path otherwise. *)
Definition split_and_filter_file_rows {Row V} (rows : list Row)
    (hooks : ExporterHooks) (full_path_hook : Row -> string)
    (wrap : Row -> option string -> V) : list (string * list V) :=
  fold_left
    (fun result row =>
       match kept hooks (full_path_hook row) with
       | None => result
       | Some (branch, relpath) => dict_append branch (wrap row relpath) result
       end)
    rows [].

(** *** [MD5ValidatingIterator] *)

Record MD5ValidatingIterator (I : Type) := {
  expected_checksum : bytes;
  iter : I;
  context : option Z;
  running_checksum : Hashlib.md5
}.
Arguments expected_checksum {I} _.
Arguments iter {I} _.
Arguments context {I} _.
Arguments running_checksum {I} _.

Definition MD5ValidatingIterator_init {I} (checksum : bytes)
    (coll_or_iter : I) (context : option Z) : MD5ValidatingIterator I :=
  {| expected_checksum := checksum;
     iter := coll_or_iter;
     context := context;
     running_checksum := Hashlib.new |}.

Definition checksum_mismatch (context : option Z) : exn :=
  Exception ("checksum mismatch (in context: "
             +:+ fmt_s (fmt_d <$> context) +:+ ")").

Definition MD5ValidatingIterator_next {I} `{Iterator I}
    (self : MD5ValidatingIterator I) : next_result (MD5ValidatingIterator I) :=
  match next (iter self) with
  | Yield tmp it' =>
      Yield tmp
        {| expected_checksum := expected_checksum self;
           iter := it';
           context := context self;
           running_checksum := Hashlib.update (running_checksum self) tmp |}
  | StopIteration =>
      if bool_decide
           (Hashlib.digest (running_checksum self) <> expected_checksum self)
      then Raised (checksum_mismatch (context self))
      else StopIteration
  | Raised e => Raised e
  end.

#[global] Instance MD5ValidatingIterator_iterator {I} `{Iterator I}
    : Iterator (MD5ValidatingIterator I) := {
  next := MD5ValidatingIterator_next;
  size_hint self := size_hint (iter self)
}.

(** *** File operations *)

Record FileOperation := {
  id : Z;
  fullpath : option string
}.

Record FileContentChange := {
  base : FileOperation;
  file_length : Z;
  compressed_length : Z;
  compression_type : Z;
  content_type : Z;
  content_hash : bytes
}.

Section Content.

(** The block iterators of the environment, and the collaborators that
    produce them: the content rows of the database, [zlib], and the
    scratch storage that holds the revisions rebuilt from deltas. *)
Context {Blocks : Type} `{Iterator Blocks}.
Variable content_blocks_cb : Z -> result Blocks.
Variable zlib_decompress : Blocks -> Blocks.
Variable tempdir_unpack_and_read : Z -> result Blocks.

(** [tfs_decompress]: decompress a blob series. *)
Definition tfs_decompress (compression_type : Z) (blockiter : Blocks)
    : result Blocks :=
  if compression_type =? 0 then Ok blockiter
  else if compression_type =? 1 then Ok (zlib_decompress blockiter)
  else Raise (Exception ("unexpected compression type "
                         +:+ fmt_d compression_type)).

(** [FileContentChange.content]: the file content in byte blocks. *)
Definition content (self : FileContentChange)
    : result (MD5ValidatingIterator Blocks) :=
  do blocks <-
    (if content_type self =? 1 then
       do raw <- content_blocks_cb (id (base self));
       tfs_decompress (compression_type self) raw
     else if content_type self =? 2 then
       tempdir_unpack_and_read (id (base self))
     else
       Raise (Exception ("unexpected content type "
                         +:+ fmt_d (content_type self) +:+ " for file "
                         +:+ fmt_d (id (base self)))));
  Ok (MD5ValidatingIterator_init (content_hash self) blocks
        (Some (id (base self)))).

End Content.

(** *** Changesets *)

Record User := {
  tfs_id : Z;
  domain : string;
  login : string;
  display_name : string
}.

(** A row of [tbl_Version] joined with [tbl_File]. *)
Record FileRow := {
  FileId : option Z;
  DeletionId : Z;
  FileLength : Z;
  CompressedLength : Z;
  CompressionType : Z;
  ContentType : Z;
  HashValue : bytes
}.

(** A row of [tbl_MergeHistory] with the two joined paths. *)
Record MergeRow := {
  TargetFullPath : string;
  SourceFullPath : string;
  SourceVersionTo : Z
}.

Record Changeset (Timestamp : Type) := {
  hooks : ExporterHooks;
  cs_id : Z;
  owner : User;
  creationDate : Timestamp;
  comment : option string;
  committer : User;
  branch : string;
  rowsRelPaths : list (FileRow * option string);
  mergerows : list MergeRow
}.
Arguments hooks {Timestamp} _.
Arguments cs_id {Timestamp} _.
Arguments owner {Timestamp} _.
Arguments creationDate {Timestamp} _.
Arguments comment {Timestamp} _.
Arguments committer {Timestamp} _.
Arguments branch {Timestamp} _.
Arguments rowsRelPaths {Timestamp} _.
Arguments mergerows {Timestamp} _.

(** [Changeset.changes]: the content changes of the commit. *)
Definition changes {T} (self : Changeset T) : list FileContentChange :=
  omap
    (fun '(row, relpath) =>
       if negb (DeletionId row =? 0) || negb (truthy_int (FileId row))
       then None
       else
         Some {| base := {| id := default 0 (FileId row); fullpath := relpath |};
                 file_length := FileLength row;
                 compressed_length := CompressedLength row;
                 compression_type := CompressionType row;
                 content_type := ContentType row;
                 content_hash := HashValue row |})
    (rowsRelPaths self).

(** [Changeset.deletes]: the deletions of the commit. *)
Definition deletes {T} (self : Changeset T) : list FileOperation :=
  omap
    (fun '(row, relpath) =>
       if (DeletionId row =? 0) || negb (truthy_int (FileId row))
       then None
       else Some {| id := default 0 (FileId row); fullpath := relpath |})
    (rowsRelPaths self).

(** [max] of a non-empty list, [None] for an empty one
    ([max(l) if l else None]). *)
Definition max_or_none (l : list Z) : option Z :=
  match l with
  | [] => None
  | x :: rest => Some (fold_left Z.max rest x)
  end.

(** [Changeset.merges]: (branch name, changeset id) pairs; the changeset
    id is [None] if it cannot be reconstructed any more. *)
Definition merges {T} (self : Changeset T) : list (string * option Z) :=
  let mergerowsBySourceBranch :=
    split_and_filter_file_rows (mergerows self) (hooks self)
      SourceFullPath (fun row _ => row) in
  map
    (fun '(b, rows) =>
       let sourceVersions :=
         map SourceVersionTo
           (filter (fun r => SourceVersionTo r < cs_id self) rows) in
       (b, max_or_none sourceVersions))
    mergerowsBySourceBranch.

(** *** Mark generation *)

Record MarkState := {
  marks : gmap (Z * string) Z;
  marks_last_changesetId : option Z;
  marks_last_issued : option Z;
  marks_last_issued_per_branch : gmap string Z
}.

Definition no_marks : MarkState :=
  {| marks := ∅;
     marks_last_changesetId := None;
     marks_last_issued := None;
     marks_last_issued_per_branch := ∅ |}.

(** [generate_mark]: a new mark for a changeset on a branch.  Adding one
    to a last mark that was never issued would be a [TypeError]. *)
Definition generate_mark (branch : string) (changesetId : Z) (st : MarkState)
    : result (Z * MarkState) :=
  do issued <-
    (if bool_decide (Some changesetId <> marks_last_changesetId st)
     then Ok (changesetId * 100)
     else match marks_last_issued st with
          | Some n => Ok (n + 1)
          | None => Raise TypeError
          end);
  let mark := issued in
  Ok (mark,
      {| marks := <[(changesetId, branch) := mark]> (marks st);
         marks_last_changesetId := Some changesetId;
         marks_last_issued := Some issued;
         marks_last_issued_per_branch :=
           <[branch := mark]> (marks_last_issued_per_branch st) |}).

(** A sequence of allocations, threading the state. *)
Fixpoint generate_marks (calls : list (string * Z)) (st : MarkState)
    : result (list Z * MarkState) :=
  match calls with
  | [] => Ok ([], st)
  | (branch, changesetId) :: rest =>
      do r <- generate_mark branch changesetId st;
      do rs <- generate_marks rest (snd r);
      Ok (fst r :: fst rs, snd rs)
  end.

(** The mark of one merge parent: the body of the loop over
    [cs.merges()]. *)
Definition merge_mark (st : MarkState) (m : string * option Z) : result Z :=
  let '(branch, version) := m in
  if truthy_int version
  then getitem (marks st) (default 0 version, branch)
  else getitem (marks_last_issued_per_branch st) branch.

(** The loop over [cs.merges()] that builds [merge_marks]. *)
Fixpoint merge_marks (st : MarkState) (ms : list (string * option Z))
    : result (list Z) :=
  match ms with
  | [] => Ok []
  | m :: rest =>
      do mark <- merge_mark st m;
      do others <- merge_marks st rest;
      Ok (mark :: others)
  end.

(** [git_mangle_path]: git expects forward slashes.  A path that is
    [None] has no [replace]. *)
Definition git_mangle_path (path : option string) : result string :=
  match path with
  | None => Raise AttributeError
  | Some p => Ok (str_replace BACKSLASH "/" p)
  end.

(** *** The export driver: [fastexport_commands]

    The driver is a generator.  A run of a piece of it is the list of
    commands it yields, its result or the exception that ends it, and the
    driver's state afterwards: the mark tables and the warnings handed
    to the warning hook. *)

Record DriverState := {
  mark_state : MarkState;
  warnings : list string
}.

Section Driver.

Context {Blocks : Type} `{Iterator Blocks}.
Context {Timestamp : Type}.

(** The collaborators of [content] (see above), the user lookup with
    its time arithmetic ([who_when]), and the local rendering of a
    timestamp in the progress message. *)
Variable content_blocks_cb : Z -> result Blocks.
Variable zlib_decompress : Blocks -> Blocks.
Variable tempdir_unpack_and_read : Z -> result Blocks.
Variable who_when_of : User -> Timestamp -> result who_when.
Variable local_time : Timestamp -> string.

(** The content handed to a blob: the validating iterator of
    [content], the literal list of the [no_content] mode, or what the
    [content_rewrite] hook returns. *)
Inductive content_stream : Type :=
| Validated (v : MD5ValidatingIterator Blocks)
| Literal (l : list bytes)
| Rewritten (r : Blocks).

Definition content_stream_next (s : content_stream)
    : next_result content_stream :=
  match s with
  | Validated v =>
      match next v with
      | Yield blk v' => Yield blk (Validated v')
      | StopIteration => StopIteration
      | Raised e => Raised e
      end
  | Literal l =>
      match next l with
      | Yield blk l' => Yield blk (Literal l')
      | StopIteration => StopIteration
      | Raised e => Raised e
      end
  | Rewritten r =>
      match next r with
      | Yield blk r' => Yield blk (Rewritten r')
      | StopIteration => StopIteration
      | Raised e => Raised e
      end
  end.

#[global] Instance content_stream_iterator : Iterator content_stream := {
  next := content_stream_next;
  size_hint s := match s with
                 | Validated v => size_hint v
                 | Literal l => size_hint l
                 | Rewritten r => size_hint r
                 end
}.

(** The [content_rewrite] hook, if configured. *)
Variable content_rewrite :
  option (string -> option string -> Z -> MD5ValidatingIterator Blocks
          -> result (Z * content_stream)).

Definition Cmd : Type := Command content_stream.

Definition Gen (A : Type) : Type :=
  DriverState -> list Cmd * result A * DriverState.

Definition gret {A} (a : A) : Gen A := fun s => ([], Ok a, s).

Definition gbind {A B} (m : Gen A) (k : A -> Gen B) : Gen B :=
  fun s =>
    let '(out1, r, s1) := m s in
    match r with
    | Ok a => let '(out2, r2, s2) := k a s1 in (out1 ++ out2, r2, s2)
    | Raise e => (out1, Raise e, s1)
    end.

Local Notation "'gen' x <- c1 ; c2" := (gbind c1 (fun x => c2))
  (at level 10, x name, c1 at level 100, c2 at level 200).

Definition yield (c : Cmd) : Gen unit := fun s => ([c], Ok tt, s).

Definition lift {A} (r : result A) : Gen A := fun s => ([], r, s).

Definition warning (msg : string) : Gen unit :=
  fun s => ([], Ok tt,
            {| mark_state := mark_state s; warnings := warnings s ++ [msg] |}).

Definition read_marks {A} (f : MarkState -> result A) : Gen A :=
  fun s => ([], f (mark_state s), s).

Definition new_mark (branch : string) (changesetId : Z) : Gen Z :=
  fun s =>
    match generate_mark branch changesetId (mark_state s) with
    | Ok (mark, st) =>
        ([], Ok mark, {| mark_state := st; warnings := warnings s |})
    | Raise e => ([], Raise e, s)
    end.

(** A [for] loop whose body may yield and raise. *)
Fixpoint for_each {A} (l : list A) (body : A -> Gen unit) : Gen unit :=
  match l with
  | [] => gret tt
  | x :: rest => gen _ <- body x; for_each rest body
  end.

(** The body of the loop over the changesets.  The arguments of a
    command are evaluated from left to right before it is built, so the
    mark is generated before the users are looked up.  [User] objects
    are cached by id and compared by identity: [owner != committer] is
    the comparison of their ids. *)
Definition fastexport_changeset (no_content : bool)
    (cs : Changeset Timestamp) : Gen unit :=
  gen progress <-
    lift (ProgressCommand_init
            ("changeset " +:+ fmt_d (cs_id cs) +:+ "/" +:+ branch cs
             +:+ " from " +:+ local_time (creationDate cs)));
  gen _ <- yield progress;
  gen merge_marks <- read_marks (fun st => merge_marks st (merges cs));
  gen ref <- lift (git_mangle_path (Some (branch cs)));
  gen mark <- new_mark (branch cs) (cs_id cs);
  gen author <-
    lift (if negb (tfs_id (owner cs) =? tfs_id (committer cs))
          then do w <- who_when_of (owner cs) (creationDate cs); Ok (Some w)
          else Ok None);
  gen committer <- lift (who_when_of (committer cs) (creationDate cs));
  gen _ <- yield (CommitCommand ref mark author committer (comment cs)
                    (map format_mark merge_marks));
  gen _ <-
    for_each (deletes cs)
      (fun f =>
         gen p <- lift (git_mangle_path (fullpath f));
         gen c <- lift (FileDeleteCommand_init (Some p));
         yield c);
  for_each (changes cs)
    (fun f =>
       gen lc <-
         (if no_content then gret (0, Literal [b ""])
          else
            gen content <-
              lift (content content_blocks_cb zlib_decompress
                      tempdir_unpack_and_read f);
            gen lc <-
              lift (match content_rewrite with
                    | Some hook =>
                        hook (branch cs) (fullpath (base f))
                             (file_length f) content
                    | None => Ok (file_length f, Validated content)
                    end);
            gen _ <-
              (if oversize_warning_limit <=? fst lc then
                 warning ("very large file (" +:+ fmt_d (fst lc)
                          +:+ " bytes) in changeset " +:+ fmt_d (cs_id cs)
                          +:+ "/" +:+ branch cs +:+ ": "
                          +:+ fmt_s (fullpath (base f)))
               else gret tt);
            gret lc);
       gen p <- lift (git_mangle_path (fullpath (base f)));
       gen c <-
         lift (FileModifyCommand_init (Some p) (octal "644") None
                 (Some (BlobFragmentIterator (fst lc) (snd lc))));
       yield c).

(** The loop over the changesets, which come sorted; it stops after
    [stop_after] when that is set. *)
Fixpoint fastexport_changesets (stop_after : Z) (no_content : bool)
    (css : list (Changeset Timestamp)) : Gen unit :=
  match css with
  | [] => gret tt
  | cs :: rest =>
      if negb (stop_after =? 0) && (stop_after <? cs_id cs) then gret tt
      else
        gen _ <- fastexport_changeset no_content cs;
        fastexport_changesets stop_after no_content rest
  end.

End Driver.

End Tfsdb.
(** ** The rest of the serializer ([fastimport.py]) *)

Module Serialize.

Import Fastimport.

(** [s.encode('ascii')]: a character outside ASCII is a
    [UnicodeEncodeError], which is a [ValueError]. *)
Definition is_ascii (s : string) : bool :=
  forallb (fun c => (nat_of_ascii c <? 128)%nat) (list_ascii_of_string s).

Definition encode_ascii (s : string) : result bytes :=
  if is_ascii s then Ok (encode s)
  else Raise (ValueError "'ascii' codec can't encode character").

(** [%02d]: at least two characters, padded with a zero. *)
Definition fmt_02d (n : Z) : string :=
  let s := fmt_d n in
  if (String.length s <? 2)%nat then "0" +:+ s else s.

(** [%r] of a text without quotes, backslashes or control characters. *)
Definition repr (s : string) : string := "'" +:+ s +:+ "'".

(** [format_who_when]: a tuple of name, email, seconds since the epoch
    and offset from UTC in seconds, as bytes. *)
Definition format_who_when (fields : who_when) : result bytes :=
  let offset := ww_offset fields in
  let '(offset_sign, offset) :=
    if offset <? 0 then (b "-", Z.abs offset) else (b "+", offset) in
  let offset_hours := offset / 3600 in
  let offset_minutes := (offset / 60) mod 60 in
  let name := ww_name fields in
  if str_endswith name SPACE then
    Raise (ValueError ("name " +:+ repr name +:+ " ends with space"))
  else
    let sep := if (String.length name =? 0)%nat then b "" else b " " in
    do email <- encode_ascii (ww_email fields);
    Ok (encode name ++ sep ++ b "<" ++ email ++ b "> "
          ++ encode (fmt_d (ww_secs fields)) ++ b " " ++ offset_sign
          ++ encode (fmt_02d offset_hours) ++ encode (fmt_02d offset_minutes)).

(** The newline that ends a line of the stream. *)
Definition nl : bytes := encode (String LF "").

(** Writes in sequence: the second happens when the first finished. *)
Definition wthen (a c : written) : written :=
  match a with
  | (out, Finished) => (out ++ c.1, c.2)
  | _ => a
  end.

(** One [stream.write] whose argument may raise before anything is
    written. *)
Definition wtry (r : result bytes) : written :=
  match r with
  | Ok x => (x, Finished)
  | Raise e => ([], Failed e)
  end.

(** [serialize_mark]: a mark command. *)
Definition serialize_mark (id : Z) : written :=
  (b "mark " ++ format_mark id ++ nl, Finished).

(** [TagCommand]. *)
Record TagCommand := {
  tag_id : string;
  tag_from : bytes;
  tagger : who_when;
  tag_message : option string
}.

Section Serialization.

Context {I : Type} `{Iterator I}.

(** [CommitCommand.serialize], for a commit whose [from_],
    [more_authors] and [properties] are left at [None], as the driver
    builds it. *)
Definition CommitCommand_serialize (ref : string) (mark : Z)
    (author : option who_when) (committer : who_when)
    (message : option string) (merges : list bytes) : written :=
  wthen (wtry (do r <- encode_ascii ref;
               Ok (b "commit refs/heads/" ++ r ++ nl)))
  (wthen (if mark =? 0 then ([], Finished) else serialize_mark mark)
  (wthen (match author with
          | Some a => wtry (do w <- format_who_when a;
                            Ok (b "author " ++ w ++ nl))
          | None => ([], Finished)
          end)
  (wthen (wtry (do w <- format_who_when committer;
                Ok (b "committer " ++ w ++ nl)))
  (wthen (serialize_data (I := I) (Bytes (encode (default "" message))))
         (concat (map (fun merge => b "merge " ++ merge ++ nl) merges),
          Finished))))).

(** [ProgressCommand.serialize]. *)
Definition ProgressCommand_serialize (message : string) : written :=
  (b "progress " ++ encode message ++ nl, Finished).

(** [TagCommand.serialize]. *)
Definition TagCommand_serialize (t : TagCommand) : written :=
  wthen (wtry (do p <- format_path (tag_id t) false;
               Ok (b "tag " ++ p ++ nl ++ b "from " ++ tag_from t ++ nl)))
  (wthen (wtry (do w <- format_who_when (tagger t);
                Ok (b "tagger " ++ w ++ nl)))
         (serialize_data (I := I)
            (Bytes (encode (default "" (tag_message t)))))).

(** [FileDeleteCommand.serialize]. *)
Definition FileDeleteCommand_serialize (path : string) : written :=
  wtry (do p <- format_path path false; Ok (b "D " ++ p ++ nl)).

(** [FileCopyCommand.serialize]. *)
Definition FileCopyCommand_serialize (src_path dest_path : string) : written :=
  wtry (do s <- format_path src_path true;
        do d <- format_path dest_path false;
        Ok (b "C " ++ s ++ b " " ++ d)).

(** [FileRenameCommand.serialize]. *)
Definition FileRenameCommand_serialize (old_path new_path : string) : written :=
  wtry (do o <- format_path old_path true;
        do n <- format_path new_path false;
        Ok (b "R " ++ o ++ b " " ++ n)).

(** [FileDeleteAllCommand.serialize]. *)
Definition FileDeleteAllCommand_serialize : written :=
  (b "deleteall", Finished).

(** [cmd.serialize(stream)], by the class of the command. *)
Definition serialize (c : Command I) : written :=
  match c with
  | CommitCommand ref mark author committer message merges =>
      CommitCommand_serialize ref mark author committer message merges
  | ProgressCommand message => ProgressCommand_serialize message
  | FileModifyCommand path mode dataref data =>
      FileModifyCommand_serialize path mode dataref data
  | FileDeleteCommand path => FileDeleteCommand_serialize path
  | FileCopyCommand s d => FileCopyCommand_serialize s d
  | FileRenameCommand o n => FileRenameCommand_serialize o n
  | FileDeleteAllCommand => FileDeleteAllCommand_serialize
  end.

(** The loop of [cmd_fastexport] ([main.py]) over a real stream: each
    command is serialized as it is yielded, and the first failure ends
    the export. *)
Fixpoint serialize_commands (cmds : list (Command I)) : written :=
  match cmds with
  | [] => ([], Finished)
  | c :: rest => wthen (serialize c) (serialize_commands rest)
  end.

End Serialization.

End Serialize.

(** ** The rest of the database reader and of the driver ([tfsdb.py]) *)

Module Repo.

Import Fastimport Tfsdb Serialize.

(** *** [PeekableIterator], over the items of a collection *)

Record PeekableIterator (A : Type) := {
  pk_iter : list A;
  _peeked : list A
}.
Arguments pk_iter {A} _.
Arguments _peeked {A} _.

Definition PeekableIterator_init {A} (coll : list A) : PeekableIterator A :=
  {| pk_iter := coll; _peeked := [] |}.

(** [peek]: the next element, without consuming it; [None] stands for
    [StopIteration]. *)
Definition peek {A} (self : PeekableIterator A)
    : option (A * PeekableIterator A) :=
  match _peeked self with
  | x :: _ => Some (x, self)
  | [] =>
      match pk_iter self with
      | x :: rest => Some (x, {| pk_iter := rest; _peeked := [x] |})
      | [] => None
      end
  end.

(** [__next__]. *)
Definition pk_next {A} (self : PeekableIterator A)
    : option (A * PeekableIterator A) :=
  match _peeked self with
  | x :: others => Some (x, {| pk_iter := pk_iter self; _peeked := others |})
  | [] =>
      match pk_iter self with
      | x :: rest => Some (x, {| pk_iter := rest; _peeked := [] |})
      | [] => None
      end
  end.

(** *** [selectone], over the rows that [select] yields *)

Fixpoint selectone_loop {Row} (i : nat) (rows : list Row) (result : option Row)
    : Py.result (option Row) :=
  match rows with
  | [] => Ok result
  | row :: rest =>
      if (i =? 0)%nat then selectone_loop (S i) rest (Some row)
      else Raise (Exception "received more that one record")
  end.

Definition selectone {Row} (rows : list Row) : Py.result Row :=
  do result <- selectone_loop 0 rows None;
  match result with
  | None => Raise (Exception "empty result")
  | Some row => Ok row
  end.

(** *** Tags *)

(** [git_mangle_tagname]: git is stricter on tag names. *)
Definition git_mangle_tagname (name : option string) : Py.result string :=
  do p <- git_mangle_path name;
  Ok (str_replace SPACE "_"
        (str_replace "]"%char ")"
           (str_replace "["%char "("
              (str_replace CR "" (str_replace LF "" p))))).

Record Label (Timestamp : Type) := {
  changesetId : Z;
  lbl_branch : string;
  lbl_name : string;
  lbl_comment : option string;
  lbl_user : User;
  lbl_creationDate : Timestamp
}.
Arguments changesetId {Timestamp} _.
Arguments lbl_branch {Timestamp} _.
Arguments lbl_name {Timestamp} _.
Arguments lbl_comment {Timestamp} _.
Arguments lbl_user {Timestamp} _.
Arguments lbl_creationDate {Timestamp} _.

(** What the loop over the labels has done: the tags yielded, the
    warnings given, and the exception that ended it, if any. *)
Record TagRun := {
  tags : list TagCommand;
  tag_warnings : list string;
  tag_error : option exn
}.

Section Tags.

Context {Timestamp : Type}.
Variable who_when_of : User -> Timestamp -> Py.result who_when.

(** The loop over [repo.labels()] at the end of [fastexport_commands],
    for the labels it is handed. *)
Fixpoint fastexport_tags (stop_after : Z) (st : MarkState)
    (labels : list (Label Timestamp)) : TagRun :=
  match labels with
  | [] => {| tags := []; tag_warnings := []; tag_error := None |}
  | lbl :: rest =>
      let others := fastexport_tags stop_after st rest in
      if negb (stop_after =? 0) && (stop_after <? changesetId lbl) then others
      else
        let mark := marks st !! (changesetId lbl, lbl_branch lbl) in
        if negb (truthy_int mark) then
          {| tags := tags others;
             tag_warnings :=
               ("skipping label '" +:+ lbl_name lbl
                +:+ "' pointing to changeset " +:+ fmt_d (changesetId lbl)
                +:+ "/" +:+ lbl_branch lbl
                +:+ " because that changeset is not migrated")
               :: tag_warnings others;
             tag_error := tag_error others |}
        else
          match (do name <- git_mangle_tagname (Some (lbl_name lbl));
                 do w <- who_when_of (lbl_user lbl) (lbl_creationDate lbl);
                 Ok {| tag_id := name;
                       tag_from := format_mark (default 0 mark);
                       tagger := w;
                       tag_message := lbl_comment lbl |}) with
          | Ok t =>
              {| tags := t :: tags others;
                 tag_warnings := tag_warnings others;
                 tag_error := tag_error others |}
          | Raise e =>
              {| tags := []; tag_warnings := []; tag_error := Some e |}
          end
  end.

End Tags.

(** *** [Repository10.changesets] *)

(** A row of [tbl_ChangeSet] with the [MayHaveMerges] flag. *)
Record ChangeSetRow (Timestamp : Type) := {
  ChangeSetId : Z;
  OwnerId : Z;
  CreationDate : Timestamp;
  Comment : option string;
  CommitterId : Z;
  MayHaveMerges : Z
}.
Arguments ChangeSetId {Timestamp} _.
Arguments OwnerId {Timestamp} _.
Arguments CreationDate {Timestamp} _.
Arguments Comment {Timestamp} _.
Arguments CommitterId {Timestamp} _.
Arguments MayHaveMerges {Timestamp} _.

(** A row of [tbl_Version] joined with [tbl_File]: the full path and the
    columns of the file. *)
Record VersionRow := {
  FullPath : string;
  file_columns : FileRow
}.

(** [d.get(k, [])] on a dictionary of lists. *)
Fixpoint dict_get {V} (d : list (string * list V)) (k : string) : list V :=
  match d with
  | [] => []
  | (k', vs) :: rest => if String.eqb k' k then vs else dict_get rest k
  end.

Section Repository10.

Context {Timestamp : Type}.

(** The hooks, the cached user query, the time-zone tagging, and the
    two queries that select the file rows and the merge rows of a
    changeset. *)
Variable repo_hooks : ExporterHooks.
Variable get_user : Z -> Py.result User.
Variable tfs_unmangle_timestamp : Timestamp -> Timestamp.
Variable select_filerows : Z -> list VersionRow.
Variable select_mergerows : Z -> list MergeRow.

(** [Changeset.filerowsRelpathsByBranch]. *)
Definition filerowsRelpathsByBranch (id : Z)
    : list (string * list (FileRow * option string)) :=
  split_and_filter_file_rows (select_filerows id) repo_hooks FullPath
    (fun row relpath => (file_columns row, relpath)).

(** [Changeset.mergeRowsByTargetBranch]. *)
Definition mergeRowsByTargetBranch (id : Z)
    : list (string * list MergeRow) :=
  split_and_filter_file_rows (select_mergerows id) repo_hooks
    TargetFullPath (fun row _ => row).

(** The changesets yielded for the branches of one source changeset,
    and the exception that ends the generator, if any. *)
Fixpoint changesets_of_branches (csrow : ChangeSetRow Timestamp)
    (mergerowsByTargetBranch : list (string * list MergeRow))
    (byBranch : list (string * list (FileRow * option string)))
    : list (Changeset Timestamp) * option exn :=
  match byBranch with
  | [] => ([], None)
  | (branch, filerowsRelpaths) :: rest =>
      match (do o <- get_user (OwnerId csrow);
             do c <- get_user (CommitterId csrow);
             Ok {| hooks := repo_hooks;
                   cs_id := ChangeSetId csrow;
                   owner := o;
                   creationDate := tfs_unmangle_timestamp (CreationDate csrow);
                   comment := Comment csrow;
                   committer := c;
                   branch := branch;
                   rowsRelPaths := filerowsRelpaths;
                   mergerows := dict_get mergerowsByTargetBranch branch |}) with
      | Raise e => ([], Some e)
      | Ok cs =>
          let '(others, e) :=
            changesets_of_branches csrow mergerowsByTargetBranch rest in
          (cs :: others, e)
      end
  end.

(** [Repository10.changesets], over the changeset rows of the query. *)
Fixpoint changesets (csrows : list (ChangeSetRow Timestamp))
    : list (Changeset Timestamp) * option exn :=
  match csrows with
  | [] => ([], None)
  | csrow :: rest =>
      let filerowRelpathsByBranch :=
        filerowsRelpathsByBranch (ChangeSetId csrow) in
      let mergerowsByTargetBranch :=
        if negb (MayHaveMerges csrow =? 0)
        then mergeRowsByTargetBranch (ChangeSetId csrow)
        else [] in
      match changesets_of_branches csrow mergerowsByTargetBranch
              filerowRelpathsByBranch with
      | (yielded, Some e) => (yielded, Some e)
      | (yielded, None) =>
          let '(others, e) := changesets rest in (yielded ++ others, e)
      end
  end.

End Repository10.

End Repo.


(** ** [tempdir.py]: the scratch directory

    The operating system is modelled by the directories and the regular
    files it holds, by path.  A call fails with an exception of the code
    or of the content it is given, or with an [OSError] of the operating
    system ([FileExistsError], [FileNotFoundError], ...). *)

Module Tempdir.

Record Disk := {
  dirs : gset string;
  files : gmap string bytes
}.

Inductive failure : Type :=
| PyExn (e : exn)
| OSError.

Inductive outcome (A : Type) : Type :=
| Returned (a : A)
| Fails (f : failure).
Arguments Returned {A} a.
Arguments Fails {A} f.

(** How a generator ends: exhausted, by a failure, or not within the
    steps it was given. *)
Inductive ending : Type :=
| Exhausted
| Failed (f : failure)
| Unfinished.

(** [os.path.exists]. *)
Definition os_path_exists (path : string) (disk : Disk) : bool :=
  bool_decide (path ∈ dirs disk)
  || match files disk !! path with Some _ => true | None => false end.

(** [os.mkdir]: fails on a path that exists. *)
Definition os_mkdir (path : string) (disk : Disk) : option Disk :=
  if os_path_exists path disk then None
  else Some {| dirs := {[ path ]} ∪ dirs disk; files := files disk |}.






(** A name given to the directory: a text, or a file id. *)
Inductive name : Type :=
| Str (s : string)
| Int (n : Z).

(** [str(name)]. *)
Definition str (n : name) : string :=
  match n with
  | Str s => s
  | Int n => fmt_d n
  end.

(** ['..' in name]. *)
Fixpoint contains_dotdot (s : string) : bool :=
  match s with
  | EmptyString => false
  | String c rest =>
      (Ascii.eqb c "." && str_startswith rest ".") || contains_dotdot rest
  end.

(** [{:02X}] of a number below 256. *)
Definition hex_digit (d : Z) : ascii :=
  if d <? 10 then ascii_of_nat (48 + Z.to_nat d)
  else ascii_of_nat (55 + Z.to_nat d).

Definition fmt_02X (k : Z) : string :=
  String (hex_digit (k / 16)) (String (hex_digit (k mod 16)) EmptyString).

(** The content given to [create]: a [bytes] object, or an iterable of
    blocks, given by the blocks it yields and the exception that ends
    it, if any. *)
Inductive content : Type :=
| Bytes (data : bytes)
| Iterable (blocks : list bytes) (e : option exn).

Record TempDir := {
  location : string;
  subdirs : gmap Z string
}.

Section TempDir.

(** The builtin [hash] of a text and [os.path.join]. *)
Variable hash : string -> Z.
Variable os_path_join : string -> string -> string.

(** [TempDir.get_path]: creates from the given name a storage
    location. *)
Definition get_path (self : TempDir) (name : name) (disk : Disk)
    : outcome string * TempDir * Disk :=
  let name := str name in
  if contains_dotdot name then
    (Fails (PyExn (Exception ("name '" +:+ name
               +:+ "' must not contain parent dir navigation"))),
     self, disk)
  else
    let subdir_key := hash name mod 256 in
    match subdirs self !! subdir_key with
    | Some subdir_path =>
        (Returned (os_path_join subdir_path name), self, disk)
    | None =>
        let subdir_path :=
          os_path_join (location self) (fmt_02X subdir_key) in
        match os_mkdir subdir_path disk with
        | None => (Fails OSError, self, disk)
        | Some disk' =>
            (Returned (os_path_join subdir_path name),
             {| location := location self;
                subdirs := <[ subdir_key := subdir_path ]> (subdirs self) |},
             disk')
        end
    end.

(** [TempDir.exists]: whether the given file exists or not. *)
Definition exists_ (self : TempDir) (name : name) (disk : Disk)
    : outcome bool * TempDir * Disk :=
  match get_path self name disk with
  | (Fails f, self', disk') => (Fails f, self', disk')
  | (Returned path, self', disk') =>
      (Returned (os_path_exists path disk'), self', disk')
  end.




End TempDir.

End Tempdir.

(** ** [Repository10.labels] *)

Module Labels.

Import Tfsdb Repo.

(** A row of [tbl_label]. *)
Record LabelRow (Timestamp : Type) := {
  Labelid : Z;
  LabelName : string;
  Comment : option string;
  OwnerId : Z;
  LastModified : Timestamp
}.
Arguments Labelid {Timestamp} _.
Arguments LabelName {Timestamp} _.
Arguments Comment {Timestamp} _.
Arguments OwnerId {Timestamp} _.
Arguments LastModified {Timestamp} _.

(** A row of [tbl_LabelEntry] joined with the path of its item. *)
Record EntryRow := {
  LabelId : Z;
  VersionFrom : Z;
  FullPath : string
}.

(** [itertools.groupby]: the runs of consecutive items with the same
    key. *)
Fixpoint groupby {A} (key : A -> Z) (l : list A) : list (Z * list A) :=
  match l with
  | [] => []
  | x :: rest =>
      match groupby key rest with
      | (k, g) :: gs =>
          if key x =? k then (k, x :: g) :: gs
          else (key x, [x]) :: (k, g) :: gs
      | [] => [(key x, [x])]
      end
  end.

(** What the generator yields, the warnings it gives to the hook, and
    the exception that ends it, if any. *)
Record LabelRun (Timestamp : Type) := {
  yielded : list (Label Timestamp);
  label_warnings : list string;
  label_error : option exn
}.
Arguments yielded {Timestamp} _.
Arguments label_warnings {Timestamp} _.
Arguments label_error {Timestamp} _.

Section Labels.

Context {Timestamp : Type}.
Variable repo_hooks : ExporterHooks.
Variable get_user : Z -> Py.result User.
Variable tfs_unmangle_timestamp : Timestamp -> Timestamp.

(** [{r.Labelid: r for r in ...}]. *)
Definition labelRows_by_id (rows : list (LabelRow Timestamp))
    : gmap Z (LabelRow Timestamp) :=
  fold_left (fun d r => <[ Labelid r := r ]> d) rows ∅.

(** [branchesByLabelId[labelId].add(branch)] on the
    [defaultdict(set)]. *)
Definition add_branch (d : gmap Z (gset string)) (branch : string)
    (labelId : Z) : gmap Z (gset string) :=
  <[ labelId := {[ branch ]} ∪ default ∅ (d !! labelId) ]> d.

(** The first loop: the branches under which a label has entries. *)
Definition branchesByLabelId_of
    (entryRowsRelpathsByBranch : list (string * list (EntryRow * option string)))
    : gmap Z (gset string) :=
  fold_left
    (fun d '(branch, entryRowsRelpaths) =>
       fold_left (fun d labelId => add_branch d branch labelId)
         (elements (list_to_set (map (fun i => LabelId (fst i))
                                   entryRowsRelpaths) : gset Z))
         d)
    entryRowsRelpathsByBranch ∅.

Section Enumerate.

Variable labelRows : gmap Z (LabelRow Timestamp).
Variable branchesByLabelId : gmap Z (gset string).

(** The body of the second loop for the label groups of one
    branch. *)
Fixpoint labels_of_groups (branch : string)
    (groups : list (Z * list EntryRow)) : LabelRun Timestamp :=
  match groups with
  | [] => {| yielded := []; label_warnings := []; label_error := None |}
  | (labelId, entryRows) :: rest =>
      match labelRows !! labelId with
      | None =>
          {| yielded := []; label_warnings := [];
             label_error := Some KeyError |}
      | Some labelRow =>
          let versionsFrom : gset Z :=
            list_to_set (map VersionFrom entryRows) in
          if (1 <? Z.of_nat (size versionsFrom)) then
            let r := labels_of_groups branch rest in
            {| yielded := yielded r;
               label_warnings :=
                 ("ignoring label '" +:+ LabelName labelRow
                  +:+ "' on branch '" +:+ branch
                  +:+ "' because it is assigned to more than a single changeset ("
                  +:+ fmt_d (Z.of_nat (size versionsFrom))
                  +:+ "). tag fixups are not (yet?) supported. ")
                 :: label_warnings r;
               label_error := label_error r |}
          else
            let name :=
              if (1 <? Z.of_nat
                         (size (default ∅ (branchesByLabelId !! labelId))))
              then LabelName labelRow +:+ " [" +:+ branch +:+ "]"
              else LabelName labelRow in
            match elements versionsFrom with
            | [] =>
                {| yielded := []; label_warnings := [];
                   label_error := Some KeyError |}
            | version :: _ =>
                match get_user (OwnerId labelRow) with
                | Raise e =>
                    {| yielded := []; label_warnings := [];
                       label_error := Some e |}
                | Ok user =>
                    let r := labels_of_groups branch rest in
                    {| yielded :=
                         {| changesetId := version;
                            lbl_branch := branch;
                            lbl_name := name;
                            lbl_comment := Comment labelRow;
                            lbl_user := user;
                            lbl_creationDate :=
                              tfs_unmangle_timestamp (LastModified labelRow) |}
                         :: yielded r;
                       label_warnings := label_warnings r;
                       label_error := label_error r |}
                end
            end
      end
  end.

(** The second loop: the labels, individually per branch. *)
Fixpoint labels_of_branches
    (entryRowsRelpathsByBranch : list (string * list (EntryRow * option string)))
    : LabelRun Timestamp :=
  match entryRowsRelpathsByBranch with
  | [] => {| yielded := []; label_warnings := []; label_error := None |}
  | (branch, entryRowsRelpaths) :: rest =>
      let r := labels_of_groups branch
                 (groupby LabelId (map fst entryRowsRelpaths)) in
      match label_error r with
      | Some e => r
      | None =>
          let r' := labels_of_branches rest in
          {| yielded := yielded r ++ yielded r';
             label_warnings := label_warnings r ++ label_warnings r';
             label_error := label_error r' |}
      end
  end.

End Enumerate.

(** [Repository10.labels], over the rows of its two queries. *)
Definition labels (labelRows : list (LabelRow Timestamp))
    (entryRows : list EntryRow) : LabelRun Timestamp :=
  let entryRowsRelpathsByBranch :=
    split_and_filter_file_rows entryRows repo_hooks FullPath
      (fun row relpath => (row, relpath)) in
  labels_of_branches (labelRows_by_id labelRows)
    (branchesByLabelId_of entryRowsRelpathsByBranch)
    entryRowsRelpathsByBranch.

End Labels.

End Labels.
(** * Vocabulary of the properties

    The functions and predicates in which the properties of the program are
    stated and proved, and the sample data they are tried on. *)

(** ** Path unmangling *)

Section UnmangleVocabulary.

Import Tfsdb.

(** Apply a function to every character. *)
Fixpoint smap (f : ascii -> ascii) (s : string) : string :=
  match s with
  | EmptyString => EmptyString
  | String c rest => String (f c) (smap f rest)
  end.

(** Strip one trailing backslash. *)
Definition strip (s : string) : string :=
  if str_endswith s BACKSLASH then str_drop_last s else s.

Definition swap (old new : ascii) (c : ascii) : ascii :=
  if Ascii.eqb c old then new else c.

Definition unmangle_char (c : ascii) : ascii :=
  swap "|" "%" (swap DQUOTE "-" (swap ">" "_" c)).

End UnmangleVocabulary.

(** ** Validation, marks and merges *)

(** How a drained stream ends once validated against digest [d], when the
    hash object already holds [h]. *)
Definition validated_ending (d : bytes) (ctx : option Z) (h : Hashlib.md5)
    (blks : list bytes) (e : ending) : ending :=
  match e with
  | Finished =>
      if bool_decide (Hashlib.md5_digest (Hashlib.fed h ++ concat blks) = d)
      then Finished
      else Failed (Tfsdb.checksum_mismatch ctx)
  | other => other
  end.

(** The last mark was issued whenever a changeset id was seen. *)
Definition issued_if_seen (st : Tfsdb.MarkState) : Prop :=
  Tfsdb.marks_last_changesetId st = None \/ is_Some (Tfsdb.marks_last_issued st).

(** Follows the specification's words: the mark of the source changeset on
    the branch if it is known, else the last mark issued on the branch. *)
Definition spec_merge_mark (st : Tfsdb.MarkState) (m : string * option Z)
    : result Z :=
  let '(branch, src_id) := m in
  match src_id with
  | Some v =>
      match Tfsdb.marks st !! (v, branch) with
      | Some mark => Ok mark
      | None => getitem (Tfsdb.marks_last_issued_per_branch st) branch
      end
  | None => getitem (Tfsdb.marks_last_issued_per_branch st) branch
  end.

Section MergesVocabulary.

Import Tfsdb.

(** The entries of a dictionary under a key. *)
Definition entries {V} (b : string) (d : list (string * list V))
    : list (string * list V) :=
  filter (fun p => p.1 = b) d.

(** The entry that a non-empty group of values makes. *)
Definition group {V} (b : string) (vs : list V) : list (string * list V) :=
  match vs with
  | [] => []
  | _ => [(b, vs)]
  end.

(** The values that [split_and_filter_file_rows] collects for a branch. *)
Definition values_for {Row V} (hooks : ExporterHooks)
    (full_path_hook : Row -> string) (wrap : Row -> option string -> V)
    (b : string) (rows : list Row) : list V :=
  omap (fun row =>
          match kept hooks (full_path_hook row) with
          | Some (branch, relpath) =>
              if decide (branch = b) then Some (wrap row relpath) else None
          | None => None
          end) rows.

(** The merge rows whose source path is kept under branch [b]. *)
Definition source_rows (hooks : ExporterHooks) (b : string)
    (rows : list MergeRow) : list MergeRow :=
  filter (fun r => fst <$> kept hooks (SourceFullPath r) = Some b) rows.

End MergesVocabulary.

(** ** The command stream *)

Section StreamVocabulary.

Import Tfsdb Fastimport.

Context {Blocks : Type} `{Iterator Blocks}.

Definition is_delete (c : Cmd (Blocks := Blocks)) : bool :=
  match c with FileDeleteCommand _ => true | _ => false end.

Definition is_modify (c : Cmd (Blocks := Blocks)) : bool :=
  match c with FileModifyCommand _ _ _ _ => true | _ => false end.

(** The commands a piece of the generator yields from a state. *)
Definition outputs {A} (g : Gen (Blocks := Blocks) A) (s : DriverState) : list (Cmd (Blocks := Blocks)) := (g s).1.1.

(** A command that is neither a delete nor a modify and carries no
    path. *)
Definition neutral (c : Cmd (Blocks := Blocks)) : Prop :=
  is_delete c = false /\ is_modify c = false /\ command_paths c = [].

(** A command built by the constructor of file-delete commands. *)
Definition delete_built (c : Cmd (Blocks := Blocks)) : Prop :=
  exists path, FileDeleteCommand_init path = Ok c.

(** A command built by the constructor of file-modify commands. *)
Definition modify_built (c : Cmd (Blocks := Blocks)) : Prop :=
  exists path mode dataref data,
    FileModifyCommand_init path mode dataref data = Ok c.

(** A stream in three phases: neither deletes nor modifies, then only
    deletes, then only modifies. *)
Definition phased (cmds : list (Cmd (Blocks := Blocks))) : Prop :=
  exists pre dels mods,
    cmds = pre ++ dels ++ mods /\
    Forall neutral pre /\ Forall delete_built dels /\ Forall modify_built mods.

End StreamVocabulary.

(** ** The serializer *)

(** Wrapped in double quotes. *)
Definition quoted (p : string) : string := String DQUOTE (p +:+ String DQUOTE "").

(** What [format_path] decides to quote. *)
Definition needs_quotes (p : string) (quote_spaces : bool) : bool :=
  str_contains LF p || str_startswith p DQUOTE
  || (quote_spaces && str_contains SPACE p).

(** The modes that [_format_mode] accepts. *)
Definition mode_whitelist : list Z :=
  [octal "755"; octal "100755"; octal "644"; octal "100644"; octal "40000";
   octal "120000"; octal "160000"].

(** Follows the specification's words: a path that contains a newline has
    every newline escaped and is wrapped in double quotes; else one that
    starts with a double quote is wrapped; else one that contains a space
    is wrapped when the quote-spaces flag is set; any other is unchanged. *)
Definition spec_format_path (p : string) (quote_spaces : bool) : string :=
  if str_contains LF p then quoted (str_replace LF (String BACKSLASH "n") p)
  else if str_startswith p DQUOTE then quoted p
  else if quote_spaces && str_contains SPACE p then quoted p
  else p.

(** A path that [check_path] rejects: missing, empty, or beginning with a
    slash. *)
Definition illegal_path (path : option string) : Prop :=
  path = None \/ path = Some "" \/ exists rest, path = Some (String SLASH rest).

(** A path as an emitted command may carry it. *)
Definition legal (p : string) : Prop := p <> "" /\ str_startswith p SLASH = false.

Section PathsVocabulary.

Import Fastimport.

Context {I : Type} `{Iterator I}.

(** A command built by one of the four constructors that take paths. *)
Definition built (c : Command I) : Prop :=
  (exists path mode dataref data,
     FileModifyCommand_init path mode dataref data = Ok c)
  \/ (exists path, FileDeleteCommand_init path = Ok c)
  \/ (exists src dest, FileCopyCommand_init src dest = Ok c)
  \/ (exists old new, FileRenameCommand_init old new = Ok c).

End PathsVocabulary.

(** ** Sample data *)

(** A path with a newline in it. *)
Definition path_with_newline : string := "a" +:+ String LF "b".

(** The mark tables after changeset 3 was committed on dev, changeset 4 on
    rel and changeset 5 on main. *)
Definition sample_marks : Tfsdb.MarkState :=
  {| Tfsdb.marks :=
       <[(5, "main") := 500]> (<[(4, "rel") := 400]> (<[(3, "dev") := 300]> ∅));
     Tfsdb.marks_last_changesetId := Some 5;
     Tfsdb.marks_last_issued := Some 500;
     Tfsdb.marks_last_issued_per_branch :=
       <["main" := 500]> (<["rel" := 400]> (<["dev" := 300]> ∅)) |}.

(** The text before the first [sep] and, if there is one, the text after
    it. *)
Fixpoint split_first (sep : ascii) (s : string) : string * option string :=
  match s with
  | EmptyString => (EmptyString, None)
  | String c rest =>
      if Ascii.eqb c sep then (EmptyString, Some rest)
      else let '(a, r) := split_first sep rest in (String c a, r)
  end.

(** A sample configuration: paths are [$\branch\relpath] and every file
    is kept. *)
Definition sample_hooks : Tfsdb.ExporterHooks :=
  {| Tfsdb.branch_extract path :=
       match path with
       | String _ (String _ rest) =>
           let '(br, rp) := split_first BACKSLASH rest in (Some br, rp)
       | _ => (None, None)
       end;
     Tfsdb.file_filter _ _ := true |}.

Definition sample_user : Tfsdb.User :=
  {| Tfsdb.tfs_id := 1; Tfsdb.domain := "CORP"; Tfsdb.login := "MEK";
     Tfsdb.display_name := "Kuno Meyer" |}.

Definition sample_file_row (file_id deletion_id : Z) : Tfsdb.FileRow :=
  {| Tfsdb.FileId := Some file_id; Tfsdb.DeletionId := deletion_id;
     Tfsdb.FileLength := 5; Tfsdb.CompressedLength := 5;
     Tfsdb.CompressionType := 0; Tfsdb.ContentType := 1;
     Tfsdb.HashValue := Hashlib.md5_digest (b "12345") |}.

Definition sample_merge_row (source : string) (version_to : Z) : Tfsdb.MergeRow :=
  {| Tfsdb.TargetFullPath := "$\main\src\a.txt";
     Tfsdb.SourceFullPath := source;
     Tfsdb.SourceVersionTo := version_to |}.

(** A sample changeset: changeset 8 on main changes one file, deletes
    another, and merges from dev (source versions 2, 3 and 9) and from rel
    (source version 8). *)
Definition sample_changeset : Tfsdb.Changeset unit :=
  {| Tfsdb.hooks := sample_hooks;
     Tfsdb.cs_id := 8;
     Tfsdb.owner := sample_user;
     Tfsdb.creationDate := tt;
     Tfsdb.comment := Some "merge dev";
     Tfsdb.committer := sample_user;
     Tfsdb.branch := "main";
     Tfsdb.rowsRelPaths :=
       [(sample_file_row 11 0, Some "src\a.txt"); (sample_file_row 12 7, Some "b.txt")];
     Tfsdb.mergerows :=
       [sample_merge_row "$\dev\src\a.txt" 2; sample_merge_row "$\rel\src\a.txt" 8;
        sample_merge_row "$\dev\src\b.txt" 3; sample_merge_row "$\dev\src\c.txt" 9] |}.

Definition sample_who_when (u : Tfsdb.User) (_ : unit) : result Fastimport.who_when :=
  Ok {| Fastimport.ww_name := Tfsdb.display_name u;
        Fastimport.ww_email := "nobody@example.org";
        Fastimport.ww_secs := 1433152800;
        Fastimport.ww_offset := 7200 |}.

Definition sample_run (no_content : bool) (st : Tfsdb.MarkState) :=
  Tfsdb.fastexport_changeset (Blocks := list bytes)
    (fun _ => Ok [b "12345"]) (fun blocks => blocks) (fun _ => Raise KeyError)
    sample_who_when (fun _ => "2015-06-01 12:00:00+02:00") None
    no_content sample_changeset
    {| Tfsdb.mark_state := st; Tfsdb.warnings := [] |}.

(** ** Vocabulary of the further properties *)

(** Two decimal digits. *)
Definition two_digits (n : Z) : string :=
  String (digit_char (n / 10)) (String (digit_char (n mod 10)) "").

(** A name and an email that [format_who_when] accepts. *)
Definition valid_who_when (w : Fastimport.who_when) : bool :=
  negb (str_endswith (Fastimport.ww_name w) SPACE)
  && Serialize.is_ascii (Fastimport.ww_email w).

(** The header of a data command. *)
Definition data_header (n : Z) : bytes :=
  b "data " ++ encode (fmt_d n) ++ Serialize.nl.

(** An iterator that yields its blocks and then raises, as a read of the
    scratch storage or a decompression may. *)
Record failing_iter := {
  fi_blocks : list bytes;
  fi_error : exn
}.

#[global] Instance failing_iterator : Iterator failing_iter := {
  next it := match fi_blocks it with
             | [] => Raised (fi_error it)
             | blk :: rest =>
                 Yield blk {| fi_blocks := rest; fi_error := fi_error it |}
             end;
  size_hint it := length (fi_blocks it)
}.

(** The operations on a peekable iterator, and a run of them: what each
    returns, [None] for [StopIteration]. *)
Inductive pk_op : Type := Peek | Next.

Fixpoint pk_run {A} (ops : list pk_op) (self : Repo.PeekableIterator A)
    : list (option A) :=
  match ops with
  | [] => []
  | op :: rest =>
      match (match op with
             | Peek => Repo.peek self
             | Next => Repo.pk_next self
             end) with
      | Some (x, self') => Some x :: pk_run rest self'
      | None => None :: pk_run rest self
      end
  end.

(** The same operations on a plain list: a peek looks at the head, a next
    takes it. *)
Fixpoint list_run {A} (ops : list pk_op) (l : list A) : list (option A) :=
  match ops with
  | [] => []
  | Peek :: rest => head l :: list_run rest l
  | Next :: rest => head l :: list_run rest (tail l)
  end.

(** The rows of a changeset that name a file. *)
Definition is_file_row (row : Tfsdb.FileRow) : bool :=
  truthy_int (Tfsdb.FileId row).

(** The marks returned by those of the calls that satisfy [P], in the
    order of the calls. *)
Definition marks_of (P : string * Z -> bool) (calls : list (string * Z))
    (ms : list Z) : list Z :=
  omap (fun '(call, m) => if P call then Some m else None) (zip calls ms).

(** The longest prefix whose elements satisfy [P]. *)
Fixpoint take_while {A} (P : A -> bool) (l : list A) : list A :=
  match l with
  | [] => []
  | x :: rest => if P x then x :: take_while P rest else []
  end.

(** The loops over the deletes and the changes keep the mark tables and
    only add warnings. *)
Definition marks_kept (s1 s2 : Tfsdb.DriverState) : Prop :=
  Tfsdb.mark_state s2 = Tfsdb.mark_state s1
  /\ exists extra, Tfsdb.warnings s2 = Tfsdb.warnings s1 ++ extra.

(** Sample labels: one on changeset 5 of main, which has a mark in
    [sample_marks], and one on changeset 6, which has none. *)
Definition sample_labels : list (Repo.Label unit) :=
  [ {| Repo.changesetId := 5; Repo.lbl_branch := "main";
       Repo.lbl_name := "Release 1.0 [main]"; Repo.lbl_comment := Some "first";
       Repo.lbl_user := sample_user; Repo.lbl_creationDate := tt |};
    {| Repo.changesetId := 6; Repo.lbl_branch := "main";
       Repo.lbl_name := "Release 1.1"; Repo.lbl_comment := None;
       Repo.lbl_user := sample_user; Repo.lbl_creationDate := tt |} ].

(** A sample row of [tbl_ChangeSet] and the file rows of its query. *)
Definition sample_csrow : Repo.ChangeSetRow unit :=
  {| Repo.ChangeSetId := 8; Repo.OwnerId := 1; Repo.CreationDate := tt;
     Repo.Comment := Some "merge dev"; Repo.CommitterId := 1;
     Repo.MayHaveMerges := 0 |}.

Definition sample_version_rows : list Repo.VersionRow :=
  [ {| Repo.FullPath := "$\main\src\a.txt"; Repo.file_columns := sample_file_row 11 0 |};
    {| Repo.FullPath := "$\dev\src\a.txt"; Repo.file_columns := sample_file_row 13 0 |};
    {| Repo.FullPath := "$\main\b.txt"; Repo.file_columns := sample_file_row 12 7 |} ].


(** The subdirectory table of a scratch directory holds, for a key, the
    path of the subdirectory of the location named by the key's two
    hexadecimal digits. *)
Definition subdirs_in_location (os_path_join : string -> string -> string)
    (self : Tempdir.TempDir) : Prop :=
  forall k p, Tempdir.subdirs self !! k = Some p ->
    p = os_path_join (Tempdir.location self) (Tempdir.fmt_02X k).

(** A sample scratch directory: a hash, a path join, the directory just
    created and the disk that holds its location. *)
Definition sample_hash (s : string) : Z := Z.of_nat (String.length s) * 37.

Definition sample_join (a b : string) : string := a +:+ "/" +:+ b.

Definition sample_tempdir : Tempdir.TempDir :=
  {| Tempdir.location := "fe_tmp_swit"; Tempdir.subdirs := ∅ |}.

Definition sample_disk : Tempdir.Disk :=
  {| Tempdir.dirs := {[ "fe_tmp_swit" ]}; Tempdir.files := ∅ |}.


(** The label entries kept under a branch, in the order of the query, and
    those of them that belong to one label. *)
Definition kept_entries (hooks : Tfsdb.ExporterHooks) (b : string)
    (entryRows : list Labels.EntryRow) : list Labels.EntryRow :=
  map fst (values_for hooks Labels.FullPath (fun row relpath => (row, relpath))
             b entryRows).

Definition label_entries (hooks : Tfsdb.ExporterHooks) (b : string) (id : Z)
    (entryRows : list Labels.EntryRow) : list Labels.EntryRow :=
  filter (fun r => Labels.LabelId r = id) (kept_entries hooks b entryRows).

(** The label that the loop of [labels] builds for a label row on a
    branch, at a changeset. *)
Definition built_from {Timestamp : Type} (get_user : Z -> Py.result Tfsdb.User)
    (tfs_unmangle_timestamp : Timestamp -> Timestamp)
    (branchesByLabelId : gmap Z (gset string))
    (labelRow : Labels.LabelRow Timestamp) (id : Z) (branch : string)
    (version : Z) (lbl : Repo.Label Timestamp) : Prop :=
  Repo.changesetId lbl = version
  /\ Repo.lbl_branch lbl = branch
  /\ Repo.lbl_name lbl
     = (if 1 <? Z.of_nat (size (default ∅ (branchesByLabelId !! id)))
        then Labels.LabelName labelRow +:+ " [" +:+ branch +:+ "]"
        else Labels.LabelName labelRow)
  /\ Repo.lbl_comment lbl = Labels.Comment labelRow
  /\ get_user (Labels.OwnerId labelRow) = Ok (Repo.lbl_user lbl)
  /\ Repo.lbl_creationDate lbl
     = tfs_unmangle_timestamp (Labels.LastModified labelRow).

(** The warning for a label that is ignored on a branch because its
    entries are at [n] changesets. *)
Definition ignored_warning {Timestamp : Type}
    (labelRow : Labels.LabelRow Timestamp) (branch : string) (n : nat) : string :=
  "ignoring label '" +:+ Labels.LabelName labelRow
  +:+ "' on branch '" +:+ branch
  +:+ "' because it is assigned to more than a single changeset ("
  +:+ fmt_d (Z.of_nat n)
  +:+ "). tag fixups are not (yet?) supported. ".

(** Sample labels: the label 1 has entries on main and dev, all at
    changeset 5; the label 2 has entries on main at changesets 6 and 7. *)
Definition sample_label_rows : list (Labels.LabelRow unit) :=
  [ {| Labels.Labelid := 1; Labels.LabelName := "Release 1.0";
       Labels.Comment := Some "first release"; Labels.OwnerId := 1;
       Labels.LastModified := tt |};
    {| Labels.Labelid := 2; Labels.LabelName := "Nightly";
       Labels.Comment := None; Labels.OwnerId := 1;
       Labels.LastModified := tt |} ].

Definition sample_entry_rows : list Labels.EntryRow :=
  [ {| Labels.LabelId := 1; Labels.VersionFrom := 5;
       Labels.FullPath := "$\main\src\a.txt" |};
    {| Labels.LabelId := 1; Labels.VersionFrom := 5;
       Labels.FullPath := "$\dev\src\a.txt" |};
    {| Labels.LabelId := 1; Labels.VersionFrom := 5;
       Labels.FullPath := "$\main\b.txt" |};
    {| Labels.LabelId := 2; Labels.VersionFrom := 6;
       Labels.FullPath := "$\main\src\a.txt" |};
    {| Labels.LabelId := 2; Labels.VersionFrom := 7;
       Labels.FullPath := "$\main\b.txt" |} ].

Definition sample_label_run : Labels.LabelRun unit :=
  Labels.labels sample_hooks (fun _ => Ok sample_user) (fun t => t)
    sample_label_rows sample_entry_rows.

Definition sample_label : Repo.Label unit :=
  {| Repo.changesetId := 5; Repo.lbl_branch := "dev";
     Repo.lbl_name := "Release 1.0 [dev]";
     Repo.lbl_comment := Some "first release";
     Repo.lbl_user := sample_user; Repo.lbl_creationDate := tt |}.
(** * Verification *)

(** ** Sanity checks of the Python primitives *)

Example fmt_samples :
  Py.fmt_d 0 = "0" /\ Py.fmt_d 702 = "702" /\ Py.fmt_d (-15) = "-15" /\
  Py.fmt_d 1000 = "1000" /\ Py.fmt_o 511 = "777" /\ Py.fmt_o 8 = "10" /\
  Py.octal "755" = 493 /\ Py.octal "100644" = 33188 /\ Py.octal "170000" = 61440.
Proof. vm_compute. repeat split; reflexivity. Qed.

Example md5_12345 :
  map Hashlib.byte_val (Hashlib.md5_digest (Py.b "12345")) =
  [130; 124; 203; 14; 234; 138; 112; 108; 76; 52; 161; 104; 145; 248; 78; 123].
Proof. vm_compute. reflexivity. Qed.

Example md5_empty :
  map Hashlib.byte_val (Hashlib.md5_digest []) =
  [212; 29; 140; 217; 143; 0; 178; 4; 233; 128; 9; 152; 236; 248; 66; 126].
Proof. vm_compute. reflexivity. Qed.

Example md5_two_blocks :
  map Hashlib.byte_val (Hashlib.md5_digest (repeat "a"%byte 70)) =
  [15; 92; 108; 78; 116; 11; 252; 192; 140; 60; 38; 204; 178; 103; 61; 70].
Proof. vm_compute. reflexivity. Qed.

(** ** Path unmangling *)

Section Unmangle.

Import Tfsdb.

Lemma str_replace_swap old new s :
  str_replace old (String new "") s = smap (swap old new) s.
Proof.
  induction s as [|c s IH]; simpl; [reflexivity|].
  unfold swap at 1. destruct (Ascii.eqb c old); simpl; now rewrite IH.
Qed.

Lemma smap_smap f g s : smap f (smap g s) = smap (fun c => f (g c)) s.
Proof. induction s as [|c s IH]; simpl; [reflexivity | now rewrite IH]. Qed.

Lemma smap_length f s : String.length (smap f s) = String.length s.
Proof. induction s as [|c s IH]; simpl; [reflexivity | now rewrite IH]. Qed.

Lemma smap_idem f s : (forall c, f (f c) = f c) -> smap f (smap f s) = smap f s.
Proof.
  intros Hf. induction s as [|c s IH]; simpl; [reflexivity|].
  now rewrite Hf, IH.
Qed.

Lemma unmangle_char_idem c : unmangle_char (unmangle_char c) = unmangle_char c.
Proof. destruct c as [[] [] [] [] [] [] [] []]; reflexivity. Qed.

Lemma unmangle_char_backslash c :
  Ascii.eqb (unmangle_char c) BACKSLASH = Ascii.eqb c BACKSLASH.
Proof. destruct c as [[] [] [] [] [] [] [] []]; reflexivity. Qed.

Lemma endswith_smap s :
  str_endswith (smap unmangle_char s) BACKSLASH = str_endswith s BACKSLASH.
Proof.
  induction s as [|c s IH]; [reflexivity|].
  destruct s as [|c' s'].
  - simpl. apply unmangle_char_backslash.
  - exact IH.
Qed.

Lemma drop_last_smap f s : str_drop_last (smap f s) = smap f (str_drop_last s).
Proof.
  induction s as [|c s IH]; [reflexivity|].
  destruct s as [|c' s']; [reflexivity|].
  change (String (f c) (str_drop_last (smap f (String c' s')))
          = String (f c) (smap f (str_drop_last (String c' s')))).
  now rewrite IH.
Qed.

Lemma strip_smap s : strip (smap unmangle_char s) = smap unmangle_char (strip s).
Proof.
  unfold strip. rewrite endswith_smap.
  destruct (str_endswith s BACKSLASH); [apply drop_last_smap | reflexivity].
Qed.

(** [tfs_unmangle_path] replaces character by character and then strips. *)
Lemma unmangle_as_map x :
  tfs_unmangle_path x = smap unmangle_char (strip x).
Proof.
  unfold tfs_unmangle_path.
  change "%"%string with (String "%"%char "").
  change "-"%string with (String "-"%char "").
  change "_"%string with (String "_"%char "").
  rewrite !str_replace_swap, !smap_smap.
  apply (strip_smap x).
Qed.

Lemma drop_last_length s :
  s <> EmptyString -> S (String.length (str_drop_last s)) = String.length s.
Proof.
  induction s as [|c s IH]; [congruence|]. intros _.
  destruct s as [|c' s']; [reflexivity|].
  change (S (S (String.length (str_drop_last (String c' s'))))
          = S (String.length (String c' s'))).
  now rewrite IH.
Qed.

Lemma endswith_nonempty s c : str_endswith s c = true -> s <> EmptyString.
Proof. destruct s; simpl; congruence. Qed.

Lemma strip_strip x :
  strip (strip x) = strip x <-> ends_with_two_backslashes x = false.
Proof.
  unfold ends_with_two_backslashes, strip.
  destruct (str_endswith x BACKSLASH) eqn:E1; simpl.
  - destruct (str_endswith (str_drop_last x) BACKSLASH) eqn:E2.
    + split; [|discriminate]. intros Heq. exfalso.
      apply endswith_nonempty in E2.
      pose proof (drop_last_length _ E2) as Hlen.
      rewrite Heq in Hlen. lia.
    + split; reflexivity.
  - rewrite E1. split; reflexivity.
Qed.

(** Unmangling twice, in terms of stripping twice. *)
Lemma unmangle_twice x :
  tfs_unmangle_path (tfs_unmangle_path x) = smap unmangle_char (strip (strip x)).
Proof.
  rewrite (unmangle_as_map x), unmangle_as_map, strip_smap.
  apply smap_idem, unmangle_char_idem.
Qed.

Lemma smap_inj_length f s t : smap f s = smap f t -> String.length s = String.length t.
Proof. intros Heq. rewrite <- (smap_length f s), Heq. apply smap_length. Qed.

End Unmangle.

(** C4, as the specification states it, fails: a path that ends with two
    backslashes loses one of them at each unmangling. *)
Lemma unmangle_not_idempotent :
  let x := String BACKSLASH (String BACKSLASH "") in
  Tfsdb.tfs_unmangle_path (Tfsdb.tfs_unmangle_path x) <> Tfsdb.tfs_unmangle_path x.
Proof. vm_compute. discriminate. Qed.

(** C4 (amended): [unmangle(unmangle(x)) == unmangle(x)] holds exactly for
    the paths [x] that do not end with two backslashes; [unmangle] replaces
    ['>'] with ['_'], a double quote with ['-'], ['|'] with ['%'] and strips a single
    trailing backslash. *)
Theorem unmangle_idempotent_iff (x : string) :
  Tfsdb.tfs_unmangle_path (Tfsdb.tfs_unmangle_path x) = Tfsdb.tfs_unmangle_path x
  <-> Tfsdb.ends_with_two_backslashes x = false.
Proof.
  rewrite unmangle_twice, unmangle_as_map, <- strip_strip.
  split.
  - intros Heq. unfold strip in *.
    destruct (str_endswith x BACKSLASH) eqn:E1; [|now rewrite E1].
    destruct (str_endswith (str_drop_last x) BACKSLASH) eqn:E2; [|reflexivity].
    exfalso. apply smap_inj_length in Heq.
    apply endswith_nonempty in E2.
    pose proof (drop_last_length _ E2). lia.
  - now intros ->.
Qed.

Lemma unmangle_idempotent_iff_witness :
  let x := "$\proj>a\dir|b" +:+ String BACKSLASH "" in
  Tfsdb.ends_with_two_backslashes x = false /\
  Tfsdb.tfs_unmangle_path (Tfsdb.tfs_unmangle_path x) = Tfsdb.tfs_unmangle_path x.
Proof.
  split; [reflexivity|].
  apply (proj2 (unmangle_idempotent_iff _)). reflexivity.
Defined.

(** ** The MD5-validating iterator *)

Section Validator.

Import Tfsdb Fastimport.

Context {I : Type} `{Iterator I}.

(** Draining the validator drains the wrapped iterator, yields the same
    blocks, and decides the ending by the digest of everything fed. *)
Lemma drain_validating fuel : forall (it : I) d ctx h,
  drain fuel {| expected_checksum := d; iter := it; context := ctx;
                running_checksum := h |}
  = (fst (drain fuel it),
     validated_ending d ctx h (fst (drain fuel it)) (snd (drain fuel it))).
Proof.
  induction fuel as [|fuel IH]; intros it d ctx h; [reflexivity|].
  cbn [drain next MD5ValidatingIterator_iterator].
  unfold MD5ValidatingIterator_next. cbn [iter expected_checksum context running_checksum].
  destruct (next it) as [blk it'| |e].
  - rewrite IH. destruct (drain fuel it') as [blks e]. cbn.
    unfold validated_ending, Hashlib.update. cbn [Hashlib.fed].
    now rewrite <- app_assoc.
  - cbn. unfold Hashlib.digest. rewrite app_nil_r.
    destruct (decide (Hashlib.md5_digest (Hashlib.fed h) = d)) as [Heq|Hne].
    + rewrite bool_decide_eq_false_2 by (intros Hc; now apply Hc).
      now rewrite bool_decide_eq_true_2.
    + rewrite bool_decide_eq_true_2 by assumption.
      now rewrite bool_decide_eq_false_2.
  - reflexivity.
Qed.

Lemma consume_validating (it : I) d ctx :
  consume (MD5ValidatingIterator_init d it ctx)
  = (fst (consume it),
     validated_ending d ctx Hashlib.new (fst (consume it)) (snd (consume it))).
Proof. unfold consume, MD5ValidatingIterator_init. apply drain_validating. Qed.

End Validator.

(** Iterating a list yields its blocks and stops, given fuel for one call
    of [next] more than there are blocks. *)
Lemma drain_list (bs : list bytes) : forall fuel,
  (length bs < fuel)%nat -> drain fuel bs = (bs, Finished).
Proof.
  induction bs as [|blk bs IH]; intros [|fuel] Hlt; cbn in *; try lia.
  - reflexivity.
  - rewrite IH by lia. reflexivity.
Qed.

Lemma consume_list (bs : list bytes) : consume bs = (bs, Finished).
Proof. apply drain_list. cbn. lia. Qed.

(** C1: the validator built with [(d, bs)] yields exactly the blocks of
    [bs] in order, and ends with the checksum-mismatch exception if and only
    if [md5(concat(bs)) <> d] (with any fuel beyond the length of [bs]);
    [FileContentChange.content] wraps the stream it materializes in the
    validator against the declared content hash, so a stream whose bytes
    diverge from it ends the serialization of its blob with an exception. *)
Theorem md5_validation :
  (forall (d : bytes) (bs : list bytes) (ctx : option Z) (fuel : nat),
     (length bs < fuel)%nat ->
     drain fuel (Tfsdb.MD5ValidatingIterator_init d bs ctx)
     = (bs, if bool_decide (Hashlib.md5_digest (concat bs) = d)
            then Finished
            else Failed (Tfsdb.checksum_mismatch ctx)))
  /\
  (forall (d : bytes) (bs : list bytes) (ctx : option Z),
     consume (Tfsdb.MD5ValidatingIterator_init d bs ctx)
     = (bs, if bool_decide (Hashlib.md5_digest (concat bs) = d)
            then Finished
            else Failed (Tfsdb.checksum_mismatch ctx)))
  /\
  (forall (Blocks : Type) (It : Iterator Blocks)
          (content_blocks_cb : Z -> result Blocks)
          (zlib_decompress : Blocks -> Blocks)
          (tempdir_unpack_and_read : Z -> result Blocks)
          (f : Tfsdb.FileContentChange) (v : Tfsdb.MD5ValidatingIterator Blocks),
     Tfsdb.content content_blocks_cb zlib_decompress tempdir_unpack_and_read f
       = Ok v ->
     Tfsdb.expected_checksum v = Tfsdb.content_hash f /\
     forall bs : list bytes,
       consume (Tfsdb.iter v) = (bs, Finished) ->
       consume v
       = (bs, if bool_decide (Hashlib.md5_digest (concat bs) = Tfsdb.content_hash f)
              then Finished
              else Failed (Tfsdb.checksum_mismatch (Some (Tfsdb.id (Tfsdb.base f)))))
       /\
       (Hashlib.md5_digest (concat bs) <> Tfsdb.content_hash f ->
        forall size, exists out e,
          Fastimport.serialize_data (Fastimport.BlobFragmentIterator size v)
          = (out, Failed e))).
Proof.
  split; [|split].
  - intros d bs ctx fuel Hlt.
    unfold Tfsdb.MD5ValidatingIterator_init.
    rewrite drain_validating, (drain_list bs fuel Hlt). reflexivity.
  - intros d bs ctx. rewrite consume_validating, consume_list. reflexivity.
  - intros Blocks It cb zd tr f v Hc.
    assert (Hv : exists blocks,
               v = Tfsdb.MD5ValidatingIterator_init (Tfsdb.content_hash f) blocks
                     (Some (Tfsdb.id (Tfsdb.base f)))).
    { unfold Tfsdb.content in Hc.
      match type of Hc with
      | Py.bind ?r _ = _ => destruct r as [blocks|e]; cbn in Hc; [|discriminate]
      end.
      exists blocks. congruence. }
    destruct Hv as [blocks ->]. split; [reflexivity|].
    intros bs Hbs. cbn [Tfsdb.iter Tfsdb.MD5ValidatingIterator_init] in Hbs.
    assert (Hcons : consume (Tfsdb.MD5ValidatingIterator_init (Tfsdb.content_hash f)
                               blocks (Some (Tfsdb.id (Tfsdb.base f))))
                    = (bs, if bool_decide (Hashlib.md5_digest (concat bs)
                                           = Tfsdb.content_hash f)
                           then Finished
                           else Failed (Tfsdb.checksum_mismatch
                                          (Some (Tfsdb.id (Tfsdb.base f)))))).
    { rewrite consume_validating, Hbs. reflexivity. }
    split; [exact Hcons|].
    intros Hne size. unfold Fastimport.serialize_data.
    destruct (Fastimport.blob_len _) as [n|e]; [|eauto].
    rewrite Hcons, bool_decide_eq_false_2 by assumption. eauto.
Qed.

(** The validator over the single block 12345, as the repository's test
    runs it: the right digest completes, a perturbed one raises at the end
    of the stream; and a full-text content change whose declared hash is
    not the digest of its blocks. *)
Lemma md5_validation_witness :
  let c := b "12345" in
  let h := Hashlib.md5_digest c in
  let f := {| Tfsdb.base := {| Tfsdb.id := 42; Tfsdb.fullpath := Some "a.txt" |};
              Tfsdb.file_length := 5; Tfsdb.compressed_length := 5;
              Tfsdb.compression_type := 0; Tfsdb.content_type := 1;
              Tfsdb.content_hash := h ++ b "--" |} in
  let v := Tfsdb.MD5ValidatingIterator_init (h ++ b "--") [c] (Some 42) in
  drain 2 (Tfsdb.MD5ValidatingIterator_init h [c] None) = ([c], Finished) /\
  consume (Tfsdb.MD5ValidatingIterator_init (h ++ b "--") [c] None)
  = ([c], Failed (Exception "checksum mismatch (in context: None)")) /\
  Tfsdb.content (fun _ => Ok [c]) (fun blocks => blocks) (fun _ => Raise KeyError) f
  = Ok v /\
  consume v = ([c], Failed (Exception "checksum mismatch (in context: 42)")).
Proof.
  intros c h f v. split; [|split; [|split]].
  - apply (proj1 md5_validation h [c] None 2%nat). cbn. lia.
  - exact (proj1 (proj2 md5_validation) (h ++ b "--") [c] None).
  - reflexivity.
  - exact (proj1 (proj2 (proj2 (proj2 md5_validation) (list bytes) _
                    (fun _ => Ok [c]) (fun blocks => blocks)
                    (fun _ => Raise KeyError) f v eq_refl)
                  [c] eq_refl)).
Defined.

(** ** The mark allocator *)

Section Marks.

Import Tfsdb.

Lemma no_marks_issued_if_seen : issued_if_seen no_marks.
Proof. now left. Qed.

(** One allocation from a state that keeps the invariant. *)
Lemma generate_mark_ok branch changesetId st :
  issued_if_seen st ->
  exists m,
    generate_mark branch changesetId st
    = Ok (m, {| marks := <[(changesetId, branch) := m]> (marks st);
                marks_last_changesetId := Some changesetId;
                marks_last_issued := Some m;
                marks_last_issued_per_branch :=
                  <[branch := m]> (marks_last_issued_per_branch st) |})
    /\ m = match marks_last_changesetId st, marks_last_issued st with
           | Some prev, Some pm =>
               if prev =? changesetId then pm + 1 else changesetId * 100
           | _, _ => changesetId * 100
           end.
Proof.
  intros Hinv. unfold generate_mark.
  destruct (marks_last_changesetId st) as [prev|] eqn:Hprev.
  - destruct Hinv as [Hnone|[pm Hpm]]; [congruence|]. rewrite Hpm.
    destruct (Z.eqb_spec prev changesetId) as [->|Hne].
    + rewrite bool_decide_eq_false_2 by (intros Hc; now apply Hc).
      cbn. eauto.
    + rewrite bool_decide_eq_true_2 by congruence. cbn. eauto.
  - rewrite bool_decide_eq_true_2 by discriminate. cbn.
    destruct (marks_last_issued st); eauto.
Qed.

Lemma generate_marks_app l1 l2 st :
  generate_marks (l1 ++ l2) st
  = do r1 <- generate_marks l1 st;
    do r2 <- generate_marks l2 (snd r1);
    Ok (fst r1 ++ fst r2, snd r2).
Proof.
  revert st. induction l1 as [|[br c] l1 IH]; intros st; cbn.
  - destruct (generate_marks l2 st) as [[ms st']|e]; reflexivity.
  - destruct (generate_mark br c st) as [[m st1]|e]; cbn; [|reflexivity].
    rewrite IH.
    destruct (generate_marks l1 st1) as [[ms1 st2]|e]; cbn; [|reflexivity].
    destruct (generate_marks l2 st2) as [[ms2 st3]|e]; reflexivity.
Qed.

(** Any sequence of allocations succeeds, and the state remembers the
    changeset id and the mark of the last call. *)
Lemma generate_marks_ok calls : forall st,
  issued_if_seen st ->
  exists ms st',
    generate_marks calls st = Ok (ms, st') /\
    issued_if_seen st' /\
    marks_last_changesetId st'
    = match last calls with
      | Some (_, c) => Some c
      | None => marks_last_changesetId st
      end /\
    marks_last_issued st'
    = match last ms with
      | Some m => Some m
      | None => marks_last_issued st
      end /\
    (last calls = None <-> last ms = None).
Proof.
  induction calls as [|[br c] calls IH] using rev_ind; intros st Hinv.
  - exists [], st. cbn. repeat split; auto.
  - destruct (IH st Hinv) as (ms & st1 & Hms & Hinv1 & _).
    destruct (generate_mark_ok br c st1 Hinv1) as (m & Hm & _).
    eexists (ms ++ [m]), _.
    rewrite generate_marks_app, Hms. cbn. rewrite Hm. cbn.
    split; [reflexivity|]. rewrite !last_snoc. cbn.
    split; [right; eauto|]. repeat split; intros; discriminate.
Qed.

End Marks.

(** C2: in any sequence of [generate_mark] calls, a call returns
    [changeset_id * 100] when the changeset id differs from the one of the
    previous call (or there was none), and the previous mark plus one when it
    is the same; the mark is recorded under [(changeset_id, branch)] and under
    [branch].  Changeset 7 on the branches main, dev, main gets the marks
    700, 701, 702, and afterwards both the [(7, main)] entry and the
    last-per-branch entry of main are 702. *)
Theorem mark_allocation :
  (forall (calls : list (string * Z)) (branch : string) (changesetId : Z),
     exists ms st m st',
       Tfsdb.generate_marks calls Tfsdb.no_marks = Ok (ms, st) /\
       Tfsdb.generate_mark branch changesetId st = Ok (m, st') /\
       m = match last calls, last ms with
           | Some (_, prev), Some pm =>
               if prev =? changesetId then pm + 1 else changesetId * 100
           | _, _ => changesetId * 100
           end /\
       Tfsdb.marks st' !! (changesetId, branch) = Some m /\
       Tfsdb.marks_last_issued_per_branch st' !! branch = Some m /\
       Tfsdb.generate_marks (calls ++ [(branch, changesetId)]) Tfsdb.no_marks
       = Ok (ms ++ [m], st'))
  /\
  (exists st,
     Tfsdb.generate_marks [("main", 7); ("dev", 7); ("main", 7)] Tfsdb.no_marks
     = Ok ([700; 701; 702], st) /\
     Tfsdb.marks st !! (7, "main") = Some 702 /\
     Tfsdb.marks_last_issued_per_branch st !! "main" = Some 702).
Proof.
  split.
  - intros calls branch changesetId.
    destruct (generate_marks_ok calls _ no_marks_issued_if_seen)
      as (ms & st & Hms & Hinv & Hcs & Hiss & Hlast).
    destruct (generate_mark_ok branch changesetId st Hinv) as (m & Hm & Hval).
    eexists ms, st, m, _. split; [exact Hms|]. split; [exact Hm|].
    split; [|split; [|split]].
    + rewrite Hval, Hcs, Hiss. cbn.
      destruct (last calls) as [[? ?]|], (last ms); reflexivity.
    + cbn. apply lookup_insert_eq.
    + cbn. apply lookup_insert_eq.
    + rewrite generate_marks_app, Hms. cbn. rewrite Hm. reflexivity.
  - eexists. split; [vm_compute; reflexivity|]. split; vm_compute; reflexivity.
Qed.

(** ** Merge parents *)

(** C3, as the specification states it, fails: a merge from changeset 5 of
    dev, which has no commit on dev, is not resolved to the last mark of dev;
    the lookup raises. *)
Lemma merge_parent_unknown_mark_raises :
  Tfsdb.generate_marks [("dev", 3); ("rel", 4); ("main", 5)] Tfsdb.no_marks
  = Ok ([300; 400; 500], sample_marks) /\
  Tfsdb.marks sample_marks !! (5, "dev") = None /\
  Tfsdb.marks_last_issued_per_branch sample_marks !! "dev" = Some 300 /\
  spec_merge_mark sample_marks ("dev", Some 5) = Ok 300 /\
  Tfsdb.merge_mark sample_marks ("dev", Some 5) = Raise KeyError /\
  Tfsdb.merge_marks sample_marks [("dev", Some 5)] = Raise KeyError.
Proof. repeat split; vm_compute; reflexivity. Qed.

Section MergeParents.

Import Tfsdb.

Lemma merge_mark_raises st p e : merge_mark st p = Raise e -> e = KeyError.
Proof.
  destruct p as [branch version]. unfold merge_mark, getitem.
  destruct (truthy_int version).
  - destruct (marks st !! _); congruence.
  - destruct (marks_last_issued_per_branch st !! _); congruence.
Qed.

Lemma merge_marks_Ok st ms : forall l,
  merge_marks st ms = Ok l <-> Forall2 (fun p m => merge_mark st p = Ok m) ms l.
Proof.
  induction ms as [|p ms IH]; intros l; cbn.
  - split.
    + intros [= <-]. constructor.
    + intros Hf. inversion Hf. reflexivity.
  - split.
    + destruct (merge_mark st p) as [m|e] eqn:Hp; cbn; [|discriminate].
      destruct (merge_marks st ms) as [l'|e] eqn:Hms; cbn; [|discriminate].
      intros [= <-]. constructor; [assumption|]. now apply IH.
    + intros Hf. inversion Hf as [|? m ? l' Hm Hrest]; subst.
      apply IH in Hrest. rewrite Hm, Hrest. reflexivity.
Qed.

Lemma merge_marks_Raise st ms :
  (exists p, p ∈ ms /\ merge_mark st p = Raise KeyError)
  <-> merge_marks st ms = Raise KeyError.
Proof.
  induction ms as [|p ms IH]; cbn.
  - split; [|discriminate]. intros (p & Hin & _). inversion Hin.
  - destruct (merge_mark st p) as [m|e] eqn:Hp; cbn.
    + split.
      * intros (q & Hin & Hq). apply elem_of_cons in Hin as [->|Hin];
          [congruence|].
        assert (Hr : merge_marks st ms = Raise KeyError) by (apply IH; eauto).
        now rewrite Hr.
      * destruct (merge_marks st ms) as [l'|e] eqn:Hms; cbn; [discriminate|].
        intros [= ->]. destruct IH as [_ IH].
        destruct (IH eq_refl) as (q & Hin & Hq).
        exists q. split; [now apply list_elem_of_further|assumption].
    + apply merge_mark_raises in Hp as Hk. subst e. split; [reflexivity|].
      intros _. exists p. split; [apply list_elem_of_here|assumption].
Qed.

End MergeParents.

(** C3 (amended): for a pair [(branch, src_id)] yielded by [cs.merges()]:
    if [src_id] is neither null nor zero, the mark recorded for
    [(src_id, branch)] is used, and the resolution raises [KeyError] when
    no mark is recorded for it; if [src_id] is null (or zero), the driver
    substitutes the last mark issued on that branch, and raises [KeyError]
    when the branch has none.  The list of merge marks is built in the order
    of the pairs, and one failing pair fails the whole resolution. *)
Theorem merge_parent_resolution (st : Tfsdb.MarkState) :
  (forall branch v m,
     v <> 0 -> Tfsdb.marks st !! (v, branch) = Some m ->
     Tfsdb.merge_mark st (branch, Some v) = Ok m)
  /\
  (forall branch v,
     v <> 0 -> Tfsdb.marks st !! (v, branch) = None ->
     Tfsdb.merge_mark st (branch, Some v) = Raise KeyError)
  /\
  (forall branch src_id,
     src_id = None \/ src_id = Some 0 ->
     Tfsdb.merge_mark st (branch, src_id)
     = match Tfsdb.marks_last_issued_per_branch st !! branch with
       | Some m => Ok m
       | None => Raise KeyError
       end)
  /\
  (forall ms l,
     Tfsdb.merge_marks st ms = Ok l
     <-> Forall2 (fun p m => Tfsdb.merge_mark st p = Ok m) ms l)
  /\
  (forall ms,
     (exists p, p ∈ ms /\ Tfsdb.merge_mark st p = Raise KeyError)
     <-> Tfsdb.merge_marks st ms = Raise KeyError).
Proof.
  split; [|split; [|split; [|split]]].
  - intros branch v m Hv Hm. unfold Tfsdb.merge_mark, getitem. cbn.
    destruct (Z.eqb_spec v 0); [contradiction|]. cbn. now rewrite Hm.
  - intros branch v Hv Hm. unfold Tfsdb.merge_mark, getitem. cbn.
    destruct (Z.eqb_spec v 0); [contradiction|]. cbn. now rewrite Hm.
  - intros branch src_id [->| ->]; reflexivity.
  - apply merge_marks_Ok.
  - apply merge_marks_Raise.
Qed.

Lemma merge_parent_resolution_witness :
  Tfsdb.merge_mark sample_marks ("dev", Some 3) = Ok 300 /\
  Tfsdb.merge_mark sample_marks ("dev", Some 5) = Raise KeyError /\
  Tfsdb.merge_mark sample_marks ("dev", None) = Ok 300 /\
  Tfsdb.merge_marks sample_marks [("dev", Some 3); ("rel", None)]
  = Ok [300; 400].
Proof.
  pose proof (merge_parent_resolution sample_marks)
    as (Hknown & Hunknown & Hnull & Hok & _).
  split; [|split; [|split]].
  - apply Hknown; [lia | vm_compute; reflexivity].
  - apply Hunknown; [lia | vm_compute; reflexivity].
  - rewrite Hnull by now left. vm_compute. reflexivity.
  - apply Hok. repeat constructor; vm_compute; reflexivity.
Defined.

(** ** Merges of a changeset *)

Section Merges.

Import Tfsdb.

Lemma entries_dict_append {V} (k : string) (v : V) d b :
  entries b (dict_append k v d)
  = if decide (b = k) then
      match entries k d with
      | [] => [(k, [v])]
      | (k', vs) :: rest => (k', vs ++ [v]) :: rest
      end
    else entries b d.
Proof.
  unfold entries. induction d as [|[k' vs] d IH].
  - cbn [dict_append]. rewrite filter_cons, filter_nil. cbn [fst].
    destruct (decide (b = k)) as [->|Hne].
    + now rewrite decide_True.
    + rewrite decide_False by congruence. reflexivity.
  - cbn [dict_append]. destruct (String.eqb_spec k' k) as [->|Hk].
    + rewrite !filter_cons. cbn [fst].
      destruct (decide (b = k)) as [->|Hne].
      * rewrite !decide_True by reflexivity. reflexivity.
      * rewrite !decide_False by congruence. reflexivity.
    + rewrite !filter_cons. cbn [fst]. rewrite IH.
      destruct (decide (b = k)) as [->|Hne].
      * rewrite !decide_False by assumption. reflexivity.
      * destruct (decide (k' = b)); reflexivity.
Qed.

Lemma group_snoc {V} (k : string) (v : V) d l :
  entries k d = group k l ->
  match entries k d with
  | [] => [(k, [v])]
  | (k', vs) :: rest => (k', vs ++ [v]) :: rest
  end = group k (l ++ [v]).
Proof. intros ->. destruct l; reflexivity. Qed.

Lemma split_fold_entries {Row V} hooks (full_path_hook : Row -> string)
    (wrap : Row -> option string -> V) rows : forall d (acc : string -> list V),
  (forall b, entries b d = group b (acc b)) ->
  forall b,
    entries b
      (fold_left
         (fun result row =>
            match kept hooks (full_path_hook row) with
            | None => result
            | Some (branch, relpath) =>
                dict_append branch (wrap row relpath) result
            end) rows d)
    = group b (acc b ++ values_for hooks full_path_hook wrap b rows).
Proof.
  induction rows as [|row rows IH]; intros d acc Hd b; cbn [fold_left].
  - unfold values_for. cbn. rewrite app_nil_r. apply Hd.
  - destruct (kept hooks (full_path_hook row)) as [[branch relpath]|] eqn:Hk.
    + rewrite (IH _ (fun b' => if decide (b' = branch)
                               then acc b' ++ [wrap row relpath] else acc b')).
      * unfold values_for. cbn. rewrite Hk.
        destruct (decide (b = branch)) as [->|Hne].
        -- rewrite decide_True by reflexivity. cbn. now rewrite <- app_assoc.
        -- rewrite decide_False by congruence. reflexivity.
      * intros b'. rewrite entries_dict_append.
        destruct (decide (b' = branch)) as [->|Hne]; [|apply Hd].
        apply group_snoc, Hd.
    + rewrite (IH _ acc Hd). unfold values_for. cbn. now rewrite Hk.
Qed.

(** The dictionary of [split_and_filter_file_rows] holds, under each
    branch that kept a row, one entry with the branch's values in the order
    of the rows, and no entry under any other branch. *)
Lemma split_entries {Row V} hooks (full_path_hook : Row -> string)
    (wrap : Row -> option string -> V) rows b :
  entries b (split_and_filter_file_rows rows hooks full_path_hook wrap)
  = group b (values_for hooks full_path_hook wrap b rows).
Proof.
  unfold split_and_filter_file_rows.
  now rewrite (split_fold_entries hooks full_path_hook wrap rows [] (fun _ => [])).
Qed.

Lemma values_for_source_rows hooks b rows :
  values_for hooks SourceFullPath (fun (row : MergeRow) _ => row) b rows
  = source_rows hooks b rows.
Proof.
  unfold values_for, source_rows. induction rows as [|r rows IH]; [reflexivity|].
  rewrite filter_cons. csimpl. rewrite IH.
  destruct (kept hooks (SourceFullPath r)) as [[branch relpath]|].
  - destruct (decide (branch = b)) as [->|Hne].
    + now rewrite decide_True.
    + rewrite decide_False by (cbn; congruence). reflexivity.
  - rewrite decide_False by discriminate. reflexivity.
Qed.

Lemma fold_max_spec (rest : list Z) : forall x,
  let v := fold_left Z.max rest x in
  (v = x \/ v ∈ rest) /\ x <= v /\ Forall (fun w => w <= v) rest.
Proof.
  induction rest as [|y rest IH]; intros x; cbn [fold_left]; cbv zeta.
  - split; [now left|]. split; [lia|constructor].
  - specialize (IH (Z.max x y)). cbv zeta in IH.
    set (v := fold_left Z.max rest (Z.max x y)) in *.
    destruct IH as (Hin & Hle & Hall). split; [|split].
    + destruct Hin as [Heq|Hin]; [|right; now apply list_elem_of_further].
      destruct (Z.max_spec x y) as [[_ Hm]|[_ Hm]].
      * right. rewrite Heq, Hm. apply list_elem_of_here.
      * left. congruence.
    + lia.
    + constructor; [lia|assumption].
Qed.

Lemma max_or_none_spec (l : list Z) :
  match max_or_none l with
  | None => l = []
  | Some v => v ∈ l /\ Forall (fun w => w <= v) l
  end.
Proof.
  destruct l as [|x rest]; cbn; [reflexivity|].
  destruct (fold_max_spec rest x) as (Hin & Hle & Hall).
  split.
  - destruct Hin as [->|Hin];
      [apply list_elem_of_here | now apply list_elem_of_further].
  - constructor; assumption.
Qed.

End Merges.

(** C8: for a changeset [cs] and a branch [b] under which the source path
    of one of its merge rows is kept, [cs.merges()] yields exactly one pair
    for [b]: [(b, m)] with [m] the maximum [SourceVersionTo] of those rows
    of [b] whose [SourceVersionTo] is strictly less than [cs.id], or
    [(b, None)] when there is no such row.  (For any other branch it yields
    no pair.) *)
Theorem merges_per_source_branch {T} (cs : Tfsdb.Changeset T) (b : string) :
  let rows_b := source_rows (Tfsdb.hooks cs) b (Tfsdb.mergerows cs) in
  (rows_b <> [] ->
   exists m,
     filter (fun p => p.1 = b) (Tfsdb.merges cs) = [(b, m)] /\
     match m with
     | None =>
         forall r, r ∈ rows_b -> ~ Tfsdb.SourceVersionTo r < Tfsdb.cs_id cs
     | Some v =>
         v < Tfsdb.cs_id cs /\
         (exists r, r ∈ rows_b /\ Tfsdb.SourceVersionTo r = v) /\
         (forall r, r ∈ rows_b ->
            Tfsdb.SourceVersionTo r < Tfsdb.cs_id cs ->
            Tfsdb.SourceVersionTo r <= v)
     end)
  /\
  (rows_b = [] -> filter (fun p => p.1 = b) (Tfsdb.merges cs) = []).
Proof.
  intros rows_b. unfold Tfsdb.merges.
  set (F := fun '(b0, rows) => (b0, _)).
  assert (Hfilter : forall d : list (string * list Tfsdb.MergeRow),
             filter (fun p => p.1 = b) (map F d) = map F (entries b d)).
  { intros d. unfold entries. induction d as [|[k rows] d IH]; [reflexivity|].
    cbn [map]. rewrite !filter_cons, IH.
    assert (HF : (F (k, rows)).1 = k) by reflexivity. rewrite HF. cbn [fst].
    destruct (decide (k = b)); reflexivity. }
  rewrite Hfilter, split_entries, values_for_source_rows. fold rows_b.
  split.
  - intros Hne. destruct rows_b as [|r0 rows'] eqn:Hrows; [congruence|].
    cbn [group map]. subst F. cbv beta iota.
    eexists. split; [reflexivity|].
    set (versions := map Tfsdb.SourceVersionTo _).
    pose proof (max_or_none_spec versions) as Hmax.
    assert (Hver : forall w, w ∈ versions <->
               exists r, r ∈ r0 :: rows' /\ Tfsdb.SourceVersionTo r = w
                         /\ w < Tfsdb.cs_id cs).
    { intros w. subst versions. rewrite list_elem_of_In, in_map_iff. split.
      - intros (r & <- & Hr). apply list_elem_of_In, list_elem_of_filter in Hr
          as [Hlt Hin]. eauto.
      - intros (r & Hin & <- & Hlt). exists r. split; [reflexivity|].
        apply list_elem_of_In, list_elem_of_filter. auto. }
    destruct (Tfsdb.max_or_none versions) as [v|].
    + destruct Hmax as [Hin Hall].
      apply Hver in Hin as (r & Hin & Hv & Hlt).
      split; [assumption|]. split; [eauto|].
      intros r' Hin' Hlt'. rewrite Forall_forall in Hall.
      apply Hall, Hver. eauto.
    + intros r Hin Hlt.
      assert (Hw : Tfsdb.SourceVersionTo r ∈ versions) by (apply Hver; eauto).
      rewrite Hmax in Hw. inversion Hw.
  - intros ->. reflexivity.
Qed.

Example sample_merges :
  Tfsdb.merges sample_changeset = [("dev", Some 3); ("rel", None)].
Proof. vm_compute. reflexivity. Qed.

Lemma merges_per_source_branch_witness :
  source_rows sample_hooks "dev" (Tfsdb.mergerows sample_changeset) <> [] /\
  exists m,
    filter (fun p => p.1 = "dev") (Tfsdb.merges sample_changeset) = [("dev", m)] /\
    match m with
    | None =>
        forall r,
          r ∈ source_rows sample_hooks "dev" (Tfsdb.mergerows sample_changeset) ->
          ~ Tfsdb.SourceVersionTo r < 8
    | Some v =>
        v < 8 /\
        (exists r,
           r ∈ source_rows sample_hooks "dev" (Tfsdb.mergerows sample_changeset)
           /\ Tfsdb.SourceVersionTo r = v) /\
        (forall r,
           r ∈ source_rows sample_hooks "dev" (Tfsdb.mergerows sample_changeset) ->
           Tfsdb.SourceVersionTo r < 8 -> Tfsdb.SourceVersionTo r <= v)
    end.
Proof.
  assert (Hrows : source_rows sample_hooks "dev" (Tfsdb.mergerows sample_changeset)
                  <> []) by (vm_compute; discriminate).
  split; [exact Hrows|].
  exact (proj1 (merges_per_source_branch sample_changeset "dev") Hrows).
Defined.

(** ** The command stream of a changeset *)

Section Stream.

Import Tfsdb Fastimport.

Context {Blocks : Type} `{Iterator Blocks} {Timestamp : Type}.
Variable content_blocks_cb : Z -> result Blocks.
Variable zlib_decompress : Blocks -> Blocks.
Variable tempdir_unpack_and_read : Z -> result Blocks.
Variable who_when_of : User -> Timestamp -> result who_when.
Variable local_time : Timestamp -> string.
Variable content_rewrite :
  option (string -> option string -> Z -> MD5ValidatingIterator Blocks
          -> result (Z * content_stream (Blocks := Blocks))).

Lemma gbind_outputs {A B} (m : Gen (Blocks := Blocks) A) (k : A -> Gen (Blocks := Blocks) B) s :
  outputs (gbind m k) s
  = match m s with
    | (o1, Ok a, s1) => o1 ++ outputs (k a) s1
    | (o1, Raise _, _) => o1
    end.
Proof.
  unfold outputs, gbind. destruct (m s) as [[o1 [a|e]] s1]; [|reflexivity].
  destruct (k a s1) as [[o2 r2] s2]. reflexivity.
Qed.

Lemma for_each_outputs {A} (P : Cmd (Blocks := Blocks) -> Prop) (l : list A) (body : A -> Gen (Blocks := Blocks) unit) :
  (forall x s, Forall P (outputs (body x) s)) ->
  forall s, Forall P (outputs (for_each l body) s).
Proof.
  intros Hbody. induction l as [|x l IH]; intros s; cbn [for_each].
  - constructor.
  - rewrite gbind_outputs. specialize (Hbody x s). unfold outputs in Hbody.
    destruct (body x s) as [[o1 [a|e]] s1]; cbn in Hbody; [|assumption].
    apply Forall_app. split; [assumption | apply IH].
Qed.

Lemma FileDeleteCommand_init_is_delete p (c : Cmd (Blocks := Blocks)) :
  FileDeleteCommand_init p = Ok c -> is_delete c = true.
Proof.
  unfold FileDeleteCommand_init. destruct (check_path p); cbn; [|discriminate].
  now intros [= <-].
Qed.

Lemma FileModifyCommand_init_is_modify p mode dataref data (c : Cmd (Blocks := Blocks)) :
  FileModifyCommand_init p mode dataref data = Ok c -> is_modify c = true.
Proof.
  unfold FileModifyCommand_init.
  destruct (Bool.eqb _ _); [discriminate|].
  destruct (check_path p); cbn; [|discriminate].
  now intros [= <-].
Qed.

Lemma phased_order (cmds : list (Cmd (Blocks := Blocks))) i j c d :
  phased cmds ->
  cmds !! i = Some c -> is_delete c = true ->
  cmds !! j = Some d -> is_modify d = true ->
  (i < j)%nat.
Proof.
  intros (pre & dels & mods & -> & Hpre & Hdels & Hmods) Hi Hc Hj Hd.
  rewrite Forall_forall in Hpre, Hdels, Hmods.
  assert (Hi' : (i < length pre + length dels)%nat).
  { destruct (Nat.lt_ge_cases i (length pre + length dels)) as [|Hge]; [assumption|].
    exfalso. rewrite app_assoc, lookup_app_r in Hi by (rewrite length_app; lia).
    apply list_elem_of_lookup_2, Hmods in Hi as (? & ? & ? & ? & Hi).
    apply FileModifyCommand_init_is_modify in Hi. destruct c; discriminate. }
  assert (Hj' : (length pre + length dels <= j)%nat).
  { destruct (Nat.lt_ge_cases j (length pre + length dels)) as [Hlt|]; [|assumption].
    exfalso. destruct (Nat.lt_ge_cases j (length pre)) as [Hlt'|Hge].
    - rewrite lookup_app_l in Hj by assumption.
      apply list_elem_of_lookup_2, Hpre in Hj. destruct Hj as (_ & Hj & _).
      congruence.
    - rewrite lookup_app_r in Hj by assumption.
      rewrite lookup_app_l in Hj by lia.
      apply list_elem_of_lookup_2, Hdels in Hj as (? & Hj).
      apply FileDeleteCommand_init_is_delete in Hj. destruct d; discriminate. }
  lia.
Qed.

Lemma phased_pre (pre rest : list (Cmd (Blocks := Blocks))) :
  Forall neutral pre -> phased rest -> phased (pre ++ rest).
Proof.
  intros Hpre (pre' & dels & mods & -> & Hpre' & Hdels & Hmods).
  exists (pre ++ pre'), dels, mods. rewrite <- app_assoc.
  split; [reflexivity|]. split; [now apply Forall_app|]. now split.
Qed.

Lemma phased_nil : phased (Blocks := Blocks) [].
Proof. exists [], [], []. repeat split; constructor. Qed.

Lemma phased_two_loops (dels mods : Gen (Blocks := Blocks) unit) s :
  (forall s', Forall delete_built (outputs dels s')) ->
  (forall s', Forall modify_built (outputs mods s')) ->
  phased (outputs (gbind dels (fun _ => mods)) s).
Proof.
  intros Hd Hm. rewrite gbind_outputs. specialize (Hd s). unfold outputs in Hd.
  destruct (dels s) as [[o1 [a|e]] s1]; cbn in Hd.
  - exists [], o1, (outputs mods s1). repeat split; auto.
  - exists [], o1, []. rewrite app_nil_r. repeat split; auto.
Qed.

Lemma ProgressCommand_init_neutral msg (c : Cmd (Blocks := Blocks)) :
  ProgressCommand_init msg = Ok c -> neutral c.
Proof.
  unfold ProgressCommand_init. destruct (str_contains LF msg); [discriminate|].
  intros [= <-]. repeat split.
Qed.

(** The stream of one changeset is in three phases. *)
Lemma fastexport_changeset_phased no_content (cs : Changeset Timestamp) s :
  phased
    (outputs
       (fastexport_changeset content_blocks_cb zlib_decompress
          tempdir_unpack_and_read who_when_of local_time content_rewrite
          no_content cs) s).
Proof.
  unfold fastexport_changeset.
  set (dels := for_each (deletes cs) _).
  set (mods := for_each (changes cs) _).
  assert (Hd : forall s', Forall delete_built (outputs dels s')).
  { subst dels. apply for_each_outputs. intros f s'.
    unfold outputs, gbind, lift, yield.
    destruct (git_mangle_path (fullpath f)) as [p|e]; [|constructor].
    destruct (FileDeleteCommand_init (Some p)) as [c|e] eqn:Hc; [|constructor].
    cbn. repeat constructor. eexists. exact Hc. }
  assert (Hm : forall s', Forall modify_built (outputs mods s')).
  { subst mods. apply for_each_outputs. intros f s'. rewrite gbind_outputs.
    match goal with
    | |- context [match ?g s' with _ => _ end] =>
        assert (Hsilent : (g s').1.1 = [])
    end.
    { destruct no_content; [reflexivity|].
      unfold gbind, lift, warning, gret.
      destruct (content _ _ _ f) as [v|e]; [|reflexivity].
      destruct content_rewrite as [hook|].
      - destruct (hook _ _ _ v) as [lc|e]; [|reflexivity].
        destruct (_ <=? _); reflexivity.
      - destruct (_ <=? _); reflexivity. }
    match goal with
    | |- context [match ?g s' with _ => _ end] =>
        destruct (g s') as [[o1 [lc|e]] s1]; cbn in Hsilent; subst o1;
          [|constructor]
    end.
    cbn [app]. unfold outputs, gbind, lift, yield.
    destruct (git_mangle_path (fullpath (base f))) as [p|e]; [|constructor].
    destruct (FileModifyCommand_init _ _ _ _) as [c|e] eqn:Hc; [|constructor].
    cbn. repeat constructor. eexists _, _, _, _. exact Hc. }
  pose proof (fun s' => phased_two_loops dels mods s' Hd Hm) as Hloops.
  clearbody dels mods.
  unfold outputs at 1.
  unfold gbind at 1 2 3 4 5 6 7 8, lift, yield, read_marks, new_mark.
  destruct (ProgressCommand_init _) as [progress|e] eqn:Hp; [|apply phased_nil].
  apply ProgressCommand_init_neutral in Hp.
  assert (Hpre : phased [progress]).
  { apply (phased_pre [progress] []); [now constructor | apply phased_nil]. }
  destruct (merge_marks _ _) as [mm|e]; [|exact Hpre].
  cbn [git_mangle_path].
  destruct (generate_mark _ _ _) as [[mark st]|e]; [|exact Hpre].
  destruct (if negb _ then _ else _) as [author|e]; [|exact Hpre].
  destruct (who_when_of (committer cs) _) as [cm|e]; [|exact Hpre].
  match goal with
  | |- context [gbind dels (fun _ => mods) ?s1] =>
      specialize (Hloops s1); unfold outputs in Hloops;
      destruct (gbind dels (fun _ => mods) s1) as [[o r] s2]
  end.
  cbn in Hloops |- *.
  apply (phased_pre [progress; _] o); [|assumption].
  constructor; [assumption|]. constructor; [|constructor]. repeat split.
Qed.

End Stream.

(** C9: in the command stream of one changeset, every file-delete command
    comes strictly before every file-modify command, whatever the rows of
    the changeset and their order, and whether or not the stream ends with
    an exception. *)
Theorem deletes_before_modifies
    {Blocks : Type} `{Iterator Blocks} {Timestamp : Type}
    (content_blocks_cb : Z -> result Blocks)
    (zlib_decompress : Blocks -> Blocks)
    (tempdir_unpack_and_read : Z -> result Blocks)
    (who_when_of : Tfsdb.User -> Timestamp -> result Fastimport.who_when)
    (local_time : Timestamp -> string)
    (content_rewrite :
       option (string -> option string -> Z -> Tfsdb.MD5ValidatingIterator Blocks
               -> result (Z * Tfsdb.content_stream (Blocks := Blocks))))
    (no_content : bool) (cs : Tfsdb.Changeset Timestamp) (s : Tfsdb.DriverState)
    (i j : nat) (p q : string) (mode : Z) (dataref : option bytes)
    (data : option (Fastimport.blob Tfsdb.content_stream)) :
  let cmds :=
    (Tfsdb.fastexport_changeset content_blocks_cb zlib_decompress
       tempdir_unpack_and_read who_when_of local_time content_rewrite
       no_content cs s).1.1 in
  cmds !! i = Some (Fastimport.FileDeleteCommand p) ->
  cmds !! j = Some (Fastimport.FileModifyCommand q mode dataref data) ->
  (i < j)%nat.
Proof.
  intros cmds Hi Hj.
  eapply (phased_order cmds i j); eauto.
  apply fastexport_changeset_phased.
Qed.

(** ** The serializer *)

Section Serializer.

Import Fastimport.

Lemma str_replace_same c s : str_replace c (String c "") s = s.
Proof.
  induction s as [|a s IH]; cbn; [reflexivity|].
  destruct (Ascii.eqb_spec a c) as [->|Hne]; cbn; now rewrite IH.
Qed.

(** The replacement template of [format_path], a backslash and an [n],
    expands to a newline: the substitution puts a newline for each
    newline. *)
Lemma sub_newline p : Re.sub LF (String BACKSLASH "n") p = Ok p.
Proof.
  unfold Re.sub.
  change (Re.expand_template (String BACKSLASH "n")) with (Ok (String LF "")).
  cbn. now rewrite str_replace_same.
Qed.

Lemma format_path_eq p quote_spaces :
  format_path p quote_spaces
  = Ok (encode (if needs_quotes p quote_spaces then quoted p else p)).
Proof.
  unfold format_path, needs_quotes.
  destruct (str_contains LF p); [now rewrite sub_newline|reflexivity].
Qed.

Lemma format_mode_unknown mode :
  mode ∉ mode_whitelist ->
  _format_mode mode = Raise (AssertionError ("Unknown mode " +:+ fmt_o mode)).
Proof.
  intros Hnot. unfold _format_mode.
  repeat match goal with
  | |- context [?m =? ?c] =>
      destruct (Z.eqb_spec m c) as [->|?];
        [exfalso; apply Hnot; unfold mode_whitelist;
         repeat (first [apply list_elem_of_here | apply list_elem_of_further])|]
  end.
  reflexivity.
Qed.

End Serializer.

(** C5: [_format_mode] gives the token 755 for the modes 0o755 and
    0o100755, 644 for 0o644 and 0o100644, 040000 for 0o40000, 120000 for
    0o120000, 160000 for 0o160000, and raises for every other integer; the
    serialization of a file-modify command writes that token after the
    [M], and for every other mode it fails before writing anything. *)
Theorem format_mode_spec (m : Z) :
  (m = octal "755" \/ m = octal "100755" ->
   Fastimport._format_mode m = Ok (b "755"))
  /\ (m = octal "644" \/ m = octal "100644" ->
      Fastimport._format_mode m = Ok (b "644"))
  /\ (m = octal "40000" -> Fastimport._format_mode m = Ok (b "040000"))
  /\ (m = octal "120000" -> Fastimport._format_mode m = Ok (b "120000"))
  /\ (m = octal "160000" -> Fastimport._format_mode m = Ok (b "160000"))
  /\ (m ∉ mode_whitelist ->
      Fastimport._format_mode m
      = Raise (AssertionError ("Unknown mode " +:+ fmt_o m)))
  /\ (forall (I : Type) (It : Iterator I) path dataref (data : option (Fastimport.blob I)),
        match Fastimport._format_mode m with
        | Ok token =>
            exists rest e,
              Fastimport.FileModifyCommand_serialize path m dataref data
              = (b "M " ++ token ++ b " " ++ rest, e)
        | Raise err =>
            Fastimport.FileModifyCommand_serialize path m dataref data
            = ([], Failed err)
        end).
Proof.
  repeat split.
  - intros [-> | ->]; reflexivity.
  - intros [-> | ->]; reflexivity.
  - intros ->; reflexivity.
  - intros ->; reflexivity.
  - intros ->; reflexivity.
  - apply format_mode_unknown.
  - intros I It path dataref data. unfold Fastimport.FileModifyCommand_serialize.
    destruct (Fastimport._format_mode m) as [token|err]; [|reflexivity].
    rewrite format_path_eq. cbn [Py.bind].
    destruct data as [value|].
    + destruct (Fastimport.serialize_data value) as [out e].
      repeat rewrite <- app_assoc. eexists _, e. reflexivity.
    + eexists _, Finished. reflexivity.
Qed.

Lemma format_mode_spec_witness :
  Fastimport._format_mode 33261 = Ok (b "755") /\
  Fastimport._format_mode 420 = Ok (b "644") /\
  Fastimport._format_mode 16384 = Ok (b "040000") /\
  Fastimport._format_mode 40960 = Ok (b "120000") /\
  Fastimport._format_mode 57344 = Ok (b "160000") /\
  Fastimport._format_mode 511 = Raise (AssertionError "Unknown mode 777").
Proof.
  split; [|split; [|split; [|split; [|split]]]].
  - apply (proj1 (format_mode_spec 33261)). right. reflexivity.
  - apply (proj1 (proj2 (format_mode_spec 420))). left. reflexivity.
  - apply (proj1 (proj2 (proj2 (format_mode_spec 16384)))). reflexivity.
  - apply (proj1 (proj2 (proj2 (proj2 (format_mode_spec 40960))))). reflexivity.
  - apply (proj1 (proj2 (proj2 (proj2 (proj2 (format_mode_spec 57344)))))).
    reflexivity.
  - pose proof (proj1 (proj2 (proj2 (proj2 (proj2 (proj2 (format_mode_spec 511)))))))
      as Hunknown.
    vm_compute in Hunknown. apply Hunknown.
    intros Hin. repeat (apply elem_of_cons in Hin as [Heq|Hin]; [discriminate Heq|]).
    inversion Hin.
Defined.

(** Without a newline in the path, [format_path] does what the
    specification says. *)
Lemma format_path_without_newline p quote_spaces :
  str_contains LF p = false ->
  Fastimport.format_path p quote_spaces = Ok (encode (spec_format_path p quote_spaces)).
Proof.
  intros Hnl. rewrite format_path_eq. unfold needs_quotes, spec_format_path.
  rewrite Hnl. cbn.
  destruct (str_startswith p DQUOTE); [reflexivity|]. cbn.
  destruct (quote_spaces && str_contains SPACE p); reflexivity.
Qed.

(** C6 on the code: [format_path] never fails; it wraps the path in double
    quotes when it contains a newline, starts with a double quote, or
    contains a space while the quote-spaces flag is set, and emits it
    unchanged otherwise; but the newlines of a quoted path are emitted as
    they are, not escaped.  For the path [a], newline, [b] the code writes
    the newline between the quotes, where the specification has a backslash
    and an [n]. *)
Theorem format_path_newline_not_escaped :
  (forall p quote_spaces,
     Fastimport.format_path p quote_spaces
     = Ok (encode (if needs_quotes p quote_spaces then quoted p else p)))
  /\ Fastimport.format_path path_with_newline false
     = Ok (encode (String DQUOTE ("a" +:+ String LF ("b" +:+ String DQUOTE ""))))
  /\ spec_format_path path_with_newline false
     = String DQUOTE ("a" +:+ String BACKSLASH ("nb" +:+ String DQUOTE ""))
  /\ Fastimport.format_path path_with_newline false
     <> Ok (encode (spec_format_path path_with_newline false)).
Proof.
  split; [apply format_path_eq|].
  split; [reflexivity|]. split; [reflexivity|].
  vm_compute. discriminate.
Qed.

(** ** Legal paths *)

Section Paths.

Import Fastimport.

Lemma check_path_cases path :
  match check_path path with
  | Ok p => path = Some p /\ ~ illegal_path path /\ legal p
  | Raise e => (exists msg, e = ValueError msg) /\ illegal_path path
  end.
Proof.
  unfold check_path, illegal_path, legal. destruct path as [p|].
  - destruct p as [|c rest]; cbn.
    + split; [eauto|]. right; left; reflexivity.
    + destruct (Ascii.eqb_spec c SLASH) as [->|Hne].
      * split; [eauto|]. right; right; eauto.
      * split; [reflexivity|]. split.
        -- intros [Hn|[He|[r Hr]]]; congruence.
        -- split; [discriminate|]. now apply Ascii.eqb_neq.
  - split; [eauto|]. now left.
Qed.

Lemma check_path_legal path p : check_path path = Ok p -> legal p.
Proof.
  intros Hc. pose proof (check_path_cases path) as Hcases.
  rewrite Hc in Hcases. apply Hcases.
Qed.

Context {I : Type} `{Iterator I}.

Lemma built_paths_legal (c : Command I) :
  built c -> Forall legal (command_paths c).
Proof.
  intros [(path & mode & dataref & data & Hc)
         |[(path & Hc)|[(src & dest & Hc)|(old & new & Hc)]]].
  - unfold FileModifyCommand_init in Hc.
    destruct (Bool.eqb _ _); [discriminate|].
    destruct (check_path path) as [p|e] eqn:Hp; [|discriminate].
    injection Hc as <-. cbn. repeat constructor; eapply check_path_legal, Hp.
  - unfold FileDeleteCommand_init in Hc.
    destruct (check_path path) as [p|e] eqn:Hp; [|discriminate].
    injection Hc as <-. cbn. repeat constructor; eapply check_path_legal, Hp.
  - unfold FileCopyCommand_init in Hc.
    destruct (check_path src) as [p|e] eqn:Hp; [|discriminate].
    destruct (check_path dest) as [q|e] eqn:Hq; [|discriminate].
    injection Hc as <-. cbn.
    repeat constructor; eapply check_path_legal; eassumption.
  - unfold FileRenameCommand_init in Hc.
    destruct (check_path old) as [p|e] eqn:Hp; [|discriminate].
    destruct (check_path new) as [q|e] eqn:Hq; [|discriminate].
    injection Hc as <-. cbn.
    repeat constructor; eapply check_path_legal; eassumption.
Qed.

End Paths.

(** C7: [check_path] raises a [ValueError] if and only if the path is
    missing, empty, or begins with a slash, and otherwise returns the path
    unchanged; a command built by the constructor of a file-modify,
    file-delete, file-copy or file-rename command carries only paths that are
    not empty and do not begin with a slash, and so does every command in
    the stream that the driver yields for a changeset. *)
Theorem check_path_spec :
  (forall path,
     match Fastimport.check_path path with
     | Ok p => path = Some p /\ ~ illegal_path path
     | Raise e => (exists msg, e = ValueError msg) /\ illegal_path path
     end)
  /\
  (forall (I : Type) (It : Iterator I) (c : Fastimport.Command I),
     built c -> Forall legal (Fastimport.command_paths c))
  /\
  (forall (Blocks : Type) (It : Iterator Blocks) (Timestamp : Type)
          content_blocks_cb zlib_decompress tempdir_unpack_and_read
          who_when_of local_time content_rewrite
          no_content (cs : Tfsdb.Changeset Timestamp) s,
     Forall (fun c => Forall legal (Fastimport.command_paths c))
       (Tfsdb.fastexport_changeset (Blocks := Blocks)
          content_blocks_cb zlib_decompress tempdir_unpack_and_read
          who_when_of local_time content_rewrite no_content cs s).1.1).
Proof.
  split; [|split].
  - intros path. pose proof (check_path_cases path) as Hc.
    destruct (Fastimport.check_path path); tauto.
  - intros I It c. apply built_paths_legal.
  - intros Blocks It Timestamp cb zd tr ww lt cr no_content cs s.
    destruct (fastexport_changeset_phased cb zd tr ww lt cr no_content cs s)
      as (pre & dels & mods & Heq & Hpre & Hdels & Hmods).
    unfold outputs in Heq. rewrite Heq.
    rewrite !Forall_app. split; [|split].
    + eapply Forall_impl; [exact Hpre|]. intros c (_ & _ & ->). constructor.
    + eapply Forall_impl; [exact Hdels|]. intros c Hc.
      apply built_paths_legal. right; left. exact Hc.
    + eapply Forall_impl; [exact Hmods|]. intros c Hc.
      apply built_paths_legal. left. exact Hc.
Qed.

Lemma check_path_spec_witness :
  built (I := list bytes) (Fastimport.FileRenameCommand "old/a.txt" "new/a.txt") /\
  Forall legal ["old/a.txt"; "new/a.txt"].
Proof.
  assert (Hb : built (I := list bytes)
                 (Fastimport.FileRenameCommand "old/a.txt" "new/a.txt")).
  { right; right; right. exists (Some "old/a.txt"), (Some "new/a.txt"). reflexivity. }
  split; [exact Hb|].
  exact (proj1 (proj2 check_path_spec) (list bytes) _ _ Hb).
Defined.

(** ** Construction and serialization of file-modify commands *)

(** C10, as the claim states it, fails: with exactly one content source
    the construction still raises for an illegal path, and the serialization
    of a directory entry writes a dash, not the reference it was given. *)
Lemma file_modify_one_source_still_raises :
  Fastimport.FileModifyCommand_init (I := list bytes) (Some "") (octal "644")
    None (Some (Fastimport.Bytes (b "x")))
  = Raise (ValueError "illegal path ''")
  /\
  Fastimport.FileModifyCommand_init (I := list bytes) (Some "/etc/passwd")
    (octal "644") (Some (b ":1")) None
  = Raise (ValueError "illegal path '/etc/passwd'")
  /\
  Fastimport.FileModifyCommand_serialize (I := list bytes) "lib" (octal "40000")
    (Some (b ":1")) None
  = (b "M 040000 - lib" ++ encode (String LF ""), Finished).
Proof. repeat split; reflexivity. Qed.

(** C10 (amended): the construction of a file-modify command raises when
    both [dataref] and [data] are given and when neither is given; when
    exactly one of them is given it raises what [check_path] raises for a
    path that is missing, empty or begins with a slash, and otherwise
    succeeds with a command that holds the path, the mode and the given
    source.  With a mode of the whitelist, the serialization of such a
    command writes the given [dataref] as the reference of the blob, or
    [inline] followed by the data command of the given [data]; for the
    directory mode the reference written is a dash. *)
Theorem file_modify_construction {I : Type} `{Iterator I}
    (path : option string) (mode : Z) (dataref : option bytes)
    (data : option (Fastimport.blob I)) :
  (dataref <> None -> data <> None ->
   Fastimport.FileModifyCommand_init path mode dataref data
   = Raise (Exception "please provide either dataref or data"))
  /\
  (dataref = None -> data = None ->
   Fastimport.FileModifyCommand_init path mode dataref data
   = Raise (Exception "please provide either dataref or data"))
  /\
  ((dataref = None /\ data <> None) \/ (dataref <> None /\ data = None) ->
   match Fastimport.check_path path with
   | Ok p =>
       path = Some p /\ legal p /\
       Fastimport.FileModifyCommand_init path mode dataref data
       = Ok (Fastimport.FileModifyCommand p mode dataref data)
   | Raise e =>
       illegal_path path /\
       Fastimport.FileModifyCommand_init path mode dataref data = Raise e
   end)
  /\
  (forall p token,
     Fastimport._format_mode mode = Ok token ->
     let line ref :=
       b "M " ++ token ++ b " " ++ (if Stat.S_ISDIR mode then b "-" else ref)
         ++ b " " ++ encode (if needs_quotes p false then quoted p else p)
         ++ encode (String LF "") in
     (forall d,
        Fastimport.FileModifyCommand_serialize (I := I) p mode (Some d) None
        = (line d, Finished))
     /\
     (forall value,
        Fastimport.FileModifyCommand_serialize p mode None (Some value)
        = (line (b "inline") ++ (Fastimport.serialize_data value).1,
           (Fastimport.serialize_data value).2))).
Proof.
  split; [|split; [|split]].
  - intros Hr Hd. unfold Fastimport.FileModifyCommand_init.
    rewrite !bool_decide_eq_false_2 by assumption. reflexivity.
  - intros -> ->. reflexivity.
  - intros Hone. unfold Fastimport.FileModifyCommand_init.
    assert (Hneq : Bool.eqb (bool_decide (dataref = None)) (bool_decide (data = None))
                   = false).
    { destruct Hone as [[Hr Hd]|[Hr Hd]].
      - rewrite (bool_decide_eq_true_2 _ Hr), (bool_decide_eq_false_2 _ Hd).
        reflexivity.
      - rewrite (bool_decide_eq_false_2 _ Hr), (bool_decide_eq_true_2 _ Hd).
        reflexivity. }
    rewrite Hneq. pose proof (check_path_cases path) as Hc.
    destruct (Fastimport.check_path path) as [p|e]; cbn.
    + destruct Hc as (Hp & _ & Hl). auto.
    + destruct Hc as (_ & Hi). auto.
  - intros p token Htok line. unfold Fastimport.FileModifyCommand_serialize.
    rewrite Htok, format_path_eq. cbn [Py.bind]. subst line. cbv beta.
    split.
    + intros d. reflexivity.
    + intros value. destruct (Fastimport.serialize_data value) as [out e].
      cbn [fst snd]. repeat rewrite <- app_assoc. reflexivity.
Qed.

Lemma file_modify_construction_witness :
  Fastimport.FileModifyCommand_init (I := list bytes) (Some "a.txt") (octal "644")
    (Some (b ":1")) (Some (Fastimport.Bytes (b "x")))
  = Raise (Exception "please provide either dataref or data")
  /\
  Fastimport.FileModifyCommand_init (I := list bytes) (Some "a.txt") (octal "644")
    None None
  = Raise (Exception "please provide either dataref or data")
  /\
  Fastimport.FileModifyCommand_init (I := list bytes) (Some "a.txt") (octal "644")
    None (Some (Fastimport.Bytes (b "x")))
  = Ok (Fastimport.FileModifyCommand "a.txt" (octal "644") None
          (Some (Fastimport.Bytes (b "x"))))
  /\
  Fastimport.FileModifyCommand_serialize (I := list bytes) "a.txt" (octal "644")
    None (Some (Fastimport.Bytes (b "x")))
  = (b "M 644 inline a.txt" ++ encode (String LF "") ++ b "data 1"
       ++ encode (String LF "") ++ b "x" ++ encode (String LF ""), Finished).
Proof.
  split; [|split; [|split]].
  - apply (proj1 (file_modify_construction (I := list bytes) (Some "a.txt")
                    (octal "644") (Some (b ":1")) (Some (Fastimport.Bytes (b "x")))));
      discriminate.
  - apply (proj1 (proj2 (file_modify_construction (I := list bytes) (Some "a.txt")
                           (octal "644") None None))); reflexivity.
  - pose proof (proj1 (proj2 (proj2
        (file_modify_construction (I := list bytes) (Some "a.txt") (octal "644")
           None (Some (Fastimport.Bytes (b "x"))))))) as Hone.
    cbn [Fastimport.check_path] in Hone. apply Hone.
    left. split; [reflexivity | discriminate].
  - pose proof (proj2 (proj2 (proj2
        (file_modify_construction (I := list bytes) None (octal "644") None None)))
        "a.txt" (b "644") eq_refl) as [_ Hvalue].
    exact (Hvalue (Fastimport.Bytes (b "x"))).
Defined.

(** ** The sample changeset, exported *)

(** The stream of the sample changeset: progress, commit with the two merge
    parents, the delete, then the modify, although the row of the modify
    comes first. *)
Example sample_stream :
  (sample_run false sample_marks).1
  = ([Fastimport.ProgressCommand "changeset 8/main from 2015-06-01 12:00:00+02:00";
      Fastimport.CommitCommand "main" 800 None
        {| Fastimport.ww_name := "Kuno Meyer";
           Fastimport.ww_email := "nobody@example.org";
           Fastimport.ww_secs := 1433152800;
           Fastimport.ww_offset := 7200 |}
        (Some "merge dev") [b ":300"; b ":400"];
      Fastimport.FileDeleteCommand "b.txt";
      Fastimport.FileModifyCommand "src/a.txt" (octal "644") None
        (Some (Fastimport.BlobFragmentIterator 5
                 (Tfsdb.Validated
                    (Tfsdb.MD5ValidatingIterator_init
                       (Hashlib.md5_digest (b "12345")) [b "12345"] (Some 11)))))],
     Ok tt).
Proof. vm_compute. reflexivity. Qed.

(** Before any commit on dev, the merge parent of the sample changeset
    cannot be resolved: the stream ends after the progress command. *)
Example sample_stream_unresolved :
  (sample_run false Tfsdb.no_marks).1
  = ([Fastimport.ProgressCommand "changeset 8/main from 2015-06-01 12:00:00+02:00"],
     Raise KeyError).
Proof. vm_compute. reflexivity. Qed.

Lemma deletes_before_modifies_witness :
  let cmds := (sample_run false sample_marks).1.1 in
  cmds !! 2%nat = Some (Fastimport.FileDeleteCommand "b.txt") /\
  (exists data,
     cmds !! 3%nat
     = Some (Fastimport.FileModifyCommand "src/a.txt" (octal "644") None data)) /\
  (2 < 3)%nat.
Proof.
  intros cmds.
  assert (Hi : cmds !! 2%nat = Some (Fastimport.FileDeleteCommand "b.txt"))
    by (vm_compute; reflexivity).
  assert (Hj : cmds !! 3%nat
               = Some (Fastimport.FileModifyCommand "src/a.txt" (octal "644") None
                         (Some (Fastimport.BlobFragmentIterator 5
                            (Tfsdb.Validated
                               (Tfsdb.MD5ValidatingIterator_init
                                  (Hashlib.md5_digest (b "12345")) [b "12345"]
                                  (Some 11)))))))
    by (vm_compute; reflexivity).
  split; [exact Hi|]. split; [eexists; exact Hj|].
  exact (deletes_before_modifies (Blocks := list bytes)
           (fun _ => Ok [b "12345"]) (fun blocks => blocks) (fun _ => Raise KeyError)
           sample_who_when (fun _ => "2015-06-01 12:00:00+02:00") None
           false sample_changeset
           {| Tfsdb.mark_state := sample_marks; Tfsdb.warnings := [] |}
           2 3 _ _ _ _ _ Hi Hj).
Defined.

(** * Further properties of the code *)

(** ** Path and tag-name mangling *)

Section Mangling.

Import Tfsdb Fastimport Repo.

Lemma str_contains_app c s1 s2 :
  str_contains c (s1 +:+ s2) = str_contains c s1 || str_contains c s2.
Proof.
  induction s1 as [|a s1 IH]; simpl; [reflexivity|].
  rewrite IH. now rewrite orb_assoc.
Qed.

(** Where a character can be after a replacement: where it was, unless it
    is the replaced character, or in a replacement. *)
Lemma str_contains_replace c old new s :
  str_contains c (str_replace old new s)
  = (if Ascii.eqb c old then false else str_contains c s)
    || (str_contains old s && str_contains c new).
Proof.
  induction s as [|a s IH]; cbn.
  - destruct (Ascii.eqb c old); reflexivity.
  - destruct (Ascii.eqb_spec a old) as [->|Hne].
    + rewrite str_contains_app, IH. cbn.
      rewrite (Ascii.eqb_sym old c).
      destruct (Ascii.eqb c old), (str_contains c s), (str_contains old s),
        (str_contains c new); reflexivity.
    + cbn. rewrite IH.
      destruct (Ascii.eqb_spec a c) as [->|Hac].
      * apply Ascii.eqb_neq in Hne. rewrite Hne. reflexivity.
      * destruct (Ascii.eqb c old); reflexivity.
Qed.

Lemma str_replace_absent old new s :
  str_contains old s = false -> str_replace old new s = s.
Proof.
  induction s as [|a s IH]; cbn; [reflexivity|].
  destruct (Ascii.eqb a old); cbn; [discriminate|].
  intros Hs. now rewrite IH.
Qed.

Lemma str_contains_smap c f s :
  (forall a, Ascii.eqb (f a) c = false) -> str_contains c (smap f s) = false.
Proof.
  intros Hf. induction s as [|a s IH]; cbn; [reflexivity|].
  now rewrite Hf, IH.
Qed.

Lemma append_last_inj p p' c :
  p +:+ String c "" = p' +:+ String c "" -> p = p'.
Proof.
  revert p'. induction p as [|a p IH]; intros [|a' p'] Heq; cbn in Heq.
  - reflexivity.
  - injection Heq as _ Heq. destruct p'; discriminate.
  - injection Heq as _ Heq. destruct p; discriminate.
  - injection Heq as -> Heq. f_equal. now apply IH.
Qed.

Lemma encode_inj s s' : encode s = encode s' -> s = s'.
Proof.
  unfold encode. intros Heq.
  rewrite <- (string_of_list_byte_of_string s), Heq.
  apply string_of_list_byte_of_string.
Qed.

End Mangling.

(** X1: [git_mangle_path] fails only on a missing path; its result holds
    no backslash, so mangling a mangled path changes nothing. *)
Theorem git_mangle_path_no_backslash (path : option string) :
  match Tfsdb.git_mangle_path path with
  | Ok q =>
      path <> None /\ str_contains BACKSLASH q = false /\
      Tfsdb.git_mangle_path (Some q) = Ok q
  | Raise e => path = None /\ e = AttributeError
  end.
Proof.
  destruct path as [p|]; cbn; [|split; reflexivity].
  assert (Hq : str_contains BACKSLASH (str_replace BACKSLASH "/" p) = false).
  { rewrite str_contains_replace. cbn. now rewrite andb_false_r. }
  split; [discriminate|]. split; [exact Hq|].
  now rewrite (str_replace_absent _ _ _ Hq).
Qed.

(** X2: a tag name from [git_mangle_tagname] holds no backslash, newline,
    carriage return, bracket or space; mangling it again changes nothing,
    and [format_path] emits it as it is unless it starts with a double
    quote. *)
Theorem git_mangle_tagname_clean (name q : string) :
  Repo.git_mangle_tagname (Some name) = Ok q ->
  Forall (fun c => str_contains c q = false)
    [BACKSLASH; LF; CR; "["%char; "]"%char; SPACE]
  /\ Repo.git_mangle_tagname (Some q) = Ok q
  /\ Fastimport.format_path q false
     = Ok (encode (if str_startswith q DQUOTE then quoted q else q)).
Proof.
  unfold Repo.git_mangle_tagname. cbn. intros [= <-].
  set (q := str_replace SPACE _ _).
  assert (Hclean : Forall (fun c => str_contains c q = false)
                     [BACKSLASH; LF; CR; "["%char; "]"%char; SPACE]).
  { subst q. repeat constructor; rewrite !str_contains_replace; cbn;
      rewrite ?andb_false_r, ?orb_false_r; reflexivity. }
  split; [exact Hclean|].
  inversion Hclean as [|? ? Hbs H1]; subst.
  inversion H1 as [|? ? Hlf H2]; subst.
  inversion H2 as [|? ? Hcr H3]; subst.
  inversion H3 as [|? ? Hlb H4]; subst.
  inversion H4 as [|? ? Hrb H5]; subst.
  inversion H5 as [|? ? Hsp _]; subst.
  split.
  - rewrite (str_replace_absent BACKSLASH _ _ Hbs).
    rewrite (str_replace_absent LF _ _ Hlf).
    rewrite (str_replace_absent CR _ _ Hcr).
    rewrite (str_replace_absent "["%char _ _ Hlb).
    rewrite (str_replace_absent "]"%char _ _ Hrb).
    rewrite (str_replace_absent SPACE _ _ Hsp). reflexivity.
  - rewrite format_path_eq. unfold needs_quotes. rewrite Hlf. cbn [orb andb].
    rewrite orb_false_r. reflexivity.
Qed.

Lemma git_mangle_tagname_clean_witness :
  Repo.git_mangle_tagname (Some "Release 1.0 [main]") = Ok "Release_1.0_(main)" /\
  Repo.git_mangle_tagname (Some "Release_1.0_(main)") = Ok "Release_1.0_(main)".
Proof.
  split; [reflexivity|].
  exact (proj1 (proj2 (git_mangle_tagname_clean "Release 1.0 [main]"
                         "Release_1.0_(main)" eq_refl))).
Defined.

(** X3: an unmangled path holds none of the characters that TFS uses for
    its escaping: no ['>'], no double quote, no ['|']. *)
Theorem unmangled_path_has_no_escapes (x : string) :
  Forall (fun c => str_contains c (Tfsdb.tfs_unmangle_path x) = false)
    [">"%char; DQUOTE; "|"%char].
Proof.
  rewrite unmangle_as_map.
  repeat constructor; apply str_contains_smap;
    intros a; destruct a as [[] [] [] [] [] [] [] []]; reflexivity.
Qed.

(** X4: [format_path] is injective for either setting of the quote-spaces
    flag: two paths that are written the same are the same path. *)
Theorem format_path_injective (p p' : string) (quote_spaces : bool) :
  Fastimport.format_path p quote_spaces = Fastimport.format_path p' quote_spaces ->
  p = p'.
Proof.
  rewrite !format_path_eq. intros [= Heq]. apply encode_inj in Heq.
  unfold needs_quotes, quoted in Heq.
  destruct (str_contains LF p || str_startswith p DQUOTE
            || quote_spaces && str_contains SPACE p) eqn:Hp;
  destruct (str_contains LF p' || str_startswith p' DQUOTE
            || quote_spaces && str_contains SPACE p') eqn:Hp'.
  - injection Heq as Heq. now apply append_last_inj in Heq.
  - exfalso. subst p'. cbn in Hp'. rewrite Ascii.eqb_refl in Hp'.
    rewrite orb_true_r in Hp'. discriminate.
  - exfalso. subst p. cbn in Hp. rewrite Ascii.eqb_refl in Hp.
    rewrite orb_true_r in Hp. discriminate.
  - exact Heq.
Qed.

Lemma format_path_injective_witness :
  Fastimport.format_path "a b" true = Fastimport.format_path "a b" true /\
  "a b" = "a b".
Proof.
  split; [reflexivity|].
  exact (format_path_injective "a b" "a b" true eq_refl).
Defined.

(** ** Blob data *)

Section BlobData.

Import Fastimport Serialize.

Lemma total_length_from (blocks : list bytes) : forall n,
  fold_left (fun n blk => n + Z.of_nat (length blk)) blocks n
  = n + Z.of_nat (length (concat blocks)).
Proof.
  induction blocks as [|blk blocks IH]; intros n; cbn.
  - lia.
  - rewrite IH, length_app. lia.
Qed.

Lemma total_length_concat (blocks : list bytes) :
  total_length blocks = Z.of_nat (length (concat blocks)).
Proof. unfold total_length. now rewrite total_length_from. Qed.

Lemma drain_validated {Blocks} `{Iterator Blocks} fuel :
  forall v : Tfsdb.MD5ValidatingIterator Blocks,
    drain fuel (Tfsdb.Validated v) = drain fuel v.
Proof.
  induction fuel as [|fuel IH]; intros v; [reflexivity|].
  cbn [drain next Tfsdb.content_stream_iterator Tfsdb.content_stream_next].
  change (@next _ (Tfsdb.MD5ValidatingIterator_iterator) v)
    with (Tfsdb.MD5ValidatingIterator_next v).
  cbn [Tfsdb.MD5ValidatingIterator_iterator].
  destruct (Tfsdb.MD5ValidatingIterator_next v) as [blk v'| |e];
    [|reflexivity|reflexivity].
  now rewrite IH.
Qed.

End BlobData.

(** X5: a fragmented blob whose iterator yields [blocks] and stops is
    written exactly as the joined bytes are when the declared size is the
    sum of the block lengths; with any other declared size (that [len] can
    return) the header and all the blocks are written and the
    serialization fails with the length-mismatch exception. *)
Theorem fragmented_blob_as_joined {I : Type} `{Iterator I}
    (iterator : I) (blocks : list bytes) (size : Z) :
  consume iterator = (blocks, Finished) ->
  0 <= size < 2 ^ 63 ->
  Fastimport.serialize_data (Fastimport.BlobFragmentIterator size iterator)
  = if size =? Fastimport.total_length blocks
    then Fastimport.serialize_data (I := I) (Fastimport.Bytes (concat blocks))
    else (data_header size ++ concat blocks,
          Failed (Exception
                    ("fragmented blob length mismatch (declared: "
                     +:+ fmt_d size +:+ ", effective: "
                     +:+ fmt_d (Fastimport.total_length blocks) +:+ ")"))).
Proof.
  intros Hcons [Hlo Hhi]. unfold Fastimport.serialize_data, Fastimport.blob_len.
  destruct (Z.ltb_spec size 0); [lia|].
  destruct (Z.leb_spec (2 ^ 63) size); [lia|].
  rewrite Hcons.
  destruct (Z.eqb_spec size (Fastimport.total_length blocks)) as [Heq|Hne].
  - rewrite Heq, Z.sub_diag. cbn [Z.eqb negb].
    rewrite total_length_concat. repeat rewrite <- app_assoc. reflexivity.
  - destruct (Z.eqb_spec (size - Fastimport.total_length blocks) 0); [lia|].
    cbn [negb]. unfold data_header, Serialize.nl.
    replace (size - (size - Fastimport.total_length blocks))
      with (Fastimport.total_length blocks) by lia.
    reflexivity.
Qed.

Lemma fragmented_blob_as_joined_witness :
  Fastimport.serialize_data
    (Fastimport.BlobFragmentIterator 5 [b "123"; b ""; b "45"])
  = (b "data 5" ++ Serialize.nl ++ b "12345" ++ Serialize.nl, Finished)
  /\
  Fastimport.serialize_data
    (Fastimport.BlobFragmentIterator 7 [b "123"; b ""; b "45"])
  = (b "data 7" ++ Serialize.nl ++ b "12345",
     Failed (Exception
               "fragmented blob length mismatch (declared: 7, effective: 5)")).
Proof.
  split.
  - apply (fragmented_blob_as_joined [b "123"; b ""; b "45"]
             [b "123"; b ""; b "45"] 5); [apply consume_list | lia].
  - apply (fragmented_blob_as_joined [b "123"; b ""; b "45"]
             [b "123"; b ""; b "45"] 7); [apply consume_list | lia].
Defined.

(** X6: the blob that the driver builds from a content change whose
    blocks are [bs]: when the digest of [bs] is the declared one, it is
    written as the joined bytes if the declared length is right and fails
    with the length mismatch otherwise; when the digest differs, the header
    and the blocks are written and the serialization fails with the checksum
    mismatch, whatever the declared length. *)
Theorem validated_blob_serialization (d : bytes) (bs : list bytes)
    (ctx : option Z) (size : Z) :
  0 <= size < 2 ^ 63 ->
  Fastimport.serialize_data
    (Fastimport.BlobFragmentIterator size
       (Tfsdb.Validated (Tfsdb.MD5ValidatingIterator_init d bs ctx)))
  = if bool_decide (Hashlib.md5_digest (concat bs) = d) then
      Fastimport.serialize_data (Fastimport.BlobFragmentIterator size bs)
    else (data_header size ++ concat bs, Failed (Tfsdb.checksum_mismatch ctx)).
Proof.
  intros Hsize.
  assert (Hcons : consume (Tfsdb.Validated (Tfsdb.MD5ValidatingIterator_init d bs ctx))
                  = (bs, if bool_decide (Hashlib.md5_digest (concat bs) = d)
                         then Finished
                         else Failed (Tfsdb.checksum_mismatch ctx))).
  { unfold consume at 1. rewrite drain_validated.
    change (drain _ (Tfsdb.MD5ValidatingIterator_init d bs ctx))
      with (consume (Tfsdb.MD5ValidatingIterator_init d bs ctx)).
    rewrite consume_validating, consume_list. reflexivity. }
  destruct (bool_decide (Hashlib.md5_digest (concat bs) = d)).
  - rewrite (fragmented_blob_as_joined _ bs size Hcons Hsize).
    now rewrite (fragmented_blob_as_joined bs bs size (consume_list bs) Hsize).
  - unfold Fastimport.serialize_data, Fastimport.blob_len.
    destruct Hsize as [Hlo Hhi].
    destruct (Z.ltb_spec size 0); [lia|].
    destruct (Z.leb_spec (2 ^ 63) size); [lia|].
    rewrite Hcons. reflexivity.
Qed.

Lemma validated_blob_serialization_witness :
  Fastimport.serialize_data
    (Fastimport.BlobFragmentIterator 5
       (Tfsdb.Validated
          (Tfsdb.MD5ValidatingIterator_init (Hashlib.md5_digest (b "12345"))
             [b "123"; b "45"] (Some 11))))
  = (b "data 5" ++ Serialize.nl ++ b "12345" ++ Serialize.nl, Finished)
  /\
  Fastimport.serialize_data
    (Fastimport.BlobFragmentIterator 5
       (Tfsdb.Validated
          (Tfsdb.MD5ValidatingIterator_init (Hashlib.md5_digest (b "12345"))
             [b "123"; b "54"] (Some 11))))
  = (b "data 5" ++ Serialize.nl ++ b "12354",
     Failed (Exception "checksum mismatch (in context: 11)")).
Proof.
  split.
  - rewrite (validated_blob_serialization (Hashlib.md5_digest (b "12345"))
               [b "123"; b "45"] (Some 11) 5) by lia.
    reflexivity.
  - rewrite (validated_blob_serialization (Hashlib.md5_digest (b "12345"))
               [b "123"; b "54"] (Some 11) 5) by lia.
    reflexivity.
Defined.

(** ** Names, dates and the lines of the commands *)

Section Lines.

Import Fastimport Serialize.

Lemma fmt_02d_two_digits (n : Z) :
  0 <= n < 100 -> fmt_02d n = two_digits n.
Proof.
  intros Hn.
  assert (Hk : forall k : nat, (k < 100)%nat ->
               fmt_02d (Z.of_nat k) = two_digits (Z.of_nat k)).
  { intros k Hk.
    do 100 (destruct k as [|k]; [reflexivity|]). lia. }
  rewrite <- (Z2Nat.id n) by lia. apply Hk. lia.
Qed.

Lemma format_who_when_ok (w : who_when) :
  is_ok (format_who_when w) = valid_who_when w.
Proof.
  unfold format_who_when, valid_who_when, encode_ascii.
  destruct (ww_offset w <? 0);
    destruct (str_endswith (ww_name w) SPACE); cbn; try reflexivity;
    destruct (is_ascii (ww_email w)); reflexivity.
Qed.

Lemma encode_contains c s :
  In (byte_of_ascii c) (encode s) <-> str_contains c s = true.
Proof.
  unfold encode, list_byte_of_string.
  induction s as [|a s IH]; cbn.
  - split; [tauto|discriminate].
  - rewrite IH. rewrite orb_true_iff. split.
    + intros [Heq|Hin]; [left|now right].
      apply Ascii.eqb_eq.
      rewrite <- (ascii_of_byte_of_ascii a), Heq.
      apply ascii_of_byte_of_ascii.
    + intros [Heq|Hin]; [left|now right].
      apply Ascii.eqb_eq in Heq. now subst.
Qed.

End Lines.

(** X7: [format_who_when] succeeds exactly when the name does not end with
    a space and the email is ASCII.  For an offset of less than a hundred
    hours either way, the result ends with the sign of the offset (a plus
    for zero) and exactly four digits, two for the hours and two for the
    minutes, which are the offset cut to whole minutes towards zero; the
    space after the name is left out for an empty name. *)
Theorem format_who_when_spec (w : Fastimport.who_when) :
  is_ok (Serialize.format_who_when w) = valid_who_when w
  /\
  (valid_who_when w = true ->
   -360000 < Fastimport.ww_offset w < 360000 ->
   let a := Z.abs (Fastimport.ww_offset w) in
   let hours := a / 3600 in
   let minutes := (a / 60) mod 60 in
   Serialize.format_who_when w
   = Ok (encode (Fastimport.ww_name w)
           ++ (if String.eqb (Fastimport.ww_name w) "" then [] else b " ")
           ++ b "<" ++ encode (Fastimport.ww_email w) ++ b "> "
           ++ encode (fmt_d (Fastimport.ww_secs w)) ++ b " "
           ++ (if Fastimport.ww_offset w <? 0 then b "-" else b "+")
           ++ encode (two_digits hours) ++ encode (two_digits minutes))
   /\ 0 <= hours < 100 /\ 0 <= minutes < 60
   /\ 60 * (60 * hours + minutes) <= a < 60 * (60 * hours + minutes) + 60).
Proof.
  split; [apply format_who_when_ok|].
  intros Hvalid Hoff a hours minutes.
  assert (Ha : 0 <= a < 360000) by (subst a; lia).
  assert (Hh : 0 <= hours < 100).
  { subst hours. split; [apply Z.div_pos; lia|].
    apply Z.div_lt_upper_bound; lia. }
  assert (Hm : 0 <= minutes < 60) by (subst minutes; apply Z.mod_pos_bound; lia).
  assert (Hcut : 60 * (60 * hours + minutes) <= a < 60 * (60 * hours + minutes) + 60).
  { subst hours minutes.
    pose proof (Z.div_mod a 60 ltac:(lia)) as H60.
    pose proof (Z.mod_pos_bound a 60 ltac:(lia)) as Hr.
    pose proof (Z.div_mod (a / 60) 60 ltac:(lia)) as H3600.
    rewrite Z.div_div in H3600 by lia. change (60 * 60) with 3600 in H3600.
    lia. }
  split; [|auto].
  unfold valid_who_when in Hvalid. apply andb_true_iff in Hvalid as [Hname Hmail].
  apply negb_true_iff in Hname.
  unfold Serialize.format_who_when, Serialize.encode_ascii.
  rewrite Hname, Hmail. cbn [Py.bind].
  assert (Hsep : (if (String.length (Fastimport.ww_name w) =? 0)%nat
                  then b "" else b " ")
                 = (if String.eqb (Fastimport.ww_name w) "" then [] else b " ")).
  { destruct (Fastimport.ww_name w); reflexivity. }
  destruct (Z.ltb_spec (Fastimport.ww_offset w) 0) as [Hneg|Hpos]; cbv zeta.
  - fold a. fold hours. fold minutes.
    rewrite Hsep, (fmt_02d_two_digits hours Hh),
      (fmt_02d_two_digits minutes ltac:(lia)).
    reflexivity.
  - replace (Fastimport.ww_offset w) with a by (subst a; lia).
    fold hours. fold minutes.
    rewrite Hsep, (fmt_02d_two_digits hours Hh),
      (fmt_02d_two_digits minutes ltac:(lia)).
    reflexivity.
Qed.

Lemma format_who_when_spec_witness :
  Serialize.format_who_when
    {| Fastimport.ww_name := "Kuno Meyer"; Fastimport.ww_email := "kuno@example.org";
       Fastimport.ww_secs := 1433152800; Fastimport.ww_offset := -5430 |}
  = Ok (b "Kuno Meyer <kuno@example.org> 1433152800 -0130").
Proof.
  exact (proj1 (proj2 (format_who_when_spec
           {| Fastimport.ww_name := "Kuno Meyer";
              Fastimport.ww_email := "kuno@example.org";
              Fastimport.ww_secs := 1433152800;
              Fastimport.ww_offset := -5430 |}) eq_refl (conj eq_refl eq_refl))).
Defined.

(** X8: a progress command that could be built is written as one line:
    the only newline of its serialization is the last byte. *)
Theorem progress_is_one_line {I : Type} `{Iterator I}
    (message : string) (c : Fastimport.Command I) :
  Fastimport.ProgressCommand_init message = Ok c ->
  exists line,
    Serialize.serialize c = (line ++ Serialize.nl, Finished) /\
    line = b "progress " ++ encode message /\
    ~ In (byte_of_ascii LF) line.
Proof.
  unfold Fastimport.ProgressCommand_init.
  destruct (str_contains LF message) eqn:Hnl; [discriminate|].
  intros [= <-]. eexists. split; [|split; [reflexivity|]].
  - cbn [Serialize.serialize]. unfold Serialize.ProgressCommand_serialize.
    now rewrite app_assoc.
  - rewrite in_app_iff. intros [Hin|Hin].
    + vm_compute in Hin. repeat (destruct Hin as [Hin|Hin]; [discriminate|]).
      exact Hin.
    + apply encode_contains in Hin. congruence.
Qed.

Lemma progress_is_one_line_witness :
  exists line,
    Serialize.serialize (I := list bytes)
      (Fastimport.ProgressCommand "changeset 8/main")
    = (line ++ Serialize.nl, Finished) /\
    line = b "progress changeset 8/main" /\
    ~ In (byte_of_ascii LF) line.
Proof.
  exact (progress_is_one_line "changeset 8/main"
           (Fastimport.ProgressCommand "changeset 8/main") eq_refl).
Defined.

(** X9: the serialization of a commit finishes exactly when the branch
    name is ASCII and the author, if there is one, and the committer have
    a name and an email that [format_who_when] accepts; a branch name that
    is not ASCII fails it before anything is written. *)
Theorem commit_serialization_finishes {I : Type} `{Iterator I}
    (ref : string) (mark : Z) (author : option Fastimport.who_when)
    (committer : Fastimport.who_when) (message : option string)
    (merges : list bytes) :
  let c := Fastimport.CommitCommand (I := I) ref mark author committer message merges in
  ((Serialize.serialize c).2 = Finished
   <-> Serialize.is_ascii ref = true
       /\ from_option valid_who_when true author = true
       /\ valid_who_when committer = true)
  /\
  (Serialize.is_ascii ref = false ->
   exists e, Serialize.serialize c = ([], Failed e)).
Proof.
  cbn [Serialize.serialize]. unfold Serialize.CommitCommand_serialize.
  unfold Serialize.encode_ascii.
  pose proof (format_who_when_ok committer) as Hc.
  assert (Ha : forall a, author = Some a ->
               is_ok (Serialize.format_who_when a) = valid_who_when a)
    by (intros; apply format_who_when_ok).
  destruct (Serialize.is_ascii ref); cbn [Py.bind Serialize.wtry Serialize.wthen].
  - split; [|discriminate].
    destruct (mark =? 0); cbn [Serialize.serialize_mark Serialize.wthen fst snd].
    + destruct author as [a|]; cbn [from_option].
      * specialize (Ha a eq_refl).
        destruct (Serialize.format_who_when a) as [wa|e];
          destruct (Serialize.format_who_when committer) as [wc|e'];
          cbn in *; rewrite <- ?Ha, <- ?Hc; intuition congruence.
      * destruct (Serialize.format_who_when committer) as [wc|e'];
          cbn in *; rewrite <- ?Hc; intuition congruence.
    + destruct author as [a|]; cbn [from_option].
      * specialize (Ha a eq_refl).
        destruct (Serialize.format_who_when a) as [wa|e];
          destruct (Serialize.format_who_when committer) as [wc|e'];
          cbn in *; rewrite <- ?Ha, <- ?Hc; intuition congruence.
      * destruct (Serialize.format_who_when committer) as [wc|e'];
          cbn in *; rewrite <- ?Hc; intuition congruence.
  - split; [|intros _; eexists; reflexivity].
    split; [discriminate|]. intros [Hf _]. discriminate.
Qed.

Lemma commit_serialization_finishes_witness :
  let ref := "b" +:+ String (ascii_of_nat 195) (String (ascii_of_nat 188) "") in
  let w := {| Fastimport.ww_name := "Kuno Meyer";
              Fastimport.ww_email := "kuno@example.org";
              Fastimport.ww_secs := 0; Fastimport.ww_offset := 0 |} in
  Serialize.is_ascii ref = false /\
  exists e,
    Serialize.serialize (I := list bytes)
      (Fastimport.CommitCommand ref 100 None w None [])
    = ([], Failed e).
Proof.
  intros ref w. split; [reflexivity|].
  exact (proj2 (commit_serialization_finishes (I := list bytes) ref 100 None w None [])
           eq_refl).
Defined.

(** ** Iterators *)

(** X10: the validator is transparent for any iterator it wraps: it yields
    the blocks that the wrapped iterator yields; when the wrapped iterator
    raises, the same exception comes out and no checksum is compared; when
    it stops, the ending is decided by the digest of the blocks. *)
Theorem validator_is_transparent {I : Type} `{Iterator I}
    (it : I) (d : bytes) (ctx : option Z) :
  let v := Tfsdb.MD5ValidatingIterator_init d it ctx in
  (consume v).1 = (consume it).1
  /\ (forall e, (consume it).2 = Failed e -> (consume v).2 = Failed e)
  /\ ((consume it).2 = Finished ->
      (consume v).2
      = if bool_decide (Hashlib.md5_digest (concat (consume it).1) = d)
        then Finished
        else Failed (Tfsdb.checksum_mismatch ctx)).
Proof.
  intros v. subst v. rewrite consume_validating. cbn [fst snd].
  split; [reflexivity|]. split.
  - intros e ->. reflexivity.
  - intros ->. reflexivity.
Qed.

Lemma validator_is_transparent_witness :
  let it := {| fi_blocks := [b "123"; b "45"]; fi_error := Exception "read error" |} in
  (consume it).2 = Failed (Exception "read error") /\
  consume (Tfsdb.MD5ValidatingIterator_init (b "no digest") it None)
  = ([b "123"; b "45"], Failed (Exception "read error")).
Proof.
  intros it. split; [reflexivity|].
  pose proof (validator_is_transparent it (b "no digest") None) as (Hb & He & _).
  specialize (He (Exception "read error") eq_refl).
  destruct (consume (Tfsdb.MD5ValidatingIterator_init (b "no digest") it None))
    as [blks e].
  cbn [fst snd] in Hb, He. rewrite Hb, He. reflexivity.
Defined.

Section Peekable.

Import Repo.

Lemma pk_run_contents {A} (ops : list pk_op) :
  forall self : PeekableIterator A,
    pk_run ops self = list_run ops (_peeked self ++ pk_iter self).
Proof.
  induction ops as [|op ops IH]; intros [it pk]; [reflexivity|].
  destruct op, pk as [|x others], it as [|y rest]; cbn; rewrite IH; reflexivity.
Qed.

End Peekable.

(** X11: peeking never consumes: whatever peeks and nexts are applied to a
    peekable iterator over a collection, each returns what the same
    operation returns on the plain list, where a peek looks at the head and
    a next removes it; at the end both raise [StopIteration]. *)
Theorem peekable_iterator_as_list {A : Type} (ops : list pk_op) (coll : list A) :
  pk_run ops (Repo.PeekableIterator_init coll) = list_run ops coll.
Proof. apply (pk_run_contents ops (Repo.PeekableIterator_init coll)). Qed.

(** The scenario of the repository's test of the peekable iterator. *)
Example peekable_iterator_test :
  pk_run [Peek; Peek; Next; Next; Peek; Next; Peek]
    (Repo.PeekableIterator_init [11; 22; 33])
  = [Some 11; Some 11; Some 11; Some 22; Some 33; Some 33; None].
Proof. reflexivity. Qed.

(** X12: [selectone] returns a row exactly when the query yields one row;
    no row is the exception of the empty result and two or more rows that
    of too many records. *)
Theorem selectone_exactly_one {Row : Type} (rows : list Row) :
  (forall r, Repo.selectone rows = Ok r <-> rows = [r])
  /\ (rows = [] <-> Repo.selectone rows = Raise (Exception "empty result"))
  /\ ((2 <= length rows)%nat
      <-> Repo.selectone rows = Raise (Exception "received more that one record")).
Proof.
  destruct rows as [|r1 [|r2 rest]]; cbn.
  - repeat split; intros; try discriminate; try lia; auto.
  - repeat split; intros; try discriminate; try lia; try congruence.
  - repeat split; intros; try discriminate; try lia; auto.
Qed.

(** ** Rows by branch *)

Section Partition.

Import Tfsdb.

Lemma entries_short_NoDup {V} (d : list (string * list V)) :
  (forall b, (length (entries b d) <= 1)%nat) -> NoDup (d.*1).
Proof.
  induction d as [|[k vs] d IH]; intros Hshort; cbn; [constructor|].
  constructor.
  - intros Hin. apply list_elem_of_fmap in Hin as ([k' vs'] & Hk & Hin).
    cbn in Hk. subst k'.
    specialize (Hshort k). unfold entries in Hshort.
    rewrite filter_cons, decide_True in Hshort by reflexivity.
    cbn in Hshort.
    assert (Hin' : (k, vs') ∈ filter (fun p : string * list V => p.1 = k) d)
      by (apply list_elem_of_filter; auto).
    destruct (filter _ d); [inversion Hin'|cbn in Hshort; lia].
  - apply IH. intros b. specialize (Hshort b). unfold entries in *.
    rewrite filter_cons in Hshort.
    destruct (decide ((k, vs).1 = b)); cbn in Hshort; lia.
Qed.

Lemma group_length {V} b (vs : list V) : (length (group b vs) <= 1)%nat.
Proof. destruct vs; cbn; lia. Qed.

Lemma elem_of_entries {V} b (vs : list V) d :
  (b, vs) ∈ d <-> (b, vs) ∈ entries b d.
Proof.
  unfold entries. rewrite list_elem_of_filter. cbn. tauto.
Qed.

Lemma elem_of_group {V} b (vs ws : list V) :
  (b, vs) ∈ group b ws <-> ws <> [] /\ vs = ws.
Proof.
  destruct ws as [|w ws]; cbn.
  - split; [intros Hin; inversion Hin | intros [Hne _]; congruence].
  - rewrite list_elem_of_singleton. split.
    + intros [= ->]. split; [discriminate|reflexivity].
    + intros [_ ->]. reflexivity.
Qed.

End Partition.

(** X13: the dictionary of [split_and_filter_file_rows] has each branch at
    most once; it holds [(b, vs)] exactly when [vs] is the non-empty list of
    the values of the rows kept under branch [b], in the order of the rows:
    no group is empty, and a row that is not kept is in no group. *)
Theorem split_rows_partition {Row V : Type} (rows : list Row)
    (hooks : Tfsdb.ExporterHooks) (full_path_hook : Row -> string)
    (wrap : Row -> option string -> V) :
  let d := Tfsdb.split_and_filter_file_rows rows hooks full_path_hook wrap in
  NoDup (d.*1)
  /\ forall b vs,
       (b, vs) ∈ d
       <-> vs <> [] /\ vs = values_for hooks full_path_hook wrap b rows.
Proof.
  intros d. split.
  - apply entries_short_NoDup. intros b. subst d.
    rewrite split_entries. apply group_length.
  - intros b vs. subst d.
    rewrite elem_of_entries, split_entries, elem_of_group.
    split; intros [Hne Heq]; subst; auto.
Qed.

(** X14: a row of a changeset that names a file gives either one content
    change (no deletion id) or one delete (a deletion id), never both, and
    a row without a file id gives neither: changes and deletes together are
    as many as the file rows, and each carries a non-zero file id. *)
Theorem changes_and_deletes_partition {T : Type} (cs : Tfsdb.Changeset T) :
  (length (Tfsdb.changes cs) + length (Tfsdb.deletes cs)
   = length (filter (fun rr => is_file_row rr.1 = true) (Tfsdb.rowsRelPaths cs)))%nat
  /\ length (Tfsdb.changes cs)
     = length (filter (fun rr => is_file_row rr.1 = true /\ Tfsdb.DeletionId rr.1 = 0)
                 (Tfsdb.rowsRelPaths cs))
  /\ Forall (fun f => Tfsdb.id (Tfsdb.base f) <> 0) (Tfsdb.changes cs)
  /\ Forall (fun f => Tfsdb.id f <> 0) (Tfsdb.deletes cs).
Proof.
  assert (Hid : forall o, truthy_int o = true -> default 0 o <> 0).
  { intros [n|]; cbn; [|discriminate].
    destruct (Z.eqb_spec n 0); [discriminate|auto]. }
  unfold Tfsdb.changes, Tfsdb.deletes, is_file_row.
  induction (Tfsdb.rowsRelPaths cs) as [|[row relpath] rows IH].
  - repeat split; constructor.
  - destruct IH as (Hsum & Hch & Hc & Hd).
    rewrite !filter_cons. csimpl. cbn [fst].
    destruct (truthy_int (Tfsdb.FileId row)) eqn:Ht;
      destruct (Z.eqb_spec (Tfsdb.DeletionId row) 0) as [Hd0|Hd0];
      cbn [negb orb]; repeat case_decide;
      try (exfalso; intuition congruence); cbn [length];
      (split; [lia|]); (split; [lia|]); split;
      try assumption; constructor; try assumption; cbn; auto.
Qed.

(** ** The mark tables *)

Section MarkTables.

Import Tfsdb.

Lemma generate_marks_tables calls : forall st0 ms st,
  generate_marks calls st0 = Ok (ms, st) ->
  length ms = length calls
  /\ (forall c br,
        marks st !! (c, br)
        = match last (marks_of (fun call => bool_decide (call = (br, c))) calls ms) with
          | Some m => Some m
          | None => marks st0 !! (c, br)
          end)
  /\ (forall br,
        marks_last_issued_per_branch st !! br
        = match last (marks_of (fun call => bool_decide (call.1 = br)) calls ms) with
          | Some m => Some m
          | None => marks_last_issued_per_branch st0 !! br
          end).
Proof.
  induction calls as [|[b0 c0] calls IH]; intros st0 ms st Hrun.
  - cbn in Hrun. injection Hrun as <- <-. repeat split; reflexivity.
  - cbn [generate_marks] in Hrun.
    destruct (generate_mark b0 c0 st0) as [[m0 st1]|e] eqn:Hm; [|discriminate].
    cbn [Py.bind fst snd] in Hrun.
    destruct (generate_marks calls st1) as [[ms' st']|e] eqn:Hrest; [|discriminate].
    cbn in Hrun. injection Hrun as <- <-.
    destruct (IH _ _ _ Hrest) as (Hlen & Hmarks & Hbranch).
    assert (Hst1 : marks st1 = <[(c0, b0) := m0]> (marks st0)
                   /\ marks_last_issued_per_branch st1
                      = <[b0 := m0]> (marks_last_issued_per_branch st0)).
    { unfold generate_mark in Hm.
      destruct (if bool_decide _ then _ else _) as [issued|e]; [|discriminate].
      cbn in Hm. injection Hm as <- <-. split; reflexivity. }
    destruct Hst1 as [Hmk Hpb].
    split; [cbn; now rewrite Hlen|]. split.
    + intros c br. rewrite Hmarks. unfold marks_of. csimpl.
      destruct (last (omap _ (zip calls ms'))) as [m|] eqn:Hl.
      * destruct (bool_decide _); cbn;
          [rewrite last_cons, Hl | rewrite Hl]; reflexivity.
      * rewrite Hmk. destruct (decide ((b0, c0) = (br, c))) as [[= -> ->]|Hne].
        -- rewrite bool_decide_eq_true_2 by reflexivity. cbn.
           rewrite last_cons, Hl. apply lookup_insert_eq.
        -- rewrite bool_decide_eq_false_2 by assumption. cbn. rewrite Hl.
           apply lookup_insert_ne. congruence.
    + intros br. rewrite Hbranch. unfold marks_of. csimpl.
      destruct (last (omap _ (zip calls ms'))) as [m|] eqn:Hl.
      * destruct (bool_decide _); cbn;
          [rewrite last_cons, Hl | rewrite Hl]; reflexivity.
      * rewrite Hpb. destruct (decide (b0 = br)) as [->|Hne].
        -- rewrite bool_decide_eq_true_2 by reflexivity. cbn.
           rewrite last_cons, Hl. apply lookup_insert_eq.
        -- rewrite bool_decide_eq_false_2 by assumption. cbn. rewrite Hl.
           now apply lookup_insert_ne.
Qed.

(** Marks issued from a state that has seen changeset [c0] and issued
    [m0] last. *)
Lemma generate_marks_increasing calls : forall st0 c0 m0 ms st,
  marks_last_changesetId st0 = Some c0 ->
  marks_last_issued st0 = Some m0 ->
  m0 < (c0 + 1) * 100 ->
  generate_marks calls st0 = Ok (ms, st) ->
  Sorted Z.le (c0 :: calls.*2) ->
  Forall2 (fun call m => m < (call.2 + 1) * 100) calls ms ->
  Forall (fun m => m0 < m) ms /\ StronglySorted Z.lt ms.
Proof.
  induction calls as [|[b1 c1] calls IH];
    intros st0 c0 m0 ms st Hc0 Hm0 Hbound Hrun Hsorted Hroom.
  - cbn in Hrun. injection Hrun as <- <-. split; constructor.
  - cbn [generate_marks] in Hrun.
    destruct (generate_mark_ok b1 c1 st0) as (m1 & Hm1 & Hval);
      [right; rewrite Hm0; eauto|].
    rewrite Hm1 in Hrun. cbn [Py.bind fst snd] in Hrun.
    match type of Hrun with
    | context [generate_marks calls ?s] =>
        destruct (generate_marks calls s) as [[ms' st']|e] eqn:Hrest;
          [|discriminate]
    end.
    cbn in Hrun. injection Hrun as <- <-.
    rewrite Hc0, Hm0 in Hval.
    assert (Hle : c0 <= c1).
    { cbn [fmap list_fmap snd] in Hsorted.
      inversion Hsorted as [|? ? _ Hhd]. inversion Hhd. assumption. }
    assert (Hgt : m0 < m1).
    { destruct (Z.eqb_spec c0 c1); lia. }
    assert (Hsorted' : Sorted Z.le (c1 :: calls.*2)).
    { cbn [fmap list_fmap snd] in Hsorted. now inversion Hsorted. }
    assert (Hroom1 : m1 < (c1 + 1) * 100) by (now inversion Hroom).
    assert (Hroom' : Forall2 (fun call m => m < (call.2 + 1) * 100) calls ms')
      by (now inversion Hroom).
    pose proof (fun H1 H2 => IH _ c1 m1 ms' st' H1 H2 Hroom1 Hrest Hsorted' Hroom')
      as IH'.
    destruct (IH' eq_refl eq_refl) as [Hall Hss].
    split.
    + constructor; [exact Hgt|].
      eapply Forall_impl; [exact Hall|]. cbn. intros; lia.
    + constructor; assumption.
Qed.

End MarkTables.

(** X15: after any sequence of allocations from the empty tables, the
    entry of [(changeset_id, branch)] is the mark returned by the last call
    for that changeset and branch, and there is no entry if there was no
    such call; the last-per-branch entry is the mark returned by the last
    call on that branch. *)
Theorem marks_lookup_after_allocations
    (calls : list (string * Z)) (ms : list Z) (st : Tfsdb.MarkState) :
  Tfsdb.generate_marks calls Tfsdb.no_marks = Ok (ms, st) ->
  length ms = length calls
  /\ (forall c br,
        Tfsdb.marks st !! (c, br)
        = last (marks_of (fun call => bool_decide (call = (br, c))) calls ms))
  /\ (forall br,
        Tfsdb.marks_last_issued_per_branch st !! br
        = last (marks_of (fun call => bool_decide (call.1 = br)) calls ms)).
Proof.
  intros Hrun. destruct (generate_marks_tables calls _ _ _ Hrun) as (Hlen & Hm & Hb).
  split; [exact Hlen|]. split.
  - intros c br. rewrite Hm. cbn. rewrite lookup_empty. now destruct (last _).
  - intros br. rewrite Hb. cbn. rewrite lookup_empty. now destruct (last _).
Qed.

Lemma marks_lookup_after_allocations_witness :
  exists st,
    Tfsdb.generate_marks [("main", 7); ("dev", 7); ("main", 7)] Tfsdb.no_marks
    = Ok ([700; 701; 702], st) /\
    Tfsdb.marks st !! (7, "main") = Some 702 /\
    Tfsdb.marks st !! (7, "dev") = Some 701 /\
    Tfsdb.marks st !! (8, "main") = None /\
    Tfsdb.marks_last_issued_per_branch st !! "dev" = Some 701.
Proof.
  destruct (Tfsdb.generate_marks [("main", 7); ("dev", 7); ("main", 7)] Tfsdb.no_marks)
    as [[ms st]|e] eqn:Hrun; [|vm_compute in Hrun; discriminate].
  assert (Hms : ms = [700; 701; 702]) by (vm_compute in Hrun; congruence).
  subst ms. exists st. split; [reflexivity|].
  destruct (marks_lookup_after_allocations _ _ _ Hrun) as (_ & Hm & Hb).
  rewrite !Hm, Hb. repeat split; reflexivity.
Defined.

(** X16: when the changeset ids of the calls never decrease and no
    changeset uses up its hundred marks (every mark is below
    [(changeset_id + 1) * 100]), the marks issued are strictly increasing,
    so no mark is issued twice. *)
Theorem marks_strictly_increasing
    (calls : list (string * Z)) (ms : list Z) (st : Tfsdb.MarkState) :
  Tfsdb.generate_marks calls Tfsdb.no_marks = Ok (ms, st) ->
  Sorted Z.le (calls.*2) ->
  Forall2 (fun call m => m < (call.2 + 1) * 100) calls ms ->
  StronglySorted Z.lt ms.
Proof.
  destruct calls as [|[b1 c1] calls]; intros Hrun Hsorted Hroom.
  - cbn in Hrun. injection Hrun as <- <-. constructor.
  - cbn [Tfsdb.generate_marks] in Hrun.
    destruct (generate_mark_ok b1 c1 Tfsdb.no_marks no_marks_issued_if_seen)
      as (m1 & Hm1 & _).
    rewrite Hm1 in Hrun. cbn [Py.bind fst snd] in Hrun.
    match type of Hrun with
    | context [Tfsdb.generate_marks calls ?s] =>
        destruct (Tfsdb.generate_marks calls s) as [[ms' st']|e] eqn:Hrest;
          [|discriminate]
    end.
    cbn in Hrun. injection Hrun as <- <-.
    assert (Hroom1 : m1 < (c1 + 1) * 100) by (now inversion Hroom).
    assert (Hroom' : Forall2 (fun call m => m < (call.2 + 1) * 100) calls ms')
      by (now inversion Hroom).
    pose proof (fun H1 H2 => generate_marks_increasing calls _ c1 m1 ms' st' H1 H2
                                Hroom1 Hrest Hsorted Hroom') as Hinc.
    destruct (Hinc eq_refl eq_refl) as [Hall Hss].
    constructor; assumption.
Qed.

Lemma marks_strictly_increasing_witness :
  StronglySorted Z.lt [700; 701; 800].
Proof.
  destruct (Tfsdb.generate_marks [("main", 7); ("dev", 7); ("main", 8)] Tfsdb.no_marks)
    as [[ms st]|e] eqn:Hrun; [|vm_compute in Hrun; discriminate].
  assert (Hms : ms = [700; 701; 800]) by (vm_compute in Hrun; congruence).
  subst ms.
  apply (marks_strictly_increasing _ _ _ Hrun).
  - cbn. repeat constructor; lia.
  - repeat constructor; cbn; lia.
Defined.

(** ** Runs of the driver *)

Section Runs.

Import Tfsdb Fastimport.

Context {Blocks : Type} `{Iterator Blocks} {Timestamp : Type}.
Variable content_blocks_cb : Z -> result Blocks.
Variable zlib_decompress : Blocks -> Blocks.
Variable tempdir_unpack_and_read : Z -> result Blocks.
Variable who_when_of : User -> Timestamp -> result who_when.
Variable local_time : Timestamp -> string.
Variable content_rewrite :
  option (string -> option string -> Z -> MD5ValidatingIterator Blocks
          -> result (Z * content_stream (Blocks := Blocks))).

Lemma marks_kept_refl s : marks_kept s s.
Proof. split; [reflexivity|]. exists []. now rewrite app_nil_r. Qed.

Lemma marks_kept_trans s1 s2 s3 :
  marks_kept s1 s2 -> marks_kept s2 s3 -> marks_kept s1 s3.
Proof.
  intros [Hm1 [e1 Hw1]] [Hm2 [e2 Hw2]]. split; [congruence|].
  exists (e1 ++ e2). rewrite Hw2, Hw1. now rewrite app_assoc.
Qed.

(** A loop that ends without exception ran its body on every item. *)
Lemma for_each_ok {A} (Q : A -> Cmd (Blocks := Blocks) -> Prop) (l : list A)
    (body : A -> Gen (Blocks := Blocks) unit) :
  (forall x s1 o u s2,
     body x s1 = (o, Ok u, s2) -> marks_kept s1 s2 /\ exists c, o = [c] /\ Q x c) ->
  forall s out u s',
    for_each l body s = (out, Ok u, s') ->
    marks_kept s s' /\ Forall2 Q l out.
Proof.
  intros Hbody. induction l as [|x l IH]; intros s out u s' Hrun.
  - cbn in Hrun. injection Hrun as <- _ <-.
    split; [apply marks_kept_refl | constructor].
  - cbn [for_each] in Hrun. unfold gbind in Hrun.
    destruct (body x s) as [[o1 [u1|e]] s1] eqn:Hx; [|discriminate].
    destruct (for_each l body s1) as [[o2 r2] s2] eqn:Hl.
    injection Hrun as <- -> <-.
    destruct (Hbody _ _ _ _ _ Hx) as (Hk1 & c & -> & Hq).
    destruct (IH _ _ _ _ Hl) as (Hk2 & Hall).
    split; [eapply marks_kept_trans; eassumption|].
    cbn. constructor; assumption.
Qed.

(** X17: when the run of a changeset ends without exception, its stream
    is the progress command, the commit command, one file-delete command
    for each delete of the changeset and then one file-modify command for
    each change, in the order of the rows and with the paths mangled for
    git.  The commit carries the mangled branch, the marks of the merge
    parents resolved in the tables before the run, and the mark that
    [generate_mark] issued; the tables after the run are those after that
    allocation, and warnings were only added.  Each modify has mode 0o644
    and an inline fragmented blob: empty in the no-content mode, and
    without a rewrite hook the validating iterator of [content] with the
    file length of the row. *)
Theorem changeset_stream_on_success no_content (cs : Changeset Timestamp)
    s cmds s' :
  fastexport_changeset content_blocks_cb zlib_decompress
    tempdir_unpack_and_read who_when_of local_time content_rewrite
    no_content cs s = (cmds, Ok tt, s') ->
  exists progress mark author committer mm dels mods,
    cmds = ProgressCommand progress
           :: CommitCommand (str_replace BACKSLASH "/" (branch cs)) mark author
                committer (comment cs) (map format_mark mm)
           :: dels ++ mods
    /\ merge_marks (mark_state s) (merges cs) = Ok mm
    /\ generate_mark (branch cs) (cs_id cs) (mark_state s)
       = Ok (mark, mark_state s')
    /\ (exists extra, warnings s' = warnings s ++ extra)
    /\ Forall2 (fun f c =>
                  exists p, fullpath f = Some p
                            /\ c = FileDeleteCommand (str_replace BACKSLASH "/" p))
         (deletes cs) dels
    /\ Forall2 (fun f c =>
                  exists p size stream,
                    fullpath (base f) = Some p
                    /\ c = FileModifyCommand (str_replace BACKSLASH "/" p)
                             (octal "644") None
                             (Some (BlobFragmentIterator size stream))
                    /\ (no_content = true -> size = 0 /\ stream = Literal [b ""])
                    /\ (no_content = false -> content_rewrite = None ->
                        size = file_length f
                        /\ exists v,
                             content content_blocks_cb zlib_decompress
                               tempdir_unpack_and_read f = Ok v
                             /\ stream = Validated v))
         (changes cs) mods.
Proof.
  unfold fastexport_changeset.
  set (dels := for_each (deletes cs) _).
  set (mods := for_each (changes cs) _).
  assert (Hd : forall s1 out u s2,
             dels s1 = (out, Ok u, s2) ->
             marks_kept s1 s2
             /\ Forall2 (fun f c =>
                           exists p, fullpath f = Some p
                                     /\ c = FileDeleteCommand
                                              (str_replace BACKSLASH "/" p))
                  (deletes cs) out).
  { subst dels. apply for_each_ok. intros f s1 o u s2.
    unfold gbind, lift, yield.
    destruct (fullpath f) as [p|] eqn:Hp; cbn [git_mangle_path]; [|discriminate].
    destruct (FileDeleteCommand_init _) as [c|e] eqn:Hc; [|discriminate].
    intros [= <- _ <-]. split; [apply marks_kept_refl|].
    exists c. split; [reflexivity|]. exists p. split; [reflexivity|].
    unfold FileDeleteCommand_init in Hc.
    destruct (check_path _) as [q|e] eqn:Hq; [|discriminate].
    cbn in Hc. injection Hc as <-.
    pose proof (check_path_cases (Some (str_replace BACKSLASH "/" p))) as Hcp.
    rewrite Hq in Hcp. destruct Hcp as ([= ->] & _). reflexivity. }
  assert (Hm : forall s1 out u s2,
             mods s1 = (out, Ok u, s2) ->
             marks_kept s1 s2
             /\ Forall2 (fun f c =>
                           exists p size stream,
                             fullpath (base f) = Some p
                             /\ c = FileModifyCommand (str_replace BACKSLASH "/" p)
                                      (octal "644") None
                                      (Some (BlobFragmentIterator size stream))
                             /\ (no_content = true ->
                                 size = 0 /\ stream = Literal [b ""])
                             /\ (no_content = false -> content_rewrite = None ->
                                 size = file_length f
                                 /\ exists v,
                                      content content_blocks_cb zlib_decompress
                                        tempdir_unpack_and_read f = Ok v
                                      /\ stream = Validated v))
                  (changes cs) out).
  { subst mods. apply for_each_ok. intros f s1 o u s2.
    unfold gbind at 1.
    match goal with
    | |- context [match ?g s1 with _ => _ end] =>
        assert (Hpre : exists r s1',
                   g s1 = ([], r, s1') /\ marks_kept s1 s1'
                   /\ forall lc, r = Ok lc ->
                        (no_content = true -> lc = (0, Literal [b ""]))
                        /\ (no_content = false -> content_rewrite = None ->
                            exists v,
                              content content_blocks_cb zlib_decompress
                                tempdir_unpack_and_read f = Ok v
                              /\ lc = (file_length f, Validated v)))
    end.
    { destruct no_content.
      - eexists _, s1. split; [reflexivity|]. split; [apply marks_kept_refl|].
        intros lc [= <-]. split; [reflexivity|discriminate].
      - unfold gbind, lift, warning, gret.
        destruct (content _ _ _ f) as [v|e];
          [|eexists _, s1; split; [reflexivity|];
            split; [apply marks_kept_refl|]; intros lc; discriminate].
        destruct content_rewrite as [hook|].
        + destruct (hook _ _ _ v) as [lc|e];
            [|eexists _, s1; split; [reflexivity|];
              split; [apply marks_kept_refl|]; intros lc; discriminate].
          destruct (_ <=? _); eexists _, _; (split; [reflexivity|]);
            (split; [|intros lc' _; split; discriminate]).
          * split; [reflexivity|]. cbn. eauto.
          * apply marks_kept_refl.
        + cbn [fst].
          destruct (_ <=? _); eexists _, _; (split; [reflexivity|]); split.
          * split; [reflexivity|]. cbn. eauto.
          * intros lc [= <-]. split; [discriminate|]. intros _ _. eauto.
          * apply marks_kept_refl.
          * intros lc [= <-]. split; [discriminate|]. intros _ _. eauto. }
    destruct Hpre as (r & s1' & -> & Hk & Hlc).
    destruct r as [lc|e]; [|discriminate].
    unfold gbind, lift, yield.
    destruct (fullpath (base f)) as [p|] eqn:Hp; cbn [git_mangle_path];
      [|discriminate].
    destruct (FileModifyCommand_init _ _ _ _) as [c|e] eqn:Hc; [|discriminate].
    intros [= <- _ <-]. split; [exact Hk|].
    exists c. split; [reflexivity|].
    unfold FileModifyCommand_init in Hc. cbn [bool_decide] in Hc.
    destruct (Bool.eqb _ _); [discriminate|].
    destruct (check_path _) as [q|e] eqn:Hq; [|discriminate].
    cbn in Hc. injection Hc as <-.
    pose proof (check_path_cases (Some (str_replace BACKSLASH "/" p))) as Hcp.
    rewrite Hq in Hcp. destruct Hcp as ([= <-] & _).
    destruct (Hlc lc eq_refl) as [Hno Hyes].
    exists p, lc.1, lc.2. split; [reflexivity|]. split; [reflexivity|]. split.
    - intros Hn. rewrite (Hno Hn). split; reflexivity.
    - intros Hn Hcr. destruct (Hyes Hn Hcr) as (v & Hv & ->). eauto. }
  clearbody dels mods.
  unfold gbind at 1 2 3 4 5 6 7 8, lift, yield, read_marks, new_mark.
  unfold ProgressCommand_init.
  destruct (str_contains LF _); [discriminate|].
  destruct (merge_marks _ _) as [mm|e] eqn:Hmm; [|discriminate].
  cbn [git_mangle_path].
  destruct (generate_mark _ _ _) as [[mark st]|e] eqn:Hmark; [|discriminate].
  destruct (if negb _ then _ else _) as [author|e]; [|discriminate].
  destruct (who_when_of (committer cs) _) as [cm|e]; [|discriminate].
  unfold gbind.
  match goal with
  | |- context [dels ?s1] =>
      destruct (dels s1) as [[o1 [u1|e]] s2] eqn:Hdels; [|discriminate]
  end.
  destruct (mods s2) as [[o2 r2] s3] eqn:Hmods.
  cbn. intros [= <- -> <-].
  destruct (Hd _ _ _ _ Hdels) as ([Hk1 Hw1] & Hdel).
  destruct (Hm _ _ _ _ Hmods) as ([Hk2 Hw2] & Hmod).
  eexists _, mark, author, cm, mm, o1, o2.
  split; [reflexivity|]. split; [reflexivity|].
  split; [rewrite Hk2, Hk1; reflexivity|].
  split; [|split; assumption].
  destruct Hw1 as [e1 Hw1]. destruct Hw2 as [e2 Hw2].
  exists (e1 ++ e2). rewrite Hw2, Hw1. cbn. now rewrite app_assoc.
Qed.

(** X18: a changeset whose merge parents cannot be resolved allocates
    no mark and yields no commit: the run leaves the driver's state as it
    was, and ends with the exception of the resolution after the progress
    command (or with that of the progress command, before anything is
    yielded). *)
Theorem unresolved_merge_allocates_nothing no_content
    (cs : Changeset Timestamp) s e :
  merge_marks (mark_state s) (merges cs) = Raise e ->
  let run := fastexport_changeset content_blocks_cb zlib_decompress
               tempdir_unpack_and_read who_when_of local_time content_rewrite
               no_content cs s in
  run.2 = s
  /\ ((exists message, run.1 = ([ProgressCommand message], Raise e))
      \/ run.1 = ([], Raise (Exception "message must not contain any newlines"))).
Proof.
  intros Hmm run. subst run. unfold fastexport_changeset.
  set (dels := for_each (deletes cs) _).
  set (mods := for_each (changes cs) _).
  clearbody dels mods.
  unfold gbind, lift, yield, read_marks, ProgressCommand_init.
  destruct (str_contains LF _).
  - split; [reflexivity|]. right. reflexivity.
  - rewrite Hmm. cbn. split; [reflexivity|]. left. eexists. reflexivity.
Qed.

(** X19: with [stop_after] set, the export is the export, without
    [stop_after], of the changesets that come before the first one whose
    id exceeds it: the loop breaks there and looks at no later
    changeset. *)
Theorem stop_after_is_a_prefix (stop_after : Z) no_content
    (css : list (Changeset Timestamp)) s :
  stop_after <> 0 ->
  fastexport_changesets content_blocks_cb zlib_decompress
    tempdir_unpack_and_read who_when_of local_time content_rewrite
    stop_after no_content css s
  = fastexport_changesets content_blocks_cb zlib_decompress
      tempdir_unpack_and_read who_when_of local_time content_rewrite
      0 no_content (take_while (fun cs => cs_id cs <=? stop_after) css) s.
Proof.
  intros Hstop. revert s. induction css as [|cs css IH]; intros s; [reflexivity|].
  cbn [fastexport_changesets take_while].
  destruct (Z.eqb_spec stop_after 0); [contradiction|]. cbn [negb andb].
  destruct (Z.ltb_spec stop_after (cs_id cs));
    destruct (Z.leb_spec (cs_id cs) stop_after); try lia; [reflexivity|].
  cbn [fastexport_changesets]. cbn [Z.eqb negb andb].
  unfold gbind.
  destruct (fastexport_changeset _ _ _ _ _ _ _ cs s) as [[o1 [u|e]] s1];
    [|reflexivity].
  now rewrite IH.
Qed.

End Runs.

Lemma changeset_stream_on_success_witness :
  exists cmds s',
    sample_run false sample_marks = (cmds, Ok tt, s') /\
    length cmds = 4%nat /\
    Tfsdb.marks (Tfsdb.mark_state s') !! (8, "main") = Some 800.
Proof.
  destruct (sample_run false sample_marks) as [[cmds r] s'] eqn:Hrun.
  assert (Hr : r = Ok tt).
  { assert (Heq : (sample_run false sample_marks).1.2 = Ok tt)
      by (vm_compute; reflexivity).
    rewrite Hrun in Heq. exact Heq. }
  subst r. exists cmds, s'. split; [reflexivity|].
  destruct (changeset_stream_on_success (Blocks := list bytes)
              (fun _ => Ok [b "12345"]) (fun blocks => blocks)
              (fun _ => Raise KeyError) sample_who_when
              (fun _ => "2015-06-01 12:00:00+02:00") None
              false sample_changeset _ cmds s' Hrun)
    as (progress & mark & author & committer & mm & dels & mods
        & -> & Hmm & Hmark & _ & Hdels & Hmods).
  apply Forall2_length in Hdels. apply Forall2_length in Hmods.
  split.
  - cbn [length]. rewrite length_app, <- Hdels, <- Hmods. reflexivity.
  - cbn [Tfsdb.mark_state] in Hmark.
    change (Tfsdb.branch sample_changeset) with "main" in Hmark.
    change (Tfsdb.cs_id sample_changeset) with 8 in Hmark.
    unfold Tfsdb.generate_mark in Hmark.
    rewrite bool_decide_eq_true_2 in Hmark by discriminate.
    cbn [Py.bind] in Hmark. injection Hmark as <- <-.
    cbn [Tfsdb.marks]. apply lookup_insert_eq.
Defined.

Lemma unresolved_merge_allocates_nothing_witness :
  Tfsdb.merge_marks Tfsdb.no_marks (Tfsdb.merges sample_changeset) = Raise KeyError /\
  (sample_run false Tfsdb.no_marks).2
  = {| Tfsdb.mark_state := Tfsdb.no_marks; Tfsdb.warnings := [] |}.
Proof.
  assert (Hmm : Tfsdb.merge_marks Tfsdb.no_marks (Tfsdb.merges sample_changeset)
                = Raise KeyError) by (vm_compute; reflexivity).
  split; [exact Hmm|].
  exact (proj1 (unresolved_merge_allocates_nothing (Blocks := list bytes)
                  (fun _ => Ok [b "12345"]) (fun blocks => blocks)
                  (fun _ => Raise KeyError) sample_who_when
                  (fun _ => "2015-06-01 12:00:00+02:00") None
                  false sample_changeset
                  {| Tfsdb.mark_state := Tfsdb.no_marks; Tfsdb.warnings := [] |}
                  KeyError Hmm)).
Defined.

Lemma stop_after_is_a_prefix_witness :
  let s := {| Tfsdb.mark_state := sample_marks; Tfsdb.warnings := [] |} in
  7 <> 0 /\
  Tfsdb.fastexport_changesets (Blocks := list bytes)
    (fun _ => Ok [b "12345"]) (fun blocks => blocks) (fun _ => Raise KeyError)
    sample_who_when (fun _ => "2015-06-01 12:00:00+02:00") None
    7 false [sample_changeset; sample_changeset] s
  = ([], Ok tt, s).
Proof.
  intros s. split; [discriminate|].
  rewrite (stop_after_is_a_prefix (Blocks := list bytes)
             (fun _ => Ok [b "12345"]) (fun blocks => blocks)
             (fun _ => Raise KeyError) sample_who_when
             (fun _ => "2015-06-01 12:00:00+02:00") None
             7 false [sample_changeset; sample_changeset] s) by discriminate.
  reflexivity.
Defined.

(** ** Tags *)

Section TagLoop.

Import Tfsdb Fastimport Serialize Repo.

Context {Timestamp : Type}.
Variable who_when_of : User -> Timestamp -> result who_when.

(** X20: every tag that the loop over the labels yields belongs to one
    of the labels, one that is not beyond [stop_after] and for whose
    changeset and branch a non-zero mark is recorded: the tag points to
    that mark, and carries the mangled name and the comment of the label.
    When the loop ends without exception, every label that is not beyond
    [stop_after] gave either a tag or a warning. *)
Theorem tags_point_to_recorded_marks (stop_after : Z) (st : MarkState)
    (labels : list (Label Timestamp)) :
  let run := fastexport_tags who_when_of stop_after st labels in
  Forall (fun t =>
            exists lbl m,
              lbl ∈ labels
              /\ (stop_after = 0 \/ changesetId lbl <= stop_after)
              /\ marks st !! (changesetId lbl, lbl_branch lbl) = Some m
              /\ m <> 0
              /\ tag_from t = format_mark m
              /\ git_mangle_tagname (Some (lbl_name lbl)) = Ok (tag_id t)
              /\ tag_message t = lbl_comment lbl)
    (tags run)
  /\ (tag_error run = None ->
      (length (tags run) + length (tag_warnings run))%nat
      = length (filter (fun lbl => stop_after = 0 \/ changesetId lbl <= stop_after)
                  labels)).
Proof.
  cbv zeta. induction labels as [|lbl labels IH].
  - split; [constructor|reflexivity].
  - destruct IH as [IHtags IHcount].
    assert (IHtags' : Forall (fun t =>
              exists lbl' m,
                lbl' ∈ lbl :: labels
                /\ (stop_after = 0 \/ changesetId lbl' <= stop_after)
                /\ marks st !! (changesetId lbl', lbl_branch lbl') = Some m
                /\ m <> 0
                /\ tag_from t = format_mark m
                /\ git_mangle_tagname (Some (lbl_name lbl')) = Ok (tag_id t)
                /\ tag_message t = lbl_comment lbl')
              (tags (fastexport_tags who_when_of stop_after st labels))).
    { eapply Forall_impl; [exact IHtags|].
      intros t (lbl' & m & Hin & Hrest). exists lbl', m.
      split; [now apply list_elem_of_further|exact Hrest]. }
    cbn [fastexport_tags]. rewrite filter_cons.
    destruct (Z.eqb_spec stop_after 0) as [Hz|Hnz]; cbn [negb andb].
    + rewrite decide_True by now left.
      destruct (marks st !! (changesetId lbl, lbl_branch lbl)) as [m|] eqn:Hm;
        cbn [truthy_int negb].
      * destruct (Z.eqb_spec m 0) as [->|Hm0]; cbn [negb].
        -- cbn [tags tag_warnings tag_error length]. split; [exact IHtags'|].
           intros He. specialize (IHcount He). lia.
        -- cbn [git_mangle_tagname git_mangle_path Py.bind default].
           destruct (who_when_of _ _) as [w|e]; cbn [Py.bind].
           ++ cbn [tags tag_warnings tag_error length]. split.
              ** constructor; [|exact IHtags'].
                 exists lbl, m. split; [apply list_elem_of_here|].
                 split; [now left|]. repeat split; auto.
              ** intros He. specialize (IHcount He). lia.
           ++ cbn [tags tag_warnings tag_error]. split; [constructor|discriminate].
      * cbn [tags tag_warnings tag_error length]. split; [exact IHtags'|].
        intros He. specialize (IHcount He). lia.
    + destruct (Z.ltb_spec stop_after (changesetId lbl)) as [Hlt|Hge].
      * rewrite decide_False by (intros [?|?]; lia).
        split; [exact IHtags'|exact IHcount].
      * rewrite decide_True by now right.
        destruct (marks st !! (changesetId lbl, lbl_branch lbl)) as [m|] eqn:Hm;
          cbn [truthy_int negb].
        -- destruct (Z.eqb_spec m 0) as [->|Hm0]; cbn [negb].
           ++ cbn [tags tag_warnings tag_error length]. split; [exact IHtags'|].
              intros He. specialize (IHcount He). lia.
           ++ cbn [git_mangle_tagname git_mangle_path Py.bind default].
              destruct (who_when_of _ _) as [w|e]; cbn [Py.bind].
              ** cbn [tags tag_warnings tag_error length]. split.
                 --- constructor; [|exact IHtags'].
                     exists lbl, m. split; [apply list_elem_of_here|].
                     split; [now right|]. repeat split; auto.
                 --- intros He. specialize (IHcount He). lia.
              ** cbn [tags tag_warnings tag_error].
                 split; [constructor|discriminate].
        -- cbn [tags tag_warnings tag_error length]. split; [exact IHtags'|].
           intros He. specialize (IHcount He). lia.
Qed.

End TagLoop.

Lemma tags_point_to_recorded_marks_witness :
  let run := Repo.fastexport_tags sample_who_when 0 sample_marks sample_labels in
  Repo.tag_error run = None /\
  (length (Repo.tags run) + length (Repo.tag_warnings run))%nat = 2%nat /\
  map Serialize.tag_id (Repo.tags run) = ["Release_1.0_(main)"] /\
  map Serialize.tag_from (Repo.tags run) = [b ":500"].
Proof.
  intros run.
  assert (He : Repo.tag_error run = None) by reflexivity.
  split; [exact He|]. split.
  - exact (proj2 (tags_point_to_recorded_marks sample_who_when 0 sample_marks
                    sample_labels) He).
  - split; vm_compute; reflexivity.
Defined.

(** ** Changesets by branch *)

Section Changesets.

Import Tfsdb Repo.

Context {Timestamp : Type}.
Variable repo_hooks : ExporterHooks.
Variable get_user : Z -> result User.
Variable tfs_unmangle_timestamp : Timestamp -> Timestamp.
Variable select_filerows : Z -> list VersionRow.
Variable select_mergerows : Z -> list MergeRow.

Lemma dict_get_entries {V} (d : list (string * list V)) b :
  dict_get d b = match entries b d with
                 | [] => []
                 | (_, vs) :: _ => vs
                 end.
Proof.
  unfold entries. induction d as [|[k vs] d IH]; [reflexivity|].
  cbn [dict_get]. rewrite filter_cons. cbn [fst].
  destruct (String.eqb_spec k b) as [->|Hne].
  - now rewrite decide_True.
  - rewrite decide_False by assumption. exact IH.
Qed.

Lemma dict_get_group {V} (d : list (string * list V)) b vs :
  entries b d = group b vs -> dict_get d b = vs.
Proof. rewrite dict_get_entries. intros ->. destruct vs; reflexivity. Qed.

Lemma changesets_of_branches_ok csrow md o c :
  get_user (OwnerId csrow) = Ok o ->
  get_user (CommitterId csrow) = Ok c ->
  forall byBranch,
    changesets_of_branches repo_hooks get_user tfs_unmangle_timestamp
      csrow md byBranch
    = (map (fun '(br, rows) =>
              {| hooks := repo_hooks;
                 cs_id := ChangeSetId csrow;
                 owner := o;
                 creationDate := tfs_unmangle_timestamp (CreationDate csrow);
                 comment := Comment csrow;
                 committer := c;
                 branch := br;
                 rowsRelPaths := rows;
                 mergerows := dict_get md br |}) byBranch,
       None).
Proof.
  intros Ho Hc. induction byBranch as [|[br rows] rest IH]; [reflexivity|].
  cbn [changesets_of_branches map]. rewrite Ho, Hc. cbn [Py.bind].
  now rewrite IH.
Qed.

(** X21: a source changeset whose users can be looked up yields exactly
    one changeset for each branch under which one of its file rows is
    kept, and none for any other branch; each has the id and the users of
    the source changeset, the rows kept under its branch in the order of
    the query, and, when the changeset may have merges, the merge rows
    whose target path is kept under its branch. *)
Theorem changesets_one_per_branch (csrow : ChangeSetRow Timestamp) o c :
  get_user (OwnerId csrow) = Ok o ->
  get_user (CommitterId csrow) = Ok c ->
  let rows_of b :=
    values_for repo_hooks FullPath
      (fun row relpath => (file_columns row, relpath)) b
      (select_filerows (ChangeSetId csrow)) in
  exists css,
    changesets repo_hooks get_user tfs_unmangle_timestamp select_filerows
      select_mergerows [csrow] = (css, None)
    /\ NoDup (map branch css)
    /\ (forall b, b ∈ map branch css <-> rows_of b <> [])
    /\ Forall (fun cs =>
                 cs_id cs = ChangeSetId csrow
                 /\ owner cs = o /\ committer cs = c
                 /\ rowsRelPaths cs = rows_of (branch cs)
                 /\ mergerows cs
                    = if MayHaveMerges csrow =? 0 then []
                      else values_for repo_hooks TargetFullPath
                             (fun row _ => row) (branch cs)
                             (select_mergerows (ChangeSetId csrow)))
         css.
Proof.
  intros Ho Hc rows_of. cbn [changesets].
  rewrite (changesets_of_branches_ok csrow _ o c Ho Hc).
  set (d := filerowsRelpathsByBranch repo_hooks select_filerows (ChangeSetId csrow)).
  set (md := if negb (MayHaveMerges csrow =? 0) then _ else []).
  set (mk := fun '(br, rows) => _).
  assert (Hd : forall b, entries b d = group b (rows_of b)).
  { intros b. subst d rows_of. unfold filerowsRelpathsByBranch.
    apply split_entries. }
  assert (Hbr : map branch (map mk d) = d.*1).
  { clear Hd. induction d as [|[br rows] d IH]; [reflexivity|].
    cbn. now rewrite IH. }
  eexists. split; [rewrite app_nil_r; reflexivity|].
  split; [|split].
  - rewrite Hbr. apply entries_short_NoDup. intros b. rewrite Hd.
    apply group_length.
  - intros b. rewrite Hbr. rewrite list_elem_of_fmap. split.
    + intros ([b' vs] & -> & Hin). cbn [fst].
      apply elem_of_entries in Hin. rewrite Hd in Hin.
      apply elem_of_group in Hin. tauto.
    + intros Hne. exists (b, rows_of b). split; [reflexivity|].
      apply elem_of_entries. rewrite Hd. apply elem_of_group. auto.
  - apply Forall_forall. intros cs Hin.
    apply list_elem_of_In, in_map_iff in Hin as ([br rows] & <- & Hin).
    apply list_elem_of_In in Hin. subst mk. cbn.
    repeat split.
    + apply elem_of_entries in Hin. rewrite Hd in Hin.
      apply elem_of_group in Hin. tauto.
    + subst md. destruct (MayHaveMerges csrow =? 0); cbn [negb].
      * reflexivity.
      * apply dict_get_group. unfold mergeRowsByTargetBranch.
        apply split_entries.
Qed.

End Changesets.

Lemma changesets_one_per_branch_witness :
  exists css,
    Repo.changesets sample_hooks (fun _ => Ok sample_user) (fun t => t)
      (fun _ => sample_version_rows) (fun _ => []) [sample_csrow] = (css, None)
    /\ map Tfsdb.branch css = ["main"; "dev"]
    /\ map (fun cs => map snd (Tfsdb.rowsRelPaths cs)) css
       = [[Some "src\a.txt"; Some "b.txt"]; [Some "src\a.txt"]].
Proof.
  destruct (changesets_one_per_branch sample_hooks (fun _ => Ok sample_user)
              (fun t => t) (fun _ => sample_version_rows) (fun _ => [])
              sample_csrow sample_user sample_user eq_refl eq_refl)
    as (css & Hrun & _).
  exists css. split; [exact Hrun|].
  vm_compute in Hrun. injection Hrun as <-. split; reflexivity.
Defined.

(** ** The scratch directory *)

Section Scratch.

Import Tempdir.

Variable hash : string -> Z.
Variable os_path_join : string -> string -> string.





(** X22: a storage location handed out by [get_path] lies in the
    subdirectory of the scratch location that is named by the two
    hexadecimal digits of the name's hash modulo 256, and its name holds
    no parent navigation; the subdirectory table stays within the
    location.  A call that fails leaves the directory object and the
    disk as they were. *)
Theorem get_path_confined self name disk :
  subdirs_in_location os_path_join self ->
  match get_path hash os_path_join self name disk with
  | (Returned path, self1, disk1) =>
      contains_dotdot (str name) = false
      /\ 0 <= hash (str name) mod 256 < 256
      /\ path = os_path_join
                  (os_path_join (location self)
                     (fmt_02X (hash (str name) mod 256)))
                  (str name)
      /\ location self1 = location self
      /\ subdirs_in_location os_path_join self1
  | (Fails f, self1, disk1) => self1 = self /\ disk1 = disk
  end.
Proof.
  intros Hwf. unfold get_path.
  destruct (contains_dotdot (str name)); [split; reflexivity|].
  pose proof (Z.mod_pos_bound (hash (str name)) 256 ltac:(lia)) as Hkey.
  destruct (subdirs self !! (hash (str name) mod 256)) as [sub|] eqn:Hsub.
  - rewrite (Hwf _ _ Hsub). repeat split; auto; lia.
  - destruct (os_mkdir _ disk); [|split; reflexivity].
    repeat split; auto; try lia.
    intros k p. cbn [subdirs location].
    destruct (decide (k = hash (str name) mod 256)) as [->|Hne].
    + rewrite lookup_insert_eq. now intros [= <-].
    + rewrite lookup_insert_ne by congruence. apply Hwf.
Qed.



End Scratch.

Lemma get_path_confined_witness :
  subdirs_in_location sample_join sample_tempdir
  /\ fst (fst (Tempdir.get_path sample_hash sample_join sample_tempdir
                 (Tempdir.Int 42) sample_disk))
     = Tempdir.Returned "fe_tmp_swit/4A/42".
Proof.
  assert (Hwf : subdirs_in_location sample_join sample_tempdir).
  { intros k p Hk. cbn in Hk. rewrite lookup_empty in Hk. discriminate. }
  split; [exact Hwf|].
  pose proof (get_path_confined sample_hash sample_join sample_tempdir
                (Tempdir.Int 42) sample_disk Hwf) as H.
  destruct (Tempdir.get_path sample_hash sample_join sample_tempdir
              (Tempdir.Int 42) sample_disk) as [[[p|f] s] d] eqn:E.
  - destruct H as (_ & _ & -> & _). reflexivity.
  - vm_compute in E. discriminate.
Defined.



(** ** Labels *)

Section LabelLoop.

Import Tfsdb Repo Labels.

Lemma groupby_keys {A} (key : A -> Z) (l : list A) x :
  x ∈ l -> key x ∈ (groupby key l).*1.
Proof.
  induction l as [|y l IH]; intros Hin; [inversion Hin|].
  cbn [groupby].
  apply elem_of_cons in Hin as [->|Hl].
  - destruct (groupby key l) as [|[k g] gs]; cbn; [apply list_elem_of_here|].
    destruct (Z.eqb_spec (key y) k) as [->|Hne]; cbn; apply list_elem_of_here.
  - specialize (IH Hl).
    destruct (groupby key l) as [|[k g] gs]; [inversion IH|].
    destruct (key y =? k); cbn in *; [exact IH|].
    now apply list_elem_of_further.
Qed.

Lemma filter_none {A} (P : A -> Prop) `{forall x, Decision (P x)} (l : list A) :
  (forall x, x ∈ l -> ~ P x) -> filter P l = [].
Proof.
  intros Hno. destruct (filter P l) as [|y rest] eqn:Hf; [reflexivity|].
  assert (Hy : y ∈ filter P l) by (rewrite Hf; apply list_elem_of_here).
  apply list_elem_of_filter in Hy as [Hp Hy]. now destruct (Hno y Hy).
Qed.

Lemma groupby_sorted {A} (key : A -> Z) (l : list A) :
  StronglySorted Z.le (map key l) ->
  StronglySorted Z.lt ((groupby key l).*1)
  /\ forall k g, (k, g) ∈ groupby key l ->
       g = filter (fun x => key x = k) l /\ g <> [].
Proof.
  induction l as [|x l IH]; intros Hs.
  - split; [constructor|]. intros k g Hin. inversion Hin.
  - cbn [map] in Hs. apply StronglySorted_inv in Hs as [Hs Hle].
    destruct (IH Hs) as [Hkeys Hgroups]. clear IH.
    rewrite Forall_forall in Hle.
    assert (Hlow : forall y, y ∈ l -> key x <= key y).
    { intros y Hy. apply Hle, list_elem_of_In, in_map.
      now apply list_elem_of_In. }
    pose proof (groupby_keys key l) as Hcover.
    cbn [groupby].
    destruct (groupby key l) as [|[k g] gs].
    + assert (Hl : l = []).
      { destruct l as [|y l]; [reflexivity|].
        specialize (Hcover y ltac:(apply list_elem_of_here)). inversion Hcover. }
      subst l. split; [repeat constructor|].
      intros k g Hin. apply list_elem_of_singleton in Hin as [= -> ->].
      rewrite filter_cons, decide_True by reflexivity.
      split; [reflexivity|discriminate].
    + cbn [fmap list_fmap fst] in Hkeys, Hcover.
      apply StronglySorted_inv in Hkeys as [Hkeys Hlt].
      rewrite Forall_forall in Hlt.
      assert (Hgs : forall k' g', (k', g') ∈ gs -> k < k').
      { intros k' g' Hin. apply Hlt, list_elem_of_fmap.
        exists (k', g'). auto. }
      assert (Hk : key x <= k).
      { destruct (Hgroups k g ltac:(apply list_elem_of_here)) as [Hg Hne].
        destruct g as [|y g]; [congruence|].
        assert (Hy : y ∈ filter (fun x => key x = k) l)
          by (rewrite <- Hg; apply list_elem_of_here).
        apply list_elem_of_filter in Hy as [<- Hy]. now apply Hlow. }
      destruct (Z.eqb_spec (key x) k) as [Heq|Hne].
      * split; [cbn; constructor; [assumption|now apply Forall_forall]|].
        intros k' g' Hin. rewrite filter_cons.
        apply elem_of_cons in Hin as [[= -> ->]|Hin].
        -- rewrite decide_True by assumption.
           destruct (Hgroups k g ltac:(apply list_elem_of_here)) as [<- _].
           split; [reflexivity|discriminate].
        -- specialize (Hgs _ _ Hin). rewrite decide_False by lia.
           apply Hgroups. now apply list_elem_of_further.
      * split.
        -- cbn. constructor;
             [constructor; [assumption|now apply Forall_forall]|].
           apply Forall_forall. intros k' Hk'.
           apply elem_of_cons in Hk' as [->|Hk']; [lia|].
           specialize (Hlt k' Hk'). lia.
        -- intros k' g' Hin. rewrite filter_cons.
           apply elem_of_cons in Hin as [[= -> ->]|Hin].
           ++ rewrite decide_True by reflexivity. split; [|discriminate].
              f_equal. symmetry. apply filter_none.
              intros y Hy Hky. specialize (Hcover y Hy).
              apply elem_of_cons in Hcover as [Hc|Hc]; [lia|].
              specialize (Hlt (key y) Hc). lia.
           ++ assert (k <= k').
              { apply elem_of_cons in Hin as [[= -> ->]|Hin]; [lia|].
                specialize (Hgs _ _ Hin). lia. }
              rewrite decide_False by lia. now apply Hgroups.
Qed.


Variable hooks : ExporterHooks.

Lemma kept_entries_cons b row rows :
  kept_entries hooks b (row :: rows)
  = if decide (fst <$> kept hooks (FullPath row) = Some b)
    then row :: kept_entries hooks b rows
    else kept_entries hooks b rows.
Proof.
  unfold kept_entries, values_for. csimpl.
  destruct (kept hooks (FullPath row)) as [[br rp]|]; cbn.
  - destruct (decide (br = b)) as [->|Hne]; cbn.
    + now rewrite decide_True.
    + rewrite decide_False by congruence. reflexivity.
  - rewrite decide_False by discriminate. reflexivity.
Qed.

Lemma elem_of_kept_entries b r rows :
  r ∈ kept_entries hooks b rows -> r ∈ rows.
Proof.
  induction rows as [|row rows IH]; [intros H; inversion H|].
  rewrite kept_entries_cons. case_decide.
  - intros [->|Hin]%elem_of_cons; [apply list_elem_of_here|].
    apply list_elem_of_further; auto.
  - intros Hin. apply list_elem_of_further; auto.
Qed.

Lemma kept_entries_sorted b rows :
  StronglySorted Z.le (map LabelId rows) ->
  StronglySorted Z.le (map LabelId (kept_entries hooks b rows)).
Proof.
  induction rows as [|row rows IH]; intros Hs; [constructor|].
  cbn [map] in Hs. apply StronglySorted_inv in Hs as [Hs Hle].
  rewrite kept_entries_cons. case_decide; [|auto].
  cbn [map]. constructor; [auto|].
  rewrite Forall_forall in Hle. apply Forall_forall. intros k Hk.
  apply list_elem_of_In, in_map_iff in Hk as (r & <- & Hr).
  apply Hle, list_elem_of_In, in_map, list_elem_of_In.
  apply elem_of_kept_entries with b. now apply list_elem_of_In.
Qed.

Lemma split_kept_entries b rrs entryRows :
  (b, rrs) ∈ split_and_filter_file_rows entryRows hooks FullPath
               (fun row relpath => (row, relpath))
  <-> rrs <> []
      /\ rrs = values_for hooks FullPath (fun row relpath => (row, relpath))
                 b entryRows.
Proof.
  rewrite elem_of_entries, split_entries, elem_of_group.
  split; intros [Hne Heq]; subst; auto.
Qed.


Lemma add_branches_spec branch ids (d : gmap Z (gset string)) id b :
  b ∈ default ∅ (fold_left (fun d labelId => add_branch d branch labelId) ids d
                  !! id)
  <-> b ∈ default ∅ (d !! id) \/ (b = branch /\ id ∈ ids).
Proof.
  revert d. induction ids as [|i ids IH]; intros d; cbn [fold_left].
  - split; [auto|]. intros [H|[_ H]]; [assumption|inversion H].
  - rewrite IH. unfold add_branch at 1.
    destruct (decide (i = id)) as [->|Hne].
    + rewrite lookup_insert_eq. simpl.
      rewrite elem_of_union, elem_of_singleton, elem_of_cons. tauto.
    + rewrite lookup_insert_ne by assumption.
      rewrite elem_of_cons. split; [tauto|].
      intros [H|[H1 [H2|H2]]]; auto. congruence.
Qed.

Lemma branchesByLabelId_spec
    (byBranch : list (string * list (EntryRow * option string))) id b :
  b ∈ default ∅ (branchesByLabelId_of byBranch !! id)
  <-> exists rrs rr, (b, rrs) ∈ byBranch /\ rr ∈ rrs /\ LabelId rr.1 = id.
Proof.
  unfold branchesByLabelId_of.
  enough (Hgen : forall d : gmap Z (gset string),
    b ∈ default ∅ (fold_left
          (fun d '(branch, entryRowsRelpaths) =>
             fold_left (fun d labelId => add_branch d branch labelId)
               (elements (list_to_set (map (fun i => LabelId (fst i))
                                         entryRowsRelpaths) : gset Z))
               d) byBranch d !! id)
    <-> b ∈ default ∅ (d !! id)
        \/ exists rrs rr, (b, rrs) ∈ byBranch /\ rr ∈ rrs /\ LabelId rr.1 = id).
  { rewrite Hgen, lookup_empty. simpl.
    rewrite elem_of_empty. tauto. }
  induction byBranch as [|[branch rrs] rest IH]; intros d; cbn [fold_left].
  - split; [auto|]. intros [H|(rrs & rr & H & _)]; [assumption|inversion H].
  - rewrite IH, add_branches_spec, elem_of_elements, elem_of_list_to_set.
    split.
    + intros [[H|[-> Hid]]|(rrs' & rr & Hin & Hrr & Hid)]; auto.
      * right. apply list_elem_of_In, in_map_iff in Hid as (rr & Hid & Hrr).
        exists rrs, rr. split; [apply list_elem_of_here|].
        split; [now apply list_elem_of_In|assumption].
      * right. exists rrs', rr. split; [now apply list_elem_of_further|auto].
    + intros [H|(rrs' & rr & Hin & Hrr & Hid)]; auto.
      apply elem_of_cons in Hin as [[= -> ->]|Hin].
      * left. right. split; [reflexivity|].
        apply list_elem_of_In, in_map_iff. exists rr.
        split; [assumption|now apply list_elem_of_In].
      * right. exists rrs', rr. auto.
Qed.

Lemma size_gt_1 (S : gset string) b :
  b ∈ S -> ((1 <? Z.of_nat (size S)) = true <-> exists b', b' ∈ S /\ b' <> b).
Proof.
  intros Hb.
  assert (Hsize : size S = (1 + size (S ∖ {[ b ]}))%nat).
  { rewrite <- (size_singleton (C := gset string) b), <- size_union
      by (now apply disjoint_difference_r1).
    f_equal. apply union_difference_L, singleton_subseteq_l, Hb. }
  rewrite Z.ltb_lt. split.
  - intros Hgt. destruct (size_pos_elem_of (S ∖ {[ b ]})) as [b' Hb']; [lia|].
    exists b'. set_solver.
  - intros (b' & Hb' & Hne).
    assert (size (S ∖ {[ b ]}) <> 0%nat).
    { apply size_non_empty_iff. set_solver. }
    lia.
Qed.

Lemma single_version (l : list Z) v rest :
  (1 <? Z.of_nat (size (list_to_set l : gset Z))) = false ->
  elements (list_to_set l : gset Z) = v :: rest ->
  forall x, x ∈ l -> x = v.
Proof.
  intros Hsize Hel x Hx. apply Z.ltb_ge in Hsize.
  assert (Hv : v ∈ (list_to_set l : gset Z)).
  { apply elem_of_elements. rewrite Hel. apply list_elem_of_here. }
  assert (Hx' : x ∈ (list_to_set l : gset Z))
    by (apply elem_of_list_to_set; exact Hx).
  assert (size (list_to_set l : gset Z) <> 0%nat).
  { apply size_non_empty_iff. set_solver. }
  apply (size_singleton_inv (list_to_set l : gset Z)); [lia|assumption..].
Qed.

Lemma single_version_elements (l : list Z) v :
  l <> [] -> (forall x, x ∈ l -> x = v) ->
  (1 <? Z.of_nat (size (list_to_set l : gset Z))) = false
  /\ elements (list_to_set l : gset Z) = [v].
Proof.
  intros Hne Hall.
  assert (Hset : (list_to_set l : gset Z) = {[ v ]}).
  { apply set_eq. intros x. rewrite elem_of_list_to_set, elem_of_singleton.
    split; [auto|]. intros ->. destruct l as [|y l]; [congruence|].
    rewrite (Hall y) at 1; apply list_elem_of_here. }
  rewrite Hset, size_singleton, elements_singleton. split; reflexivity.
Qed.

Lemma two_versions (l : list Z) x y :
  x ∈ l -> y ∈ l -> x <> y ->
  (1 <? Z.of_nat (size (list_to_set l : gset Z))) = true.
Proof.
  intros Hx Hy Hne.
  destruct (1 <? Z.of_nat (size (list_to_set l : gset Z))) eqn:Hsize;
    [reflexivity|].
  destruct (elements (list_to_set l : gset Z)) as [|v rest] eqn:Hel.
  - apply elements_empty_inv in Hel.
    assert (Hx' : x ∈ (list_to_set l : gset Z))
      by (apply elem_of_list_to_set; exact Hx).
    set_solver.
  - pose proof (single_version l v rest Hsize Hel) as Hall.
    rewrite (Hall x Hx), (Hall y Hy) in Hne. congruence.
Qed.


Context {Timestamp : Type}.
Variable get_user : Z -> Py.result User.
Variable tfs_unmangle_timestamp : Timestamp -> Timestamp.

Lemma labels_of_groups_sound (labelRows : gmap Z (LabelRow Timestamp))
    (branchesByLabelId : gmap Z (gset string))
    branch groups lbl :
  lbl ∈ yielded (labels_of_groups get_user tfs_unmangle_timestamp labelRows
                   branchesByLabelId branch groups) ->
  exists id g labelRow v rest,
    (id, g) ∈ groups
    /\ labelRows !! id = Some labelRow
    /\ (1 <? Z.of_nat (size (list_to_set (map VersionFrom g) : gset Z))) = false
    /\ elements (list_to_set (map VersionFrom g) : gset Z) = v :: rest
    /\ built_from get_user tfs_unmangle_timestamp branchesByLabelId
         labelRow id branch v lbl.
Proof.
  induction groups as [|[id g] groups IH]; cbn [labels_of_groups];
    [intros H; inversion H|].
  assert (Hrest :
    lbl ∈ yielded (labels_of_groups get_user tfs_unmangle_timestamp labelRows
                     branchesByLabelId branch groups) ->
    exists id0 g0 labelRow v rest,
      (id0, g0) ∈ (id, g) :: groups
      /\ labelRows !! id0 = Some labelRow
      /\ (1 <? Z.of_nat (size (list_to_set (map VersionFrom g0) : gset Z))) = false
      /\ elements (list_to_set (map VersionFrom g0) : gset Z) = v :: rest
      /\ built_from get_user tfs_unmangle_timestamp branchesByLabelId
         labelRow id0 branch v lbl).
  { intros H. destruct (IH H) as (id0 & g0 & lr0 & v & rest & Hin & Hall).
    exists id0, g0, lr0, v, rest. split; [now apply list_elem_of_further|auto]. }
  destruct (labelRows !! id) as [labelRow|] eqn:Hlr; [|intros H; inversion H].
  destruct (1 <? _) eqn:Hsz; [exact Hrest|].
  destruct (elements _) as [|version others] eqn:Hel; [intros H; inversion H|].
  destruct (get_user (OwnerId labelRow)) as [user|e] eqn:Hu;
    [|intros H; inversion H].
  cbn [yielded]. intros [->|H]%elem_of_cons; [|auto].
  exists id, g, labelRow, version, others.
  split; [apply list_elem_of_here|]. repeat split; auto.
Qed.

Lemma labels_of_branches_sound (labelRows : gmap Z (LabelRow Timestamp))
    (branchesByLabelId : gmap Z (gset string))
    (byBranch : list (string * list (EntryRow * option string))) lbl :
  lbl ∈ yielded (labels_of_branches get_user tfs_unmangle_timestamp labelRows
                   branchesByLabelId byBranch) ->
  exists b rrs,
    (b, rrs) ∈ byBranch
    /\ lbl ∈ yielded (labels_of_groups get_user tfs_unmangle_timestamp
                        labelRows branchesByLabelId b
                        (groupby LabelId (map fst rrs))).
Proof.
  induction byBranch as [|[b rrs] rest IH]; cbn [labels_of_branches];
    [intros H; inversion H|].
  destruct (label_error _) eqn:Herr.
  - intros H. exists b, rrs. split; [apply list_elem_of_here|exact H].
  - cbn [yielded]. intros [H|H]%elem_of_app.
    + exists b, rrs. split; [apply list_elem_of_here|exact H].
    + destruct (IH H) as (b' & rrs' & Hin & Hl).
      exists b', rrs'. split; [now apply list_elem_of_further|exact Hl].
Qed.

Lemma labels_of_groups_complete (labelRows : gmap Z (LabelRow Timestamp))
    (branchesByLabelId : gmap Z (gset string))
    branch groups :
  label_error (labels_of_groups get_user tfs_unmangle_timestamp labelRows
                 branchesByLabelId branch groups) = None ->
  forall id g, (id, g) ∈ groups ->
  exists labelRow,
    labelRows !! id = Some labelRow
    /\ let versionsFrom : gset Z := list_to_set (map VersionFrom g) in
       if 1 <? Z.of_nat (size versionsFrom) then
         ignored_warning labelRow branch (size versionsFrom)
         ∈ label_warnings (labels_of_groups get_user tfs_unmangle_timestamp
                             labelRows branchesByLabelId branch groups)
       else
         exists lbl v rest,
           lbl ∈ yielded (labels_of_groups get_user tfs_unmangle_timestamp
                            labelRows branchesByLabelId branch groups)
           /\ elements versionsFrom = v :: rest
           /\ built_from get_user tfs_unmangle_timestamp branchesByLabelId
         labelRow id branch v lbl.
Proof.
  induction groups as [|[id0 g0] groups IH]; cbn [labels_of_groups];
    intros Herr id g Hin; [inversion Hin|].
  destruct (labelRows !! id0) as [labelRow|] eqn:Hlr; [|discriminate].
  destruct (1 <? Z.of_nat (size (list_to_set (map VersionFrom g0) : gset Z)))
    eqn:Hsz.
  - cbn [label_error label_warnings yielded] in *.
    apply elem_of_cons in Hin as [[= -> ->]|Hin].
    + exists labelRow. split; [assumption|]. cbv zeta. rewrite Hsz.
      apply list_elem_of_here.
    + destruct (IH Herr id g Hin) as (lr & Hl & Hcase).
      exists lr. split; [assumption|]. cbv zeta in *.
      destruct (1 <? Z.of_nat (size (list_to_set (map VersionFrom g) : gset Z)));
        [now apply list_elem_of_further|exact Hcase].
  - destruct (elements _) as [|version others] eqn:Hel; [discriminate|].
    destruct (get_user (OwnerId labelRow)) as [user|e] eqn:Hu; [|discriminate].
    cbn [label_error label_warnings yielded] in *.
    apply elem_of_cons in Hin as [[= -> ->]|Hin].
    + exists labelRow. split; [assumption|]. cbv zeta. rewrite Hsz.
      eexists _, version, others. split; [apply list_elem_of_here|].
      split; [assumption|]. repeat split; auto.
    + destruct (IH Herr id g Hin) as (lr & Hl & Hcase).
      exists lr. split; [assumption|]. cbv zeta in *.
      destruct (1 <? Z.of_nat (size (list_to_set (map VersionFrom g) : gset Z)));
        [exact Hcase|].
      destruct Hcase as (lbl & v & rest & Hy & Hrest).
      exists lbl, v, rest. split; [now apply list_elem_of_further|exact Hrest].
Qed.

Lemma labels_of_branches_complete (labelRows : gmap Z (LabelRow Timestamp))
    (branchesByLabelId : gmap Z (gset string))
    (byBranch : list (string * list (EntryRow * option string))) :
  label_error (labels_of_branches get_user tfs_unmangle_timestamp labelRows
                 branchesByLabelId byBranch) = None ->
  forall b rrs, (b, rrs) ∈ byBranch ->
  let r := labels_of_groups get_user tfs_unmangle_timestamp labelRows
             branchesByLabelId b (groupby LabelId (map fst rrs)) in
  label_error r = None
  /\ (forall lbl, lbl ∈ yielded r ->
        lbl ∈ yielded (labels_of_branches get_user tfs_unmangle_timestamp
                         labelRows branchesByLabelId byBranch))
  /\ (forall w, w ∈ label_warnings r ->
        w ∈ label_warnings (labels_of_branches get_user
                              tfs_unmangle_timestamp labelRows
                              branchesByLabelId byBranch)).
Proof.
  induction byBranch as [|[b0 rrs0] rest IH]; cbn [labels_of_branches];
    intros Herr b rrs Hin; [inversion Hin|].
  destruct (label_error (labels_of_groups _ _ _ _ b0 _)) eqn:Herr0.
  - rewrite Herr0 in Herr. discriminate.
  - cbn [label_error yielded label_warnings] in *.
    apply elem_of_cons in Hin as [[= -> ->]|Hin].
    + split; [assumption|]. split; intros x Hx; apply elem_of_app; auto.
    + destruct (IH Herr b rrs Hin) as (He & Hy & Hw).
      split; [assumption|]. split; intros x Hx; apply elem_of_app; auto.
Qed.




Lemma label_entries_nonempty b id entryRows :
  label_entries hooks b id entryRows <> []
  <-> exists r, r ∈ kept_entries hooks b entryRows /\ LabelId r = id.
Proof.
  unfold label_entries. split.
  - intros Hne. destruct (filter _ _) as [|r rest] eqn:Hf; [congruence|].
    assert (Hr : r ∈ filter (fun r => LabelId r = id)
                       (kept_entries hooks b entryRows))
      by (rewrite Hf; apply list_elem_of_here).
    apply list_elem_of_filter in Hr as [Hid Hr]. eauto.
  - intros (r & Hr & Hid) Hnil.
    now apply (filter_nil_not_elem_of _ _ r Hnil Hid).
Qed.

Lemma branch_has_label b id entryRows :
  b ∈ default ∅
        (branchesByLabelId_of
           (split_and_filter_file_rows entryRows hooks FullPath
              (fun row relpath => (row, relpath))) !! id)
  <-> label_entries hooks b id entryRows <> [].
Proof.
  rewrite branchesByLabelId_spec, label_entries_nonempty. split.
  - intros (rrs & rr & Hin & Hrr & Hid).
    apply split_kept_entries in Hin as [_ ->].
    exists rr.1. split; [|assumption]. unfold kept_entries.
    apply list_elem_of_In, in_map, list_elem_of_In, Hrr.
  - intros (r & Hr & Hid). unfold kept_entries in Hr.
    apply list_elem_of_In, in_map_iff in Hr as (rr & <- & Hrr).
    apply list_elem_of_In in Hrr.
    eexists _, rr. split; [|split; [exact Hrr|exact Hid]].
    apply split_kept_entries. split; [|reflexivity].
    intros Hnil. rewrite Hnil in Hrr. inversion Hrr.
Qed.

Lemma group_of_branch b rrs id g entryRows :
  StronglySorted Z.le (map LabelId entryRows) ->
  (b, rrs) ∈ split_and_filter_file_rows entryRows hooks FullPath
               (fun row relpath => (row, relpath)) ->
  (id, g) ∈ groupby LabelId (map fst rrs) ->
  g = label_entries hooks b id entryRows /\ g <> [].
Proof.
  intros Hs Hin Hg. apply split_kept_entries in Hin as [_ ->].
  change (map fst (values_for hooks FullPath
                     (fun row relpath => (row, relpath)) b entryRows))
    with (kept_entries hooks b entryRows) in Hg.
  destruct (groupby_sorted LabelId _ (kept_entries_sorted b _ Hs)) as [_ Hgr].
  exact (Hgr _ _ Hg).
Qed.

(** X25: with the label entries in the order of their label ids, every
    label that [labels] yields stands for one label row on one branch:
    the label has entries kept under that branch, all of them at the
    changeset the label names; its name is the label's name, followed by
    the branch in square brackets exactly when the label also has
    entries kept under another branch; comment, user and date are those
    of the label row. *)
Theorem labels_sound (labelRows : list (LabelRow Timestamp))
    (entryRows : list EntryRow) (lbl : Label Timestamp) :
  StronglySorted Z.le (map LabelId entryRows) ->
  lbl ∈ yielded (labels hooks get_user tfs_unmangle_timestamp labelRows
                   entryRows) ->
  exists id labelRow,
    let entries b := label_entries hooks b id entryRows in
    labelRows_by_id labelRows !! id = Some labelRow
    /\ entries (lbl_branch lbl) <> []
    /\ (forall r, r ∈ entries (lbl_branch lbl) ->
          VersionFrom r = changesetId lbl)
    /\ ((exists b, b <> lbl_branch lbl /\ entries b <> []) ->
        lbl_name lbl
        = LabelName labelRow +:+ " [" +:+ lbl_branch lbl +:+ "]")
    /\ ((forall b, b <> lbl_branch lbl -> entries b = []) ->
        lbl_name lbl = LabelName labelRow)
    /\ lbl_comment lbl = Comment labelRow
    /\ get_user (OwnerId labelRow) = Ok (lbl_user lbl)
    /\ lbl_creationDate lbl
       = tfs_unmangle_timestamp (LastModified labelRow).
Proof.
  intros Hs Hin. unfold labels in Hin.
  apply labels_of_branches_sound in Hin as (b & rrs & Hb & Hin).
  apply labels_of_groups_sound
    in Hin as (id & g & labelRow & v & rest & Hg & Hlr & Hsz & Hel & Hbuilt).
  destruct (group_of_branch _ _ _ _ _ Hs Hb Hg) as [-> Hne].
  destruct Hbuilt as (Hv & Hbr & Hname & Hc & Hu & Hd).
  exists id, labelRow. cbv zeta. rewrite Hbr.
  assert (Hmine : b ∈ default ∅
        (branchesByLabelId_of
           (split_and_filter_file_rows entryRows hooks FullPath
              (fun row relpath => (row, relpath))) !! id))
    by now apply branch_has_label.
  pose proof (size_gt_1 _ _ Hmine) as Hmulti.
  split; [assumption|]. split; [assumption|]. split.
  { intros r Hr. rewrite Hv.
    apply (single_version _ _ _ Hsz Hel).
    apply list_elem_of_In, in_map. now apply list_elem_of_In. }
  split.
  { intros (b' & Hb' & Hne').
    rewrite Hname, (proj2 Hmulti); [reflexivity|].
    exists b'. split; [now apply branch_has_label|assumption]. }
  split; [|auto].
  intros Hnone. rewrite Hname.
  match goal with
  | |- (if ?c then _ else _) = _ => destruct c eqn:Hgt; [|reflexivity]
  end.
  destruct (proj1 Hmulti eq_refl) as (b' & Hb' & Hne').
  apply branch_has_label in Hb'. now destruct (Hb' (Hnone b' Hne')).
Qed.

(** X26: with the label entries in the order of their label ids, a run
    of [labels] that ends without an exception leaves out no label: for
    a label with entries kept under a branch there is a label row; when
    all these entries are at one changeset, a label is yielded for the
    branch at that changeset, named after the label row; when they are
    at different changesets, the warning hook is told that the label is
    ignored on the branch. *)
Theorem labels_complete (labelRows : list (LabelRow Timestamp))
    (entryRows : list EntryRow) (b : string) (id : Z) :
  let run := labels hooks get_user tfs_unmangle_timestamp labelRows
               entryRows in
  let entries := label_entries hooks b id entryRows in
  StronglySorted Z.le (map LabelId entryRows) ->
  label_error run = None ->
  entries <> [] ->
  exists labelRow,
    labelRows_by_id labelRows !! id = Some labelRow
    /\ ((forall r r', r ∈ entries -> r' ∈ entries ->
           VersionFrom r = VersionFrom r') ->
        exists lbl,
          lbl ∈ yielded run
          /\ lbl_branch lbl = b
          /\ (forall r, r ∈ entries -> VersionFrom r = changesetId lbl)
          /\ (lbl_name lbl = LabelName labelRow
              \/ lbl_name lbl = LabelName labelRow +:+ " [" +:+ b +:+ "]")
          /\ lbl_comment lbl = Comment labelRow)
    /\ ((exists r r', r ∈ entries /\ r' ∈ entries
                      /\ VersionFrom r <> VersionFrom r') ->
        exists n, ignored_warning labelRow b n ∈ label_warnings run).
Proof.
  intros run entries Hs Herr Hne. subst run entries. unfold labels in *.
  set (byBranch := split_and_filter_file_rows entryRows hooks FullPath
                     (fun row relpath => (row, relpath))) in *.
  pose proof Hne as Hex. apply label_entries_nonempty in Hex as (r0 & Hr0 & Hid).
  assert (Hb : (b, values_for hooks FullPath (fun row relpath => (row, relpath))
                     b entryRows) ∈ byBranch).
  { apply split_kept_entries. split; [|reflexivity].
    intros Hnil. unfold kept_entries in Hr0. rewrite Hnil in Hr0.
    inversion Hr0. }
  destruct (labels_of_branches_complete _ _ _ Herr _ _ Hb) as (Herr' & Hy & Hw).
  change (map fst (values_for hooks FullPath
                     (fun row relpath => (row, relpath)) b entryRows))
    with (kept_entries hooks b entryRows) in *.
  pose proof (groupby_keys LabelId _ _ Hr0) as Hkey. rewrite Hid in Hkey.
  apply list_elem_of_fmap in Hkey as ([id' g] & Hid' & Hg). cbn in Hid'. subst id'.
  destruct (groupby_sorted LabelId _ (kept_entries_sorted b _ Hs)) as [_ Hgr].
  destruct (Hgr _ _ Hg) as [Hgeq _].
  change (filter (fun x => LabelId x = id) (kept_entries hooks b entryRows))
    with (label_entries hooks b id entryRows) in Hgeq. subst g.
  destruct (labels_of_groups_complete _ _ _ _ Herr' _ _ Hg)
    as (labelRow & Hlr & Hcase).
  exists labelRow. split; [assumption|]. cbv zeta in Hcase. split.
  - intros Hsame.
    destruct (label_entries hooks b id entryRows) as [|r1 rs] eqn:Hle;
      [congruence|].
    destruct (single_version_elements (map VersionFrom (r1 :: rs))
                (VersionFrom r1) ltac:(discriminate)) as [Hsz Hel].
    { intros x Hx. apply list_elem_of_In, in_map_iff in Hx as (r & <- & Hr).
      apply Hsame; [now apply list_elem_of_In|apply list_elem_of_here]. }
    rewrite Hsz in Hcase.
    destruct Hcase as (lbl & v & rest & Hin & Hel' & Hbuilt).
    rewrite Hel in Hel'. injection Hel' as <- <-.
    destruct Hbuilt as (Hv & Hbr & Hname & Hc & Hu & Hd).
    exists lbl. split; [now apply Hy|]. split; [assumption|].
    split.
    { intros r Hr. rewrite Hv. apply Hsame; [assumption|apply list_elem_of_here]. }
    split; [|assumption].
    rewrite Hname.
    match goal with
    | |- context [if ?c then _ else _] => destruct c; auto
    end.
  - intros (r & r' & Hr & Hr' & Hdiff).
    rewrite (two_versions _ (VersionFrom r) (VersionFrom r')) in Hcase.
    + eexists. apply Hw, Hcase.
    + apply list_elem_of_In, in_map. now apply list_elem_of_In.
    + apply list_elem_of_In, in_map. now apply list_elem_of_In.
    + assumption.
Qed.

End LabelLoop.

Lemma labels_sound_witness :
  exists id labelRow,
    let entries b := label_entries sample_hooks b id sample_entry_rows in
    Labels.labelRows_by_id sample_label_rows !! id = Some labelRow
    /\ entries (Repo.lbl_branch sample_label) <> []
    /\ (forall r, r ∈ entries (Repo.lbl_branch sample_label) ->
          Labels.VersionFrom r = Repo.changesetId sample_label)
    /\ ((exists b, b <> Repo.lbl_branch sample_label /\ entries b <> []) ->
        Repo.lbl_name sample_label
        = Labels.LabelName labelRow +:+ " ["
          +:+ Repo.lbl_branch sample_label +:+ "]")
    /\ ((forall b, b <> Repo.lbl_branch sample_label -> entries b = []) ->
        Repo.lbl_name sample_label = Labels.LabelName labelRow)
    /\ Repo.lbl_comment sample_label = Labels.Comment labelRow
    /\ Ok sample_user = Ok (Repo.lbl_user sample_label)
    /\ Repo.lbl_creationDate sample_label = Labels.LastModified labelRow.
Proof.
  apply (labels_sound sample_hooks (fun _ => Ok sample_user) (fun t => t)
           sample_label_rows sample_entry_rows sample_label).
  - cbn. repeat first [apply SSorted_nil | apply SSorted_cons | constructor | lia].
  - vm_compute. apply list_elem_of_further, list_elem_of_here.
Defined.

Lemma labels_complete_witness :
  let run := sample_label_run in
  let entries := label_entries sample_hooks "main" 2 sample_entry_rows in
  exists labelRow,
    Labels.labelRows_by_id sample_label_rows !! 2 = Some labelRow
    /\ ((forall r r', r ∈ entries -> r' ∈ entries ->
           Labels.VersionFrom r = Labels.VersionFrom r') ->
        exists lbl,
          lbl ∈ Labels.yielded run
          /\ Repo.lbl_branch lbl = "main"
          /\ (forall r, r ∈ entries ->
                Labels.VersionFrom r = Repo.changesetId lbl)
          /\ (Repo.lbl_name lbl = Labels.LabelName labelRow
              \/ Repo.lbl_name lbl
                 = Labels.LabelName labelRow +:+ " [" +:+ "main" +:+ "]")
          /\ Repo.lbl_comment lbl = Labels.Comment labelRow)
    /\ ((exists r r', r ∈ entries /\ r' ∈ entries
                      /\ Labels.VersionFrom r <> Labels.VersionFrom r') ->
        exists n, ignored_warning labelRow "main" n ∈ Labels.label_warnings run).
Proof.
  apply (labels_complete sample_hooks (fun _ => Ok sample_user) (fun t => t)
           sample_label_rows sample_entry_rows "main" 2).
  - cbn. repeat first [apply SSorted_nil | apply SSorted_cons | constructor | lia].
  - vm_compute. reflexivity.
  - vm_compute. discriminate.
Defined.
